(** * DOGAPI: dog images by breed, re-uploaded to a cloud disk

    A shallow embedding of [DOGAPI.py] and the properties of its
    specification.

    Conventions of the embedding.
    - A Python [str] is a [string]; a character is its code point, below 256.
    - An integer (an HTTP status code, a timeout in seconds) is a [Z].
    - A [dict] read from JSON is a [gmap] with string keys; [None] is the
      [None] of [option], and a value that is [None] or a [str] is an
      [option string]: the message of an image answer, the URL handed to
      the file name helper and to the uploader, a parameter of a request.
    - The network, the terminal and the file system are fields of the state
      the program runs in; an exception is the [Raise] outcome of a step.
    - The network is a script: for each service, the answers it will give to
      the requests, in order. A request without an answer is a transport
      error (a timeout, a refused connection).
    - The body of an answer of the image service is a JSON document: an
      object, whose [status] and [message] members may each be absent, or a
      document that is not an object. A [message] is [null] or a value of the
      kind the endpoint documents (a URL; the breed list or a text); numbers,
      booleans and arrays as messages, and bodies that are not JSON, are
      left out.
    - [os.path] is [posixpath]; [urllib.parse] follows CPython 3.11/3.12,
      with the two checks of the network location that depend on the
      release left as an interface ([UrlChecks]). *)

From Stdlib Require Import ZArith String Ascii Strings.Byte List Bool Lia.
From stdpp Require Import gmap strings list.

#[local] Set Warnings "-register-all".
#[local] Open Scope string_scope.
#[local] Open Scope Z_scope.

(** ** Characters and the [str] methods the program calls *)

Module Str.

Definition ord (c : ascii) : Z := Z.of_N (N_of_ascii c).

Definition between (lo hi : Z) (c : ascii) : bool :=
  (lo <=? ord c) && (ord c <=? hi).

(** [c.isspace()] on the code points below 256. *)
Definition isspace (c : ascii) : bool :=
  between 9 13 c || between 28 32 c || (ord c =? 133) || (ord c =? 160).

Definition isascii (c : ascii) : bool := ord c <? 128.

(** [c.isalpha()] for an ASCII character. *)
Definition isalpha (c : ascii) : bool := between 65 90 c || between 97 122 c.

Definition isdigit (c : ascii) : bool := between 48 57 c.

(** [c.lower()] on the code points below 256: the ASCII capitals and the
    Latin-1 capitals (all of 192..222 but the multiplication sign). *)
Definition lower_char (c : ascii) : ascii :=
  if between 65 90 c || (between 192 222 c && negb (ord c =? 215))
  then ascii_of_N (Z.to_N (ord c + 32))
  else c.

Fixpoint lower (s : string) : string :=
  match s with
  | EmptyString => EmptyString
  | String c r => String (lower_char c) (lower r)
  end.

(** [s.lstrip(chars)], the characters given as a predicate. *)
Fixpoint lstrip (p : ascii -> bool) (s : string) : string :=
  match s with
  | EmptyString => EmptyString
  | String c r => if p c then lstrip p r else s
  end.

(** [s.rstrip(chars)]. *)
Fixpoint rstrip (p : ascii -> bool) (s : string) : string :=
  match s with
  | EmptyString => EmptyString
  | String c r =>
      match rstrip p r with
      | EmptyString => if p c then EmptyString else String c EmptyString
      | r' => String c r'
      end
  end.

(** [s.strip()]. *)
Definition strip (s : string) : string := rstrip isspace (lstrip isspace s).

(** [c in s] for a character [c]. *)
Fixpoint has (c : ascii) (s : string) : bool :=
  match s with
  | EmptyString => false
  | String a r => Ascii.eqb a c || has c r
  end.

(** [s.startswith(prefix)]. *)
Fixpoint startswith (s prefix : string) : bool :=
  match prefix, s with
  | EmptyString, _ => true
  | String _ _, EmptyString => false
  | String a prefix', String b s' => Ascii.eqb a b && startswith s' prefix'
  end.

(** [sub in s] for strings. *)
Fixpoint contains (sub s : string) : bool :=
  startswith s sub ||
  match s with
  | EmptyString => false
  | String _ r => contains sub r
  end.

(** Every character of [s] satisfies [p]. *)
Fixpoint all (p : ascii -> bool) (s : string) : bool :=
  match s with
  | EmptyString => true
  | String a r => p a && all p r
  end.

(** [s.replace(c, "")] for each character [c] that satisfies [p]. *)
Fixpoint remove (p : ascii -> bool) (s : string) : string :=
  match s with
  | EmptyString => EmptyString
  | String a r => if p a then remove p r else String a (remove p r)
  end.

(** [s.partition(c)] at the first [c]: the text before it and the text after
    it, [None] when [c] does not occur ([s.find(c) < 0]). *)
Fixpoint split_first (c : ascii) (s : string) : option (string * string) :=
  match s with
  | EmptyString => None
  | String a r =>
      if Ascii.eqb a c then Some (EmptyString, r)
      else match split_first c r with
           | Some (h, t) => Some (String a h, t)
           | None => None
           end
  end.

(** [s.rpartition(c)] at the last [c], [None] when [s.rfind(c) < 0]. *)
Fixpoint split_last (c : ascii) (s : string) : option (string * string) :=
  match s with
  | EmptyString => None
  | String a r =>
      match split_last c r with
      | Some (h, t) => Some (String a h, t)
      | None => if Ascii.eqb a c then Some (EmptyString, r) else None
      end
  end.

(** The longest prefix of [s] with no character satisfying [p], and the rest
    (which starts at the first such character). *)
Fixpoint break (p : ascii -> bool) (s : string) : string * string :=
  match s with
  | EmptyString => (EmptyString, EmptyString)
  | String a r =>
      if p a then (EmptyString, s)
      else let '(h, t) := break p r in (String a h, t)
  end.

(** [s[n:]]. *)
Fixpoint drop (n : nat) (s : string) : string :=
  match n, s with
  | O, _ => s
  | S n', String _ r => drop n' r
  | S _, EmptyString => EmptyString
  end.

(** [s.endswith(suffix)]. *)
Fixpoint endswith (s suffix : string) : bool :=
  String.eqb s suffix ||
  match s with
  | EmptyString => false
  | String _ r => endswith r suffix
  end.

End Str.

(** ** Exceptions *)

(** The exception classes the program can meet. All of them derive from
    [Exception]; [ConnectionError] (a timeout, a refused or broken
    connection) and [HTTPError] (raised by [raise_for_status]) derive from
    [requests.RequestException]. *)
Inductive exn : Type :=
| ConnectionError
| HTTPError (status_code : Z)
| ApiStatusError (message : option string)
| ImageRequestError (cause : exn)
| ValueError
| TypeError
| KeyError
| AttributeError
| OSError.

Definition is_RequestException (e : exn) : bool :=
  match e with
  | ConnectionError | HTTPError _ => true
  | _ => false
  end.

(** What evaluating a piece of code gives: a value, or a raised exception. *)
Inductive outcome (A : Type) : Type :=
| Return (a : A)
| Raise (e : exn).
Arguments Return {A} a.
Arguments Raise {A} e.

#[global] Instance outcome_ret : MRet outcome := fun A a => Return a.
#[global] Instance outcome_bind : MBind outcome := fun A B k c =>
  match c with
  | Return a => k a
  | Raise e => Raise e
  end.

(** ** [posixpath] *)

Module posixpath.

Definition sep : ascii := "/"%char.

(** [i = p.rfind(sep) + 1; return p[i:]]. *)
Definition basename (p : string) : string :=
  match Str.split_last sep p with
  | Some (_, tail) => tail
  | None => p
  end.

(** [i = p.rfind(sep) + 1; head = p[:i]], then the trailing separators of
    [head] are stripped unless [head] is empty or made of separators only. *)
Definition dirname (p : string) : string :=
  let head :=
    match Str.split_last sep p with
    | Some (h, _) => h ++ String sep EmptyString
    | None => EmptyString
    end in
  if negb (String.eqb head EmptyString) && negb (Str.all (Ascii.eqb sep) head)
  then Str.rstrip (Ascii.eqb sep) head
  else head.

End posixpath.

(** ** [urllib.parse] *)

(** Two checks of [urlsplit] consult tables of the interpreter (the syntax of
    IP addresses, Unicode normalisation) and differ between releases; they
    are an interface of the embedding. Each answers whether the network
    location passes; a failed check raises [ValueError]. *)
Class UrlChecks : Type := {
  (** asked when the location has both an opening and a closing bracket *)
  check_bracketed_netloc : string -> bool;
  (** asked when the location has a character that is not ASCII *)
  check_nfkc : string -> bool
}.

Module urllib.

Record SplitResult : Type := {
  scheme : string;
  netloc : string;
  path : string;
  query : string;
  fragment : string
}.

Definition scheme_char (c : ascii) : bool :=
  Str.isalpha c || Str.isdigit c || Str.has c "+-.".

Definition uses_params : list string :=
  [""; "ftp"; "hdl"; "prospero"; "http"; "imap"; "https"; "shttp"; "rtsp";
   "rtspu"; "sip"; "sips"; "mms"; "sftp"; "tel"].

(** [url.lstrip(_WHATWG_C0_CONTROL_OR_SPACE)]: code points 0 to 32. *)
Definition c0_control_or_space (c : ascii) : bool := Str.between 0 32 c.

(** [_UNSAFE_URL_BYTES_TO_REMOVE]: tab, carriage return, line feed. *)
Definition unsafe_byte (c : ascii) : bool :=
  (Str.ord c =? 9) || (Str.ord c =? 13) || (Str.ord c =? 10).

(** The scheme, when the text before the first colon is one:
    [i = url.find(':')], [i > 0], [url[0]] an ASCII letter and every
    character of [url[:i]] a scheme character. *)
Definition split_scheme (url : string) : string * string :=
  match Str.split_first ":"%char url with
  | Some (String c0 r as before, after) =>
      if Str.isascii c0 && Str.isalpha c0 && Str.all scheme_char before
      then (Str.lower before, after)
      else (EmptyString, url)
  | _ => (EmptyString, url)
  end.

Definition netloc_delimiter (c : ascii) : bool := Str.has c "/?#".

(** [_splitnetloc(url, 2)]. *)
Definition _splitnetloc (url : string) : string * string :=
  Str.break netloc_delimiter (Str.drop 2 url).

(** The checks of the brackets of a network location: one without the
    other is an error; both call for the check of the bracketed host. *)
Definition bracket_check `{UrlChecks} (netloc : string) : outcome unit :=
  let lb := Str.has "["%char netloc in
  let rb := Str.has "]"%char netloc in
  if (lb && negb rb) || (rb && negb lb) then Raise ValueError
  else if lb && rb then
    if check_bracketed_netloc netloc then Return tt else Raise ValueError
  else Return tt.

(** [_checknetloc(netloc)]: nothing to check in an empty or ASCII location. *)
Definition _checknetloc `{UrlChecks} (netloc : string) : outcome unit :=
  if String.eqb netloc EmptyString || Str.all Str.isascii netloc then Return tt
  else if check_nfkc netloc then Return tt else Raise ValueError.

Definition urlsplit `{UrlChecks} (url : string) : outcome SplitResult :=
  let url := Str.lstrip c0_control_or_space url in
  let url := Str.remove unsafe_byte url in
  let '(scheme, url) := split_scheme url in
  '(netloc, url) ←
    (if Str.startswith url "//"
     then let '(netloc, url) := _splitnetloc url in
          _ ← bracket_check netloc; mret (netloc, url)
     else mret (EmptyString, url));
  let '(url, fragment) :=
    match Str.split_first "#"%char url with
    | Some (h, t) => (h, t)
    | None => (url, EmptyString)
    end in
  let '(url, query) :=
    match Str.split_first "?"%char url with
    | Some (h, t) => (h, t)
    | None => (url, EmptyString)
    end in
  _ ← _checknetloc netloc;
  mret {| scheme := scheme; netloc := netloc; path := url;
          query := query; fragment := fragment |}.

(** [_splitparams(url)], its first component; called when [';' in url]. *)
Definition _splitparams (url : string) : string :=
  match Str.split_last "/"%char url with
  | Some (h, t) =>
      match Str.split_first ";"%char t with
      | Some (t', _) => h ++ "/" ++ t'
      | None => url
      end
  | None =>
      match Str.split_first ";"%char url with
      | Some (h, _) => h
      | None => url
      end
  end.

(** [_coerce_args(url)] for an argument that is [None] or a [str]: a [str]
    is taken as it is, and [None], which is neither a [str] nor true, is
    decoded to the empty string. *)
Definition _coerce_args (url : option string) : string :=
  match url with
  | Some url => url
  | None => EmptyString
  end.

(** [urlparse(url).path]: the path of [urlsplit], cut at the parameters of
    its last segment when the scheme is one that has them. (For [None] the
    path is the empty [bytes], which the caller treats as the empty
    string.) *)
Definition urlparse_path `{UrlChecks} (url : option string) : outcome string :=
  let url := _coerce_args url in
  r ← urlsplit url;
  if bool_decide (scheme r ∈ uses_params) && Str.has ";"%char (path r)
  then mret (_splitparams (path r))
  else mret (path r).

End urllib.

(** ** [ImageFilenameHelper] *)

Module ImageFilenameHelper.

Definition get_filename_from_url `{UrlChecks} (url : option string) : outcome string :=
  p ← urllib.urlparse_path url;
  let filename := posixpath.basename p in
  if String.eqb filename EmptyString || negb (Str.has "."%char filename)
  then mret "image.jpg"
  else mret filename.

End ImageFilenameHelper.

(** ** The state the program runs in *)

Inductive method : Type := GET | PUT | POST.

(** A call of [requests.get], [requests.put] or [requests.post] as issued:
    [timeout] is in seconds. *)
Record request : Type := {
  req_method : method;
  req_url : string;
  req_headers : list (string * string);
  (** a parameter whose value is [None] is [None] here *)
  req_params : list (string * option string);
  req_timeout : Z
}.

(** What the network does with one request: no answer (a timeout, a
    connection failure), or an HTTP response. *)
Inductive http_reply (B : Type) : Type :=
| NoReply
| Reply (code : Z) (body : B).
Arguments NoReply {B}.
Arguments Reply {B} code body.

Record response (B : Type) : Type := {
  status_code : Z;
  json : B
}.
Arguments status_code {B} _.
Arguments json {B} _.

(** What [response.json()] gives for an answer of the image service: a
    [dict] with its [status] and its [message], each [None] when the key is
    absent, or a value that is not a [dict]. A status that is not a string
    is never equal to "success" and stands here as any other text. The
    message is typed by the endpoint: [option string] for a random image
    ([None] is JSON's [null], a [str] is the URL), and [breeds_message] for
    the breed list. *)
Inductive api_body (A : Type) : Type :=
| NotObject
| Object (status : option string) (message : option A).
Arguments NotObject {A}.
Arguments Object {A} status message.

(** The body with both members. *)
Definition body_of {A : Type} (status : string) (message : A) : api_body A :=
  Object (Some status) (Some message).

(** [message] of the breed list: [null], the mapping from a breed to its
    sub-breeds, or, as in the service's error reports, a text. *)
Inductive breeds_message : Type :=
| Null
| Mapping (m : gmap string (list string))
| Text (s : string).

Inductive upload_status : Type := uploaded | failed.

(** One entry of [DogImageUploader.results]. *)
Record upload_record : Type := {
  rec_breed : string;
  rec_sub_breed : option string;
  rec_image_url : option string;
  rec_yandex_disk_path : string;
  rec_status : upload_status
}.

(** The lines the program prints (the prompts and the drawing of the progress
    bar are left out). *)
Inductive line : Type :=
| ApiRequestFailed (e : exn)
| SaveFailed (e : exn)
| TokenEmpty
| BreedsUnavailable
| BreedNotFound (breed : string)
| FolderNotCreated
| Done.

(** How writing a file goes wrong: not at all, when it is opened, or after
    [n] bytes were written. *)
Inductive io_fault : Type :=
| NoFault
| OpenFails
| WriteFails (n : nat).

Record state : Type := {
  (** answers the network will give, per service, in the order of the
      requests; when none is left the request gets no answer *)
  breeds_replies : list (http_reply (api_body breeds_message));
  image_replies : list (http_reply (api_body (option string)));
  disk_replies : list (http_reply unit);
  (** requests issued so far, the latest last *)
  sent : list request;
  printed : list line;
  (** the progress bar: its total once created, and its count *)
  pbar_total : option Z;
  pbar_n : Z;
  (** time spent in [time.sleep], in milliseconds *)
  slept_ms : Z;
  fault : io_fault;
  (** the files written, by name *)
  files : gmap string (list byte);
  (** [DogImageUploader.results] *)
  results : list upload_record
}.

Definition set_breeds_replies v (s : state) : state :=
  {| breeds_replies := v; image_replies := image_replies s;
     disk_replies := disk_replies s; sent := sent s; printed := printed s;
     pbar_total := pbar_total s; pbar_n := pbar_n s; slept_ms := slept_ms s;
     fault := fault s; files := files s; results := results s |}.

Definition set_image_replies v (s : state) : state :=
  {| breeds_replies := breeds_replies s; image_replies := v;
     disk_replies := disk_replies s; sent := sent s; printed := printed s;
     pbar_total := pbar_total s; pbar_n := pbar_n s; slept_ms := slept_ms s;
     fault := fault s; files := files s; results := results s |}.

Definition set_disk_replies v (s : state) : state :=
  {| breeds_replies := breeds_replies s; image_replies := image_replies s;
     disk_replies := v; sent := sent s; printed := printed s;
     pbar_total := pbar_total s; pbar_n := pbar_n s; slept_ms := slept_ms s;
     fault := fault s; files := files s; results := results s |}.

Definition set_sent v (s : state) : state :=
  {| breeds_replies := breeds_replies s; image_replies := image_replies s;
     disk_replies := disk_replies s; sent := v; printed := printed s;
     pbar_total := pbar_total s; pbar_n := pbar_n s; slept_ms := slept_ms s;
     fault := fault s; files := files s; results := results s |}.

Definition set_printed v (s : state) : state :=
  {| breeds_replies := breeds_replies s; image_replies := image_replies s;
     disk_replies := disk_replies s; sent := sent s; printed := v;
     pbar_total := pbar_total s; pbar_n := pbar_n s; slept_ms := slept_ms s;
     fault := fault s; files := files s; results := results s |}.

Definition set_pbar (total : option Z) (n : Z) (s : state) : state :=
  {| breeds_replies := breeds_replies s; image_replies := image_replies s;
     disk_replies := disk_replies s; sent := sent s; printed := printed s;
     pbar_total := total; pbar_n := n; slept_ms := slept_ms s;
     fault := fault s; files := files s; results := results s |}.

Definition set_slept_ms v (s : state) : state :=
  {| breeds_replies := breeds_replies s; image_replies := image_replies s;
     disk_replies := disk_replies s; sent := sent s; printed := printed s;
     pbar_total := pbar_total s; pbar_n := pbar_n s; slept_ms := v;
     fault := fault s; files := files s; results := results s |}.

Definition set_files v (s : state) : state :=
  {| breeds_replies := breeds_replies s; image_replies := image_replies s;
     disk_replies := disk_replies s; sent := sent s; printed := printed s;
     pbar_total := pbar_total s; pbar_n := pbar_n s; slept_ms := slept_ms s;
     fault := fault s; files := v; results := results s |}.

Definition set_results v (s : state) : state :=
  {| breeds_replies := breeds_replies s; image_replies := image_replies s;
     disk_replies := disk_replies s; sent := sent s; printed := printed s;
     pbar_total := pbar_total s; pbar_n := pbar_n s; slept_ms := slept_ms s;
     fault := fault s; files := files s; results := v |}.

(** ** Statements: state passing with exceptions *)

Definition M (A : Type) : Type := state -> outcome A * state.

#[global] Instance M_ret : MRet M := fun A a s => (Return a, s).
#[global] Instance M_bind : MBind M := fun A B k c s =>
  match c s with
  | (Return a, s') => k a s'
  | (Raise e, s') => (Raise e, s')
  end.

Definition raise {A : Type} (e : exn) : M A := fun s => (Raise e, s).

(** A pure computation that may raise, run as a statement. *)
Definition lift {A : Type} (c : outcome A) : M A := fun s => (c, s).

(** [try: body  except <class> as e: handler e]; [class] tells which
    exceptions the clause catches. *)
Definition try_except {A : Type} (body : M A) (class : exn -> bool)
    (handler : exn -> M A) : M A := fun s =>
  match body s with
  | (Return a, s') => (Return a, s')
  | (Raise e, s') => if class e then handler e s' else (Raise e, s')
  end.

(** [except Exception]: every exception of the embedding is one. *)
Definition Exception (e : exn) : bool := true.

(** [try: body  finally: cleanup]. *)
Definition try_finally {A : Type} (body : M A) (cleanup : M unit) : M A := fun s =>
  match body s with
  | (r, s') =>
      match cleanup s' with
      | (Return _, s'') => (r, s'')
      | (Raise e, s'') => (Raise e, s'')
      end
  end.

Definition print (l : line) : M unit := fun s =>
  (Return tt, set_printed (printed s ++ [l]) s).

Definition sleep_ms (ms : Z) : M unit := fun s =>
  (Return tt, set_slept_ms (slept_ms s + ms) s).

(** A service of the network, as the part of the state that holds its
    pending answers. *)
Record service (B : Type) : Type := {
  pending : state -> list (http_reply B);
  set_pending : list (http_reply B) -> state -> state
}.
Arguments pending {B} _ _.
Arguments set_pending {B} _ _ _.

Definition dog_breeds : service (api_body breeds_message) :=
  {| pending := breeds_replies; set_pending := set_breeds_replies |}.
Definition dog_image : service (api_body (option string)) :=
  {| pending := image_replies; set_pending := set_image_replies |}.
Definition yandex_disk : service unit :=
  {| pending := disk_replies; set_pending := set_disk_replies |}.

(** [requests.request]: the request is recorded, and the next answer of the
    service is the result; no answer raises a [RequestException]. *)
Definition send {B : Type} (svc : service B) (r : request) : M (response B) := fun s =>
  let s := set_sent (sent s ++ [r]) s in
  match pending svc s with
  | [] => (Raise ConnectionError, s)
  | NoReply :: rest => (Raise ConnectionError, set_pending svc rest s)
  | Reply code body :: rest =>
      (Return {| status_code := code; json := body |}, set_pending svc rest s)
  end.

(** [response.raise_for_status()]: an [HTTPError] for a 4xx or 5xx status. *)
Definition raise_for_status {B : Type} (r : response B) : M unit :=
  if (400 <=? status_code r) && (status_code r <? 600)
  then raise (HTTPError (status_code r))
  else mret tt.

(** ** [_get_image_url] and [DogAPI] *)

(** [data["status"]]: a value that is not a [dict] takes no string index,
    and a [dict] without the key raises [KeyError]. *)
Definition getitem_status {A : Type} (data : api_body A) : M string :=
  match data with
  | NotObject => raise TypeError
  | Object (Some status) _ => mret status
  | Object None _ => raise KeyError
  end.

(** [data["message"]]. *)
Definition getitem_message {A : Type} (data : api_body A) : M A :=
  match data with
  | NotObject => raise TypeError
  | Object _ (Some message) => mret message
  | Object _ None => raise KeyError
  end.

(** [data.get('message')]: [None] when the key is absent; a value that is
    not a [dict] has no such method. *)
Definition get_message (data : api_body (option string)) : M (option string) :=
  match data with
  | NotObject => raise AttributeError
  | Object _ (Some message) => mret message
  | Object _ None => mret None
  end.

Definition _get_image_url (url : string) : M (option string) :=
  try_except
    (response ← send dog_image
       {| req_method := GET; req_url := url; req_headers := [];
          req_params := []; req_timeout := 10 |};
     _ ← raise_for_status response;
     let data := json response in
     status ← getitem_status data;
     if String.eqb status "success"
     then getitem_message data
     else message ← get_message data; raise (ApiStatusError message))
    is_RequestException
    (fun e => raise (ImageRequestError e)).

Module DogAPI.

Definition BASE_URL : string := "https://dog.ceo/api".

Definition get_all_breeds : M breeds_message :=
  try_except
    (response ← send dog_breeds
       {| req_method := GET; req_url := BASE_URL ++ "/breeds/list/all";
          req_headers := []; req_params := []; req_timeout := 10 |};
     _ ← raise_for_status response;
     getitem_message (json response))
    is_RequestException
    (fun e => _ ← print (ApiRequestFailed e); mret (Mapping ∅)).

Definition get_breed_image (breed : string) : M (option string) :=
  let url := BASE_URL ++ "/breed/" ++ breed ++ "/images/random" in
  _get_image_url url.

Definition get_sub_breed_image (breed sub_breed : string) : M (option string) :=
  let url := BASE_URL ++ "/breed/" ++ breed ++ "/" ++ sub_breed ++ "/images/random" in
  _get_image_url url.

End DogAPI.

(** ** [YandexDiskUploader] *)

Module YandexDiskUploader.

Definition UPLOAD_URL : string := "https://cloud-api.yandex.net/v1/disk/resources/upload".
Definition CREATE_FOLDER_URL : string := "https://cloud-api.yandex.net/v1/disk/resources".

Record t : Type := {
  token : string;
  headers : list (string * string)
}.

Definition __init__ (token : string) : t :=
  {| token := token; headers := [("Authorization", "OAuth " ++ token)] |}.

Definition create_folder (self : t) (path : string) : M bool :=
  let params := [("path", Some path)] in
  try_except
    (response ← send yandex_disk
       {| req_method := PUT; req_url := CREATE_FOLDER_URL;
          req_headers := headers self; req_params := params; req_timeout := 10 |};
     mret ((status_code response =? 201) || (status_code response =? 409)))
    Exception
    (fun _ => mret false).

Definition upload_from_url (self : t) (image_url : option string) (yandex_path : string)
    : M bool :=
  let params :=
    [("path", Some yandex_path); ("url", image_url); ("overwrite", Some "true")] in
  let post :=
    {| req_method := POST; req_url := UPLOAD_URL; req_headers := headers self;
       req_params := params; req_timeout := 30 |} in
  try_except
    (response ← send yandex_disk post;
     if status_code response =? 202 then mret true
     else if status_code response =? 409 then
       let folder_path := posixpath.dirname yandex_path in
       created ← create_folder self folder_path;
       if created : bool then
         response ← send yandex_disk post;
         mret (status_code response =? 202)
       else mret false
     else mret false)
    Exception
    (fun _ => mret false).

End YandexDiskUploader.

(** ** [json.dump(results, f, ensure_ascii=False, indent=4)] *)

Module JSON.

(** The values the program serialises: [None], [str], [list], [dict]. *)
Inductive value : Type :=
| Null
| Str (s : string)
| Arr (items : list value)
| Obj (members : list (string * value)).

Definition dquote : ascii := "034"%char.
Definition backslash : ascii := "092"%char.
Definition newline : ascii := "010"%char.

(** A digit of [format(i, '04x')]. *)
Definition hex_digit (n : N) : ascii :=
  if (n <? 10)%N then ascii_of_N (48 + n) else ascii_of_N (87 + n).

(** [ESCAPE_DCT]: the quote, the backslash and the control characters (code
    points below 32) are escaped; every other character stands for itself. *)
Definition escape_char (c : ascii) : string :=
  let n := N_of_ascii c in
  if Ascii.eqb c dquote then String backslash (String dquote EmptyString)
  else if Ascii.eqb c backslash then String backslash (String backslash EmptyString)
  else if (n =? 10)%N then String backslash "n"
  else if (n =? 13)%N then String backslash "r"
  else if (n =? 9)%N then String backslash "t"
  else if (n =? 12)%N then String backslash "f"
  else if (n =? 8)%N then String backslash "b"
  else if (n <? 32)%N then
    String backslash
      (String "u" (String "0" (String "0"
         (String (hex_digit (n / 16)) (String (hex_digit (n mod 16)) EmptyString)))))
  else String c EmptyString.

Fixpoint escape (s : string) : string :=
  match s with
  | EmptyString => EmptyString
  | String c r => escape_char c ++ escape r
  end.

(** [encode_basestring(s)], the encoder of strings when [ensure_ascii] is
    false. *)
Definition encode_basestring (s : string) : string :=
  String dquote (escape s ++ String dquote EmptyString).

Fixpoint spaces (n : nat) : string :=
  match n with
  | O => EmptyString
  | S n' => String " " (spaces n')
  end.

(** ['\n' + _indent * _current_indent_level] with [indent=4]. *)
Definition newline_indent (level : nat) : string :=
  String newline (spaces (4 * level)).

(** [_iterencode] at an indentation level, its chunks joined. *)
Fixpoint encode (level : nat) (v : value) : string :=
  match v with
  | Null => "null"
  | Str s => encode_basestring s
  | Arr [] => "[]"
  | Arr items =>
      "[" ++ newline_indent (S level)
      ++ String.concat ("," ++ newline_indent (S level)) (map (encode (S level)) items)
      ++ newline_indent level ++ "]"
  | Obj [] => "{}"
  | Obj members =>
      "{" ++ newline_indent (S level)
      ++ String.concat ("," ++ newline_indent (S level))
           (map (fun kv => let '(k, x) := kv in
                           encode_basestring k ++ ": " ++ encode (S level) x)
                members)
      ++ newline_indent level ++ "}"
  end.

Definition dumps (v : value) : string := encode 0 v.

End JSON.

(** ** Text files: [open(filename, "w", encoding="utf-8")] *)

Definition byte_of_N (n : N) : byte := byte_of_ascii (ascii_of_N n).

(** UTF-8 of a code point below 256: one byte below 128, two from there. *)
Definition utf8_char (c : ascii) : list byte :=
  let n := N_of_ascii c in
  if (n <? 128)%N then [byte_of_N n]
  else [byte_of_N (192 + n / 64); byte_of_N (128 + n mod 64)].

Fixpoint utf8_encode (s : string) : list byte :=
  match s with
  | EmptyString => []
  | String c r => utf8_char c ++ utf8_encode r
  end.

(** Opening [filename] for writing and writing [text] to it. A fault at
    opening leaves the files as they are; a fault while writing leaves the
    bytes written until then. Both raise [OSError]. *)
Definition write_text (filename text : string) : M unit := fun s =>
  match fault s with
  | NoFault =>
      (Return tt, set_files (<[filename := utf8_encode text]> (files s)) s)
  | OpenFails => (Raise OSError, s)
  | WriteFails n =>
      (Raise OSError, set_files (<[filename := take n (utf8_encode text)]> (files s)) s)
  end.

(** ** [ResultSaver] *)

Module ResultSaver.

Definition status_text (st : upload_status) : string :=
  match st with
  | uploaded => "uploaded"
  | failed => "failed"
  end.

Definition optional (o : option string) : JSON.value :=
  match o with
  | Some s => JSON.Str s
  | None => JSON.Null
  end.

(** The [dict] a record is, in the order of its keys. *)
Definition record_dict (r : upload_record) : JSON.value :=
  JSON.Obj
    [("breed", JSON.Str (rec_breed r));
     ("sub_breed", optional (rec_sub_breed r));
     ("image_url", optional (rec_image_url r));
     ("yandex_disk_path", JSON.Str (rec_yandex_disk_path r));
     ("status", JSON.Str (status_text (rec_status r)))].

Definition save (results : list upload_record) (filename : string) : M unit :=
  try_except
    (write_text filename (JSON.dumps (JSON.Arr (map record_dict results))))
    Exception
    (fun e => print (SaveFailed e)).

End ResultSaver.

(** ** Reading the result file back *)

(** The reader's side of the result file, for the round trip: the bytes are
    decoded as UTF-8 and the text is parsed as JSON (RFC 8259), here for the
    values the program writes: [null], strings, arrays and objects. *)
Module Reader.

(** UTF-8 of the code points below 256: a byte below 128, or a lead byte 194
    or 195 and one continuation byte. *)
Fixpoint utf8_decode (bytes : list byte) : option string :=
  match bytes with
  | [] => Some EmptyString
  | b :: rest =>
      let n := Byte.to_N b in
      if (n <? 128)%N then String (ascii_of_N n) <$> utf8_decode rest
      else if ((194 <=? n) && (n <=? 195))%N then
        match rest with
        | b2 :: rest' =>
            let m := Byte.to_N b2 in
            if ((128 <=? m) && (m <? 192))%N
            then String (ascii_of_N ((n - 192) * 64 + (m - 128))) <$> utf8_decode rest'
            else None
        | [] => None
        end
      else None
  end.

(** JSON whitespace: space, tab, line feed, carriage return. *)
Definition is_ws (c : ascii) : bool :=
  let n := N_of_ascii c in
  ((n =? 32) || (n =? 9) || (n =? 10) || (n =? 13))%N.

Definition skip_ws (s : string) : string := Str.lstrip is_ws s.

Definition hex_value (c : ascii) : option N :=
  let n := N_of_ascii c in
  if ((48 <=? n) && (n <=? 57))%N then Some (n - 48)%N
  else if ((97 <=? n) && (n <=? 102))%N then Some (n - 87)%N
  else if ((65 <=? n) && (n <=? 70))%N then Some (n - 55)%N
  else None.

(** The code point of [\uXXXX], when it is below 256. *)
Definition code_point (h1 h2 h3 h4 : ascii) : option ascii :=
  a ← hex_value h1; b ← hex_value h2; c ← hex_value h3; d ← hex_value h4;
  let n := (((a * 16 + b) * 16 + c) * 16 + d)%N in
  if (n <? 256)%N then Some (ascii_of_N n) else None.

Definition push {A : Type} (c : ascii) (r : option (string * A)) : option (string * A) :=
  '(s, rest) ← r; Some (String c s, rest).

(** The characters of a string up to its closing quote, escapes resolved,
    and the text after the quote. *)
Fixpoint parse_chars (s : string) : option (string * string) :=
  match s with
  | EmptyString => None
  | String c r =>
      if Ascii.eqb c JSON.dquote then Some (EmptyString, r)
      else if Ascii.eqb c JSON.backslash then
        match r with
        | EmptyString => None
        | String e r' =>
            if Ascii.eqb e JSON.dquote then push JSON.dquote (parse_chars r')
            else if Ascii.eqb e JSON.backslash then push JSON.backslash (parse_chars r')
            else if Ascii.eqb e "/" then push "/" (parse_chars r')
            else if Ascii.eqb e "b" then push "008" (parse_chars r')
            else if Ascii.eqb e "f" then push "012" (parse_chars r')
            else if Ascii.eqb e "n" then push "010" (parse_chars r')
            else if Ascii.eqb e "r" then push "013" (parse_chars r')
            else if Ascii.eqb e "t" then push "009" (parse_chars r')
            else if Ascii.eqb e "u" then
              match r' with
              | String h1 (String h2 (String h3 (String h4 r''))) =>
                  match code_point h1 h2 h3 h4 with
                  | Some x => push x (parse_chars r'')
                  | None => None
                  end
              | _ => None
              end
            else None
        end
      else if (N_of_ascii c <? 32)%N then None
      else push c (parse_chars r)
  end.

(** A value and the text after it; [fuel] bounds the depth of the calls. *)
Fixpoint parse_value (fuel : nat) (s : string) : option (JSON.value * string) :=
  match fuel with
  | O => None
  | S fuel =>
      match skip_ws s with
      | EmptyString => None
      | String c r =>
          if Ascii.eqb c JSON.dquote then
            '(x, r') ← parse_chars r; Some (JSON.Str x, r')
          else if Ascii.eqb c "n" then
            match r with
            | String "u" (String "l" (String "l" r')) => Some (JSON.Null, r')
            | _ => None
            end
          else if Ascii.eqb c "[" then
            match skip_ws r with
            | EmptyString => None
            | String c' r' =>
                if Ascii.eqb c' "]" then Some (JSON.Arr [], r')
                else '(items, r'') ← parse_elements fuel (skip_ws r);
                     Some (JSON.Arr items, r'')
            end
          else if Ascii.eqb c "{" then
            match skip_ws r with
            | EmptyString => None
            | String c' r' =>
                if Ascii.eqb c' "}" then Some (JSON.Obj [], r')
                else '(members, r'') ← parse_members fuel (skip_ws r);
                     Some (JSON.Obj members, r'')
            end
          else None
      end
  end
with parse_elements (fuel : nat) (s : string) : option (list JSON.value * string) :=
  match fuel with
  | O => None
  | S fuel =>
      '(v, r) ← parse_value fuel s;
      match skip_ws r with
      | EmptyString => None
      | String c r' =>
          if Ascii.eqb c "," then
            '(vs, r'') ← parse_elements fuel r'; Some (v :: vs, r'')
          else if Ascii.eqb c "]" then Some ([v], r')
          else None
      end
  end
with parse_members (fuel : nat) (s : string)
    : option (list (string * JSON.value) * string) :=
  match fuel with
  | O => None
  | S fuel =>
      match skip_ws s with
      | EmptyString => None
      | String c r =>
          if Ascii.eqb c JSON.dquote then
            '(k, r1) ← parse_chars r;
            match skip_ws r1 with
            | EmptyString => None
            | String c1 r2 =>
                if Ascii.eqb c1 ":" then
                  '(v, r3) ← parse_value fuel r2;
                  match skip_ws r3 with
                  | EmptyString => None
                  | String c3 r4 =>
                      if Ascii.eqb c3 "," then
                        '(ms, r5) ← parse_members fuel r4; Some ((k, v) :: ms, r5)
                      else if Ascii.eqb c3 "}" then Some ([(k, v)], r4)
                      else None
                  end
                else None
            end
          else None
      end
  end.

(** [json.loads]: one value, and whitespace only after it. The length of the
    text is fuel enough: every call but the first follows a character
    read. *)
Definition loads (s : string) : option JSON.value :=
  '(v, rest) ← parse_value (String.length s) s;
  if String.eqb (skip_ws rest) EmptyString then Some v else None.

(** [d[k]] for the members of an object. *)
Fixpoint member (k : string) (members : list (string * JSON.value)) : option JSON.value :=
  match members with
  | [] => None
  | (k', v) :: rest => if String.eqb k k' then Some v else member k rest
  end.

Definition as_text (v : JSON.value) : option string :=
  match v with
  | JSON.Str s => Some s
  | _ => None
  end.

Definition as_optional_text (v : JSON.value) : option (option string) :=
  match v with
  | JSON.Str s => Some (Some s)
  | JSON.Null => Some None
  | _ => None
  end.

Definition as_status (v : JSON.value) : option upload_status :=
  match v with
  | JSON.Str s =>
      if String.eqb s "uploaded" then Some uploaded
      else if String.eqb s "failed" then Some failed
      else None
  | _ => None
  end.

(** The record an object of the file stands for. *)
Definition record_of (v : JSON.value) : option upload_record :=
  match v with
  | JSON.Obj members =>
      breed ← member "breed" members ≫= as_text;
      sub_breed ← member "sub_breed" members ≫= as_optional_text;
      image_url ← member "image_url" members ≫= as_optional_text;
      yandex_disk_path ← member "yandex_disk_path" members ≫= as_text;
      status ← member "status" members ≫= as_status;
      Some {| rec_breed := breed; rec_sub_breed := sub_breed;
              rec_image_url := image_url;
              rec_yandex_disk_path := yandex_disk_path;
              rec_status := status |}
  | _ => None
  end.

Definition records_of (v : JSON.value) : option (list upload_record) :=
  match v with
  | JSON.Arr items => mapM record_of items
  | _ => None
  end.

(** The records read from the bytes of a result file. *)
Definition read_results (bytes : list byte) : option (list upload_record) :=
  text ← utf8_decode bytes; v ← loads text; records_of v.

End Reader.

(** ** [DogImageUploader] *)

Module DogImageUploader.

(** [self.results.append(r)]. *)
Definition results_append (r : upload_record) : M unit := fun s =>
  (Return tt, set_results (results s ++ [r]) s).

(** [self.results.clear()]. *)
Definition results_clear : M unit := fun s => (Return tt, set_results [] s).

Definition get_results : M (list upload_record) := fun s => (Return (results s), s).

(** [tqdm(total=total_files, ...)]. *)
Definition tqdm (total : Z) : M unit := fun s =>
  (Return tt, set_pbar (Some total) 0 s).

(** [pbar.update(n)]. *)
Definition pbar_update (n : Z) : M unit := fun s =>
  (Return tt, set_pbar (pbar_total s) (pbar_n s + n) s).

Definition status_of (success : bool) : upload_status :=
  if success then uploaded else failed.

Definition _process_breed_image `{UrlChecks} (breed folder_path : string)
    (uploader : YandexDiskUploader.t) : M unit :=
  try_finally
    (try_except
       (image_url ← DogAPI.get_breed_image breed;
        filename ← lift (ImageFilenameHelper.get_filename_from_url image_url);
        let yandex_path := folder_path ++ breed ++ "_" ++ filename in
        success ← YandexDiskUploader.upload_from_url uploader image_url yandex_path;
        results_append
          {| rec_breed := breed; rec_sub_breed := None;
             rec_image_url := image_url;
             rec_yandex_disk_path := yandex_path;
             rec_status := status_of success |})
       Exception
       (fun _ =>
          results_append
            {| rec_breed := breed; rec_sub_breed := None;
               rec_image_url := None;
               rec_yandex_disk_path := folder_path ++ breed ++ "_image.jpg";
               rec_status := failed |}))
    (_ ← pbar_update 1; sleep_ms 500).

Definition _process_sub_breed_image `{UrlChecks} (breed sub_breed folder_path : string)
    (uploader : YandexDiskUploader.t) : M unit :=
  try_finally
    (try_except
       (image_url ← DogAPI.get_sub_breed_image breed sub_breed;
        filename ← lift (ImageFilenameHelper.get_filename_from_url image_url);
        let yandex_path := folder_path ++ breed ++ "_" ++ sub_breed ++ "_" ++ filename in
        success ← YandexDiskUploader.upload_from_url uploader image_url yandex_path;
        results_append
          {| rec_breed := breed; rec_sub_breed := Some sub_breed;
             rec_image_url := image_url;
             rec_yandex_disk_path := yandex_path;
             rec_status := status_of success |})
       Exception
       (fun _ =>
          results_append
            {| rec_breed := breed; rec_sub_breed := Some sub_breed;
               rec_image_url := None;
               rec_yandex_disk_path :=
                 folder_path ++ breed ++ "_" ++ sub_breed ++ "_image.jpg";
               rec_status := failed |}))
    (_ ← pbar_update 1; sleep_ms 500).

(** [bool(breeds)]. *)
Definition truthy (breeds : breeds_message) : bool :=
  match breeds with
  | Null => false
  | Mapping m => negb (bool_decide (m = ∅))
  | Text s => negb (String.eqb s EmptyString)
  end.

(** [breed in breeds]: a key of the mapping, a substring of the text;
    [None] is not a container. *)
Definition contains (breeds : breeds_message) (breed : string) : M bool :=
  match breeds with
  | Null => raise TypeError
  | Mapping m => mret (bool_decide (is_Some (m !! breed)))
  | Text s => mret (Str.contains breed s)
  end.

(** [breeds[breed]]: the value of the key; a text takes no string index, and
    [None] no index at all. *)
Definition getitem (breeds : breeds_message) (breed : string) : M (list string) :=
  match breeds with
  | Null => raise TypeError
  | Mapping m =>
      match m !! breed with
      | Some sub_breeds => mret sub_breeds
      | None => raise KeyError
      end
  | Text _ => raise TypeError
  end.

(** [for x in l: body x]. *)
Fixpoint for_each {A : Type} (l : list A) (body : A -> M unit) : M unit :=
  match l with
  | [] => mret tt
  | x :: rest => _ ← body x; for_each rest body
  end.

Definition nonempty {A : Type} (l : list A) : bool :=
  match l with
  | [] => false
  | _ :: _ => true
  end.

(** [run], given the two lines typed at its prompts. *)
Definition run `{UrlChecks} (breed_line token_line : string) : M unit :=
  let breed := Str.lower (Str.strip breed_line) in
  let yd_token := Str.strip token_line in
  if String.eqb yd_token EmptyString then print TokenEmpty
  else
    breeds ← DogAPI.get_all_breeds;
    if negb (truthy breeds) then print BreedsUnavailable
    else
      present ← contains breeds breed;
      if negb present then print (BreedNotFound breed)
      else
        sub_breeds ← getitem breeds breed;
        let total_files :=
          if nonempty sub_breeds then 1 + Z.of_nat (length sub_breeds) else 1 in
        let yandex_folder := "/" ++ breed ++ "/" in
        let uploader := YandexDiskUploader.__init__ yd_token in
        created ← YandexDiskUploader.create_folder uploader yandex_folder;
        if negb created then print FolderNotCreated
        else
          _ ← tqdm total_files;
          _ ← results_clear;
          _ ← _process_breed_image breed yandex_folder uploader;
          _ ← (if nonempty sub_breeds
               then for_each sub_breeds (fun sub_breed =>
                      _process_sub_breed_image breed sub_breed yandex_folder uploader)
               else mret tt);
          results ← get_results;
          _ ← ResultSaver.save results "results.json";
          print Done.

(** [DogImageUploader()]: the helper objects hold no state, and the results
    of the new object are the empty list. *)
Definition __init__ : M unit := fun s => (Return tt, set_results [] s).

End DogImageUploader.

(** [main]: a new [DogImageUploader] and its run, given the two lines typed
    at the prompts. *)
Definition main `{UrlChecks} (breed_line token_line : string) : M unit :=
  _ ← DogImageUploader.__init__;
  DogImageUploader.run breed_line token_line.

(** * The vocabulary of the properties *)

(** The status code of the [n]-th pending answer of a service; [None] when
    that request gets no answer (a transport error). *)
Definition answer {B : Type} (pending : list (http_reply B)) (n : nat) : option Z :=
  match pending !! n with
  | Some (Reply code _) => Some code
  | _ => None
  end.

(** The folder-create request for [path]. *)
Definition put_folder (self : YandexDiskUploader.t) (path : string) : request :=
  {| req_method := PUT; req_url := YandexDiskUploader.CREATE_FOLDER_URL;
     req_headers := YandexDiskUploader.headers self;
     req_params := [("path", Some path)]; req_timeout := 10 |}.

(** The upload-by-URL request of [image_url] to [yandex_path]. *)
Definition post_upload (self : YandexDiskUploader.t) (image_url : option string)
    (yandex_path : string) : request :=
  {| req_method := POST; req_url := YandexDiskUploader.UPLOAD_URL;
     req_headers := YandexDiskUploader.headers self;
     req_params :=
       [("path", Some yandex_path); ("url", image_url); ("overwrite", Some "true")];
     req_timeout := 30 |}.

(** Every run of [c] takes a state to one related to it by [T]. *)
Definition ensures {A : Type} (T : relation state) (c : M A) : Prop :=
  forall s, T s (c s).2.

(** The list [f] of the state grows at its end, by elements that satisfy
    [P]. *)
Definition grows {X : Type} (f : state -> list X) (P : X -> Prop) : relation state :=
  fun s s' => exists new, f s' = (f s ++ new)%list /\ Forall P new.

(** Only the network moved: what was printed, the progress bar, the clock,
    the files and the results are as they were, and so are the pending
    answers of the breed list. *)
Definition network_only : relation state := fun s s' =>
  printed s' = printed s /\ pbar_total s' = pbar_total s /\ pbar_n s' = pbar_n s
  /\ slept_ms s' = slept_ms s /\ fault s' = fault s /\ files s' = files s
  /\ results s' = results s /\ breeds_replies s' = breeds_replies s.

(** The timeout each request is issued with: 30 seconds for an upload
    ([POST]), 10 seconds for every other request. *)
Definition timeout_of (m : method) : Z :=
  match m with
  | POST => 30
  | GET | PUT => 10
  end.

Definition timeout_ok (r : request) : Prop := req_timeout r = timeout_of (req_method r).

Definition sends_with_timeouts : relation state := grows sent timeout_ok.

(** The fetch of a slot's image URL. *)
Definition fetch_image (breed : string) (sub : option string) : M (option string) :=
  match sub with
  | None => DogAPI.get_breed_image breed
  | Some sub_breed => DogAPI.get_sub_breed_image breed sub_breed
  end.

(** The destination path of a slot for a file name. *)
Definition slot_path (folder breed : string) (sub : option string) (filename : string) : string :=
  match sub with
  | None => folder ++ breed ++ "_" ++ filename
  | Some sub_breed => folder ++ breed ++ "_" ++ sub_breed ++ "_" ++ filename
  end.

(** The record of a slot whose fetch returned [image_url] (a URL, or [None]
    for a [null] message) and whose upload was attempted. *)
Definition fetched_record (breed : string) (sub : option string) (folder : string)
    (image_url : option string) (filename : string) (success : bool) : upload_record :=
  {| rec_breed := breed; rec_sub_breed := sub; rec_image_url := image_url;
     rec_yandex_disk_path := slot_path folder breed sub filename;
     rec_status := DogImageUploader.status_of success |}.

(** The record of the [except] branch. *)
Definition fallback_record (breed : string) (sub : option string) (folder : string) : upload_record :=
  {| rec_breed := breed; rec_sub_breed := sub; rec_image_url := None;
     rec_yandex_disk_path := slot_path folder breed sub "image.jpg";
     rec_status := failed |}.

(** The [try] block of the two processing methods, over the slot. *)
Definition try_block `{UrlChecks} (breed : string) (sub : option string) (folder : string)
    (uploader : YandexDiskUploader.t) : M unit :=
  image_url ← fetch_image breed sub;
  filename ← lift (ImageFilenameHelper.get_filename_from_url image_url);
  success ← YandexDiskUploader.upload_from_url uploader image_url
              (slot_path folder breed sub filename);
  DogImageUploader.results_append
    (fetched_record breed sub folder image_url filename success).

(** The two processing methods, as one statement over the slot. *)
Definition process_slot `{UrlChecks} (breed : string) (sub : option string) (folder : string)
    (uploader : YandexDiskUploader.t) : M unit :=
  try_finally
    (try_except
       (try_block breed sub folder uploader)
       Exception
       (fun _ => DogImageUploader.results_append (fallback_record breed sub folder)))
    (_ ← DogImageUploader.pbar_update 1; sleep_ms 500).

(** The method of a slot. *)
Definition process_image `{UrlChecks} (breed : string) (sub : option string) (folder : string)
    (uploader : YandexDiskUploader.t) : M unit :=
  match sub with
  | None => DogImageUploader._process_breed_image breed folder uploader
  | Some sub_breed =>
      DogImageUploader._process_sub_breed_image breed sub_breed folder uploader
  end.

(** The end of a slot: the record is appended, the bar advances by one and
    the program sleeps for half a second. *)
Definition finish (r : upload_record) (s : state) : outcome unit * state :=
  (Return tt,
   set_slept_ms (slept_ms s + 500)
     (set_pbar (pbar_total s) (pbar_n s + 1) (set_results (results s ++ [r]) s))).

(** What a slot may leave in the results: the record of an attempted upload,
    whose path ends in the file name extracted from the URL, or the record
    of the [except] branch. *)
Inductive slot_record `{UrlChecks} (breed : string) (sub : option string) (folder : string) :
    upload_record -> Prop :=
| slot_fetched image_url filename success :
    ImageFilenameHelper.get_filename_from_url image_url = Return filename ->
    slot_record breed sub folder
      (fetched_record breed sub folder image_url filename success)
| slot_fallback :
    slot_record breed sub folder (fallback_record breed sub folder).

(** The part of [run] that follows the creation of the folder. *)
Definition upload_all `{UrlChecks} (breed : string) (sub_breeds : list string)
    (yandex_folder : string) (uploader : YandexDiskUploader.t) : M unit :=
  let total_files :=
    if DogImageUploader.nonempty sub_breeds
    then 1 + Z.of_nat (length sub_breeds) else 1 in
  _ ← DogImageUploader.tqdm total_files;
  _ ← DogImageUploader.results_clear;
  _ ← DogImageUploader._process_breed_image breed yandex_folder uploader;
  _ ← (if DogImageUploader.nonempty sub_breeds
       then DogImageUploader.for_each sub_breeds (fun sub_breed =>
              DogImageUploader._process_sub_breed_image breed sub_breed
                yandex_folder uploader)
       else mret tt);
  results ← DogImageUploader.get_results;
  _ ← ResultSaver.save results "results.json";
  print Done.

(** The text of the result file for a list of records, as bytes. *)
Definition result_file (records : list upload_record) : list byte :=
  utf8_encode (JSON.dumps (JSON.Arr (map ResultSaver.record_dict records))).

(** What is printed and written from the saving of [records] on, by the
    fault of the file system. *)
Definition saved (records : list upload_record) (s s' : state) : Prop :=
  match fault s with
  | NoFault =>
      printed s' = (printed s ++ [Done])%list
      /\ files s' = <["results.json" := result_file records]> (files s)
  | OpenFails =>
      printed s' = (printed s ++ [SaveFailed OSError; Done])%list
      /\ files s' = files s
  | WriteFails n =>
      printed s' = (printed s ++ [SaveFailed OSError; Done])%list
      /\ files s' = <["results.json" := take n (result_file records)]> (files s)
  end.

(** The request for the breed list. *)
Definition get_breeds : request :=
  {| req_method := GET; req_url := DogAPI.BASE_URL ++ "/breeds/list/all";
     req_headers := []; req_params := []; req_timeout := 10 |}.

(** A state in which nothing has happened yet, with the answers the network
    will give. *)
Definition fresh (breeds : list (http_reply (api_body breeds_message)))
    (images : list (http_reply (api_body (option string))))
    (disk : list (http_reply unit)) : state :=
  {| breeds_replies := breeds; image_replies := images; disk_replies := disk;
     sent := []; printed := []; pbar_total := None; pbar_n := 0; slept_ms := 0;
     fault := NoFault; files := ∅; results := [] |}.

(** The message of the error report of the image service. *)
Definition error_text : breeds_message :=
  Text "Breed not found (master breed does not exist)".

(** The error report of the image service, here under a 200 status. *)
Definition error_report : api_body breeds_message := body_of "error" error_text.

(** Checks that let every network location pass; the examples below run
    with them. *)
Definition accept_all : UrlChecks :=
  {| check_bracketed_netloc := fun _ => true; check_nfkc := fun _ => true |}.



Definition hound_catalog : gmap string (list string) :=
  <["akita" := []]> (<["hound" := ["afghan"; "blood"]]> ∅).

(** A run for "hound": the catalog arrives, the folder is created, the image
    of the breed is fetched and its upload is refused; the images of the two
    sub-breeds cannot be fetched. *)
Definition refused_upload : state :=
  fresh
    [Reply 200 (body_of "success" (Mapping hound_catalog))]
    [Reply 200 (body_of "success"
                  (Some "https://images.dog.ceo/breeds/hound-afghan/n02088094_1003.jpg"))]
    [Reply 201 tt; Reply 500 tt].

(** The disk first answers that the folder is missing, then creates it, then
    accepts the upload. *)
Definition folder_missing_once : state :=
  fresh [] [] [Reply 409 tt; Reply 201 tt; Reply 202 tt].


(** The URL as [urlsplit] reads it: leading control characters and spaces
    stripped, tabs and line breaks removed. *)
Definition cleaned (url : string) : string :=
  Str.remove urllib.unsafe_byte (Str.lstrip urllib.c0_control_or_space url).

(** The text after the scheme. *)
Definition after_scheme (url : string) : string := (urllib.split_scheme (cleaned url)).2.

(** The components [urlsplit] returns when its checks pass. *)
Definition components (url : string) : urllib.SplitResult :=
  let rest := after_scheme url in
  let '(netloc, rest) :=
    if Str.startswith rest "//" then urllib._splitnetloc rest else (EmptyString, rest) in
  let '(rest, fragment) :=
    match Str.split_first "#"%char rest with
    | Some (h, t) => (h, t)
    | None => (rest, EmptyString)
    end in
  let '(rest, query) :=
    match Str.split_first "?"%char rest with
    | Some (h, t) => (h, t)
    | None => (rest, EmptyString)
    end in
  {| urllib.scheme := (urllib.split_scheme (cleaned url)).1; urllib.netloc := netloc;
     urllib.path := rest; urllib.query := query; urllib.fragment := fragment |}.

(** The final path segment of a URL, read off the URL as RFC 3986 divides
    it: the fragment starts at the first "#" and the query at the first "?";
    before them, a scheme (a letter followed by letters, digits, "+", "-"
    and ".") ends at the first ":"; after the scheme, "//" opens the
    authority, which ends at the next "/"; the rest is the path, and its
    final segment is what follows its last "/". *)

(** The text before the first [d], all of the text when [d] does not
    occur. *)
Definition before (d : ascii) (s : string) : string :=
  match Str.split_first d s with
  | Some (h, _) => h
  | None => s
  end.

(** The URL without its fragment and its query. *)
Definition without_query (url : string) : string :=
  before "?"%char (before "#"%char url).

Definition scheme_character (c : ascii) : bool :=
  Str.isalpha c || Str.isdigit c || Ascii.eqb c "+"%char || Ascii.eqb c "-"%char
  || Ascii.eqb c "."%char.

(** The scheme of a URL without query and fragment, and what follows its
    colon; no scheme is the empty scheme. *)
Definition scheme_and_rest (url : string) : string * string :=
  match Str.split_first ":"%char url with
  | Some (String c r, rest) =>
      if Str.isalpha c && Str.all scheme_character r then (String c r, rest)
      else (EmptyString, url)
  | _ => (EmptyString, url)
  end.

(** The path of a URL. *)
Definition url_path (url : string) : string :=
  let rest := (scheme_and_rest (without_query url)).2 in
  if Str.startswith rest "//" then
    match Str.split_first "/"%char (Str.drop 2 rest) with
    | Some (_, p) => String "/"%char p
    | None => EmptyString
    end
  else rest.

(** The final segment of the path of a URL. *)
Definition final_segment (url : string) : string :=
  match Str.split_last "/"%char (url_path url) with
  | Some (_, segment) => segment
  | None => url_path url
  end.

(** The scheme of the URL is one whose path segments take parameters: no
    scheme, http, https, ftp and the like, in any case of the letters. *)
Definition takes_parameters (url : string) : bool :=
  bool_decide (Str.lower (scheme_and_rest (without_query url)).1 ∈ urllib.uses_params).

(** The segment that names the file: the final segment of the URL as
    [urlsplit] reads it, without its parameters (the text from the first
    ";" on) when the scheme is one that has them. *)
Definition naming_segment (url : string) : string :=
  let segment := final_segment (cleaned url) in
  if takes_parameters (cleaned url) then before ";"%char segment else segment.

Definition safe (c : ascii) : bool := negb (urllib.unsafe_byte c).

(** An ASCII character other than a bracket. *)
Definition plain (c : ascii) : bool :=
  Str.isascii c && negb (Ascii.eqb c "["%char) && negb (Ascii.eqb c "]"%char).

(** A value that is [None] or a [str]. *)
Definition flat (v : JSON.value) : Prop :=
  match v with
  | JSON.Null | JSON.Str _ => True
  | _ => False
  end.

(** The text of one member of an object. *)
Definition member_text (level : nat) (kv : string * JSON.value) : string :=
  let '(k, x) := kv in JSON.encode_basestring k ++ ": " ++ JSON.encode (S level) x.

Definition separator (level : nat) : string := "," ++ JSON.newline_indent (S level).

(** An object of at most [width] flat members. *)
Definition flat_object (width : nat) (v : JSON.value) : Prop :=
  match v with
  | JSON.Obj members =>
      members <> [] /\ Forall (fun kv => flat kv.2) members
      /\ (length members <= width)%nat
  | _ => False
  end.

(** A line break and the indentation of the next line, the indentation
    written out as the spaces that are seen in the file. *)
Definition line_break (indentation : string) : string :=
  String JSON.newline indentation.

(** The text of a value that is [None] or a [str]. *)
Definition optional_text (o : option string) : string :=
  match o with
  | Some text => JSON.encode_basestring text
  | None => "null"
  end.

(** The text of a record in the result file: an opening brace; the five
    members in the order of the keys, each on a line of its own that starts
    with eight spaces, a comma after each but the last; the closing brace on
    a line that starts with four spaces. *)
Definition record_text (r : upload_record) : string :=
  "{" ++ line_break "        "
  ++ String.concat ("," ++ line_break "        ")
       [JSON.encode_basestring "breed" ++ ": " ++ JSON.encode_basestring (rec_breed r);
        JSON.encode_basestring "sub_breed" ++ ": " ++ optional_text (rec_sub_breed r);
        JSON.encode_basestring "image_url" ++ ": " ++ optional_text (rec_image_url r);
        JSON.encode_basestring "yandex_disk_path" ++ ": "
          ++ JSON.encode_basestring (rec_yandex_disk_path r);
        JSON.encode_basestring "status" ++ ": "
          ++ JSON.encode_basestring (ResultSaver.status_text (rec_status r))]
  ++ line_break "    " ++ "}".

(** The text of the result file for a list of records: "[]" for no record;
    otherwise an opening bracket, the records, each starting on a line of
    its own after four spaces, a comma after each but the last, and the
    closing bracket on a line of its own. *)
Definition results_text (records : list upload_record) : string :=
  match records with
  | [] => "[]"
  | _ :: _ =>
      "[" ++ line_break "    "
      ++ String.concat ("," ++ line_break "    ") (map record_text records)
      ++ line_break "" ++ "]"
  end.

(** The state [s] with the file system failing as [f] says. *)
Definition with_fault (f : io_fault) (s : state) : state :=
  {| breeds_replies := breeds_replies s; image_replies := image_replies s;
     disk_replies := disk_replies s; sent := sent s; printed := printed s;
     pbar_total := pbar_total s; pbar_n := pbar_n s; slept_ms := slept_ms s;
     fault := f; files := files s; results := results s |}.

(** The URL of the random image of a slot. *)
Definition image_endpoint (breed : string) (sub : option string) : string :=
  match sub with
  | None => DogAPI.BASE_URL ++ "/breed/" ++ breed ++ "/images/random"
  | Some sub_breed =>
      DogAPI.BASE_URL ++ "/breed/" ++ breed ++ "/" ++ sub_breed ++ "/images/random"
  end.

(** The request [requests.get(url, timeout=10)]. *)
Definition get (url : string) : request :=
  {| req_method := GET; req_url := url; req_headers := []; req_params := [];
     req_timeout := 10 |}.

(** An HTTP status that [raise_for_status] turns into an [HTTPError]. *)
Definition error_status (code : Z) : bool := (400 <=? code) && (code <? 600).

(** A request as the program addresses it: a [GET] goes to the image service
    and carries no header and no parameter; a [PUT] or a [POST] goes to its
    endpoint of the disk, carries the token in its [Authorization] header and
    the parameters of the operation. *)
Definition well_addressed (token : string) (r : request) : Prop :=
  match req_method r with
  | GET =>
      Str.startswith (req_url r) DogAPI.BASE_URL = true
      /\ req_headers r = [] /\ req_params r = []
  | PUT =>
      req_url r = YandexDiskUploader.CREATE_FOLDER_URL
      /\ req_headers r = [("Authorization", "OAuth " ++ token)]
      /\ exists path, req_params r = [("path", Some path)]
  | POST =>
      req_url r = YandexDiskUploader.UPLOAD_URL
      /\ req_headers r = [("Authorization", "OAuth " ++ token)]
      /\ exists path url,
           req_params r = [("path", Some path); ("url", url); ("overwrite", Some "true")]
  end.

(** The requests of one call of [upload_from_url]: the upload, then, when it
    was answered 409, the creation of the parent folder, then, when that
    succeeded, the upload again. *)
Definition upload_attempt (uploader : YandexDiskUploader.t) (image_url : option string)
    (path : string) (disk : list request) : Prop :=
  let post := post_upload uploader image_url path in
  let put := put_folder uploader (posixpath.dirname path) in
  disk = [post] \/ disk = [post; put] \/ disk = [post; put; post].

(** The requests of a slot: the fetch of the image URL, and the requests of
    the upload when there is one. *)
Definition slot_requests `{UrlChecks} (uploader : YandexDiskUploader.t)
    (folder breed : string) (sub : option string) (requests : list request) : Prop :=
  exists disk,
    requests = get (image_endpoint breed sub) :: disk
    /\ (disk = []
        \/ exists image_url filename,
             ImageFilenameHelper.get_filename_from_url image_url = Return filename
             /\ upload_attempt uploader image_url (slot_path folder breed sub filename) disk).

(** A request of the image service. *)
Definition is_fetch (r : request) : bool :=
  match req_method r with
  | GET => true
  | _ => false
  end.

(** What a run leaves besides its requests: nothing but lines other than
    the last one, or the records of [n] slots. *)
Definition idle_or_done (lines : list line) (s s' : state) : Prop :=
  (~ In Done lines
   /\ pbar_total s' = pbar_total s /\ pbar_n s' = pbar_n s
   /\ slept_ms s' = slept_ms s /\ results s' = results s /\ files s' = files s)
  \/ (exists n : nat,
        (1 <= n)%nat /\ last lines = Some Done
        /\ length (results s') = n
        /\ pbar_total s' = Some (Z.of_nat n) /\ pbar_n s' = Z.of_nat n
        /\ slept_ms s' = slept_ms s + 500 * Z.of_nat n).

(** What [lstrip] returns does not start with a character it strips. *)
Definition stripped_left (p : ascii -> bool) (s : string) : Prop :=
  match s with
  | EmptyString => True
  | String c _ => p c = false
  end.

(** The character that starts the query or the fragment of a URL. *)
Definition starts_suffix (d : ascii) : Prop := d = "?"%char \/ d = "#"%char.

(** What [urlparse] and the file name depend on: whether a network location
    follows the scheme, the scheme, the network location and the path. *)
Definition route (url : string) : bool * string * string * string :=
  (Str.startswith (after_scheme url) "//", urllib.scheme (components url),
   urllib.netloc (components url), urllib.path (components url)).

(** The text [urlsplit] cuts the fragment and the query from. *)
Definition after_netloc (url : string) : string * string :=
  if Str.startswith (after_scheme url) "//"
  then urllib._splitnetloc (after_scheme url)
  else (EmptyString, after_scheme url).

(** The message an error of the image service is reported with:
    [data.get('message')], which is [None] when the body has no message and
    when its message is [null]. *)
Definition reported (message : option (option string)) : option string :=
  match message with
  | Some message => message
  | None => None
  end.

(** The answer of the image service that carries [image_url]. *)
Definition image_found (image_url : string) : http_reply (api_body (option string)) :=
  Reply 200 (body_of "success" (Some image_url)).

(** The record of a slot whose image was fetched and whose upload was
    accepted. *)
Definition accepted `{UrlChecks} (breed folder : string)
    (slot : option string * string) (r : upload_record) : Prop :=
  exists filename,
    ImageFilenameHelper.get_filename_from_url (Some slot.2) = Return filename
    /\ r = fetched_record breed slot.1 folder (Some slot.2) filename true.

(** A character that is not a control character. *)
Definition printable (c : ascii) : bool := 32 <=? Str.ord c.

(** A character of the text of the result file: the line feed of the layout,
    or a character that is not a control character. *)
Definition laid_out (c : ascii) : bool := Ascii.eqb c JSON.newline || printable c.

(** A byte of the result file: a line feed, or a byte that is at least 32. *)
Definition byte_laid_out (b : byte) : bool :=
  ((Byte.to_N b =? 10) || (32 <=? Byte.to_N b))%N.

(** A run for "hound" in which every answer is good. *)
Definition every_answer_good : state :=
  fresh
    [Reply 200 (body_of "success" (Mapping hound_catalog))]
    (map image_found
       ["https://images.dog.ceo/breeds/hound-basset/n02088238_9815.jpg";
        "https://images.dog.ceo/breeds/hound-afghan/n02088094_1003.jpg";
        "https://images.dog.ceo/breeds/hound-blood/n02088466_6901.jpg"])
    [Reply 201 tt; Reply 202 tt; Reply 202 tt; Reply 202 tt].

(** The image service answers with a URL under the status [code]; the disk
    misses the folder at first, creates it, and accepts the upload. *)
Definition one_image (code : Z) : state :=
  fresh [] [Reply code (body_of "success"
                          (Some "https://images.dog.ceo/breeds/hound-afghan/n02088094_1003.jpg"))]
    [Reply 409 tt; Reply 201 tt; Reply 202 tt].

(** The breed list is answered with a catalog under an error status. *)
Definition catalog_unavailable : state :=
  fresh [Reply 503 (body_of "success" (Mapping hound_catalog))] [] [].

(** The answer to the fetch of a slot delivers [image_url]: it has a status
    outside 400..599, and its body is an object with the status "success"
    and the message [image_url], a URL, or [None] for the message [null]. *)
Definition delivers (reply : option (http_reply (api_body (option string))))
    (image_url : option string) : Prop :=
  exists code,
    reply = Some (Reply code (Object (Some "success") (Some image_url)))
    /\ error_status code = false.

(** The record a slot leaves, by the answer to its fetch (no answer is
    [None]): the record of an upload that was attempted, of the message the
    answer delivers, at the path built from the file name extracted from
    it; or the record of the [except] branch, when the answer delivers
    nothing or no file name can be extracted. *)
Inductive slot_outcome `{UrlChecks} (breed : string) (sub : option string) (folder : string)
    (reply : option (http_reply (api_body (option string)))) : upload_record -> Prop :=
| attempted image_url filename success :
    delivers reply image_url ->
    ImageFilenameHelper.get_filename_from_url image_url = Return filename ->
    slot_outcome breed sub folder reply
      (fetched_record breed sub folder image_url filename success)
| not_fetched :
    (forall image_url, ~ delivers reply image_url) ->
    slot_outcome breed sub folder reply (fallback_record breed sub folder)
| not_named image_url e :
    delivers reply image_url ->
    ImageFilenameHelper.get_filename_from_url image_url = Raise e ->
    slot_outcome breed sub folder reply (fallback_record breed sub folder).

(** The file name of a slot, by the answer to its fetch: the name extracted
    from the message the answer delivers, and the fallback name when it
    delivers nothing or no name can be extracted. *)
Definition slot_file `{UrlChecks} (reply : option (http_reply (api_body (option string))))
    (file : string) : Prop :=
  (exists image_url,
      delivers reply image_url
      /\ ImageFilenameHelper.get_filename_from_url image_url = Return file)
  \/ (file = "image.jpg"
      /\ forall image_url,
           delivers reply image_url ->
           exists e, ImageFilenameHelper.get_filename_from_url image_url = Raise e).

(** The upload of a record was answered 202: one of the answers of the disk
    after the first (the creation of the folder) is a 202, and the request
    that uploads the URL of the record to the path of the record is among
    the requests [new]. *)
Definition upload_accepted (uploader : YandexDiskUploader.t) (s : state)
    (new : list request) (r : upload_record) : Prop :=
  (exists n, (1 <= n)%nat /\ answer (disk_replies s) n = Some 202)
  /\ In (post_upload uploader (rec_image_url r) (rec_yandex_disk_path r)) new.

(** A run for "hound" in which the image service answers the fetch of the
    breed with a "success" whose message is [null], and the disk accepts the
    upload; the images of the two sub-breeds cannot be fetched. *)
Definition null_message : state :=
  fresh
    [Reply 200 (body_of "success" (Mapping hound_catalog))]
    [Reply 200 (body_of "success" None)]
    [Reply 201 tt; Reply 202 tt].

(** * Properties *)

(** ** The storage uploader *)

Lemma create_folder_eq self path s :
  YandexDiskUploader.create_folder self path s =
  match disk_replies s with
  | [] => (Return false, set_sent (sent s ++ [put_folder self path]) s)
  | NoReply :: rest =>
      (Return false,
       set_disk_replies rest (set_sent (sent s ++ [put_folder self path]) s))
  | Reply code _ :: rest =>
      (Return ((code =? 201) || (code =? 409)),
       set_disk_replies rest (set_sent (sent s ++ [put_folder self path]) s))
  end.
Proof.
  unfold YandexDiskUploader.create_folder, try_except, mbind, M_bind, send.
  cbn. fold (put_folder self path).
  destruct (disk_replies s) as [|[|code body] rest]; reflexivity.
Qed.

(** C5. For every path, [create_folder] issues the folder-create request and
    returns a boolean: [true] exactly when the request is answered with
    status 201 or 409, so [false] for every other status and when no answer
    comes (a transport error). It never raises. *)
Theorem create_folder_true_iff_201_or_409 (self : YandexDiskUploader.t) (path : string) (s : state) :
  exists b : bool,
    fst (YandexDiskUploader.create_folder self path s) = Return b
    /\ sent (snd (YandexDiskUploader.create_folder self path s))
       = (sent s ++ [put_folder self path])%list
    /\ (b = true <->
        answer (disk_replies s) 0 = Some 201 \/ answer (disk_replies s) 0 = Some 409).
Proof.
  rewrite create_folder_eq. unfold answer.
  destruct (disk_replies s) as [|[|code body] rest]; cbn.
  - exists false. repeat split; try easy. intros [?|?]; discriminate.
  - exists false. repeat split; try easy. intros [?|?]; discriminate.
  - exists ((code =? 201) || (code =? 409)). repeat split.
    + rewrite orb_true_iff, !Z.eqb_eq. intros [->| ->]; auto.
    + rewrite orb_true_iff, !Z.eqb_eq. intros [[= ->]|[= ->]]; auto.
Qed.

Lemma bool_decide_answer (o : option Z) (code : Z) :
  bool_decide (o = Some code) = match o with Some c => c =? code | None => false end.
Proof.
  destruct o as [c|].
  - destruct (Z.eqb_spec c code) as [->|N].
    + now apply bool_decide_eq_true.
    + apply bool_decide_eq_false. congruence.
  - now apply bool_decide_eq_false.
Qed.

(** [upload_from_url] by the answers to its requests. *)
Lemma upload_from_url_eq self image_url yandex_path s :
  YandexDiskUploader.upload_from_url self image_url yandex_path s =
  let post := post_upload self image_url yandex_path in
  let put := put_folder self (posixpath.dirname yandex_path) in
  let s1 := set_sent (sent s ++ [post]) s in
  match disk_replies s with
  | [] => (Return false, s1)
  | NoReply :: r1 => (Return false, set_disk_replies r1 s1)
  | Reply c0 _ :: r1 =>
      let s2 := set_disk_replies r1 s1 in
      if c0 =? 202 then (Return true, s2)
      else if c0 =? 409 then
        let s3 := set_sent (sent s2 ++ [put]) s2 in
        match r1 with
        | [] => (Return false, s3)
        | NoReply :: r2 => (Return false, set_disk_replies r2 s3)
        | Reply c1 _ :: r2 =>
            let s4 := set_disk_replies r2 s3 in
            if (c1 =? 201) || (c1 =? 409) then
              let s5 := set_sent (sent s4 ++ [post]) s4 in
              match r2 with
              | [] => (Return false, s5)
              | NoReply :: r3 => (Return false, set_disk_replies r3 s5)
              | Reply c2 _ :: r3 => (Return (c2 =? 202), set_disk_replies r3 s5)
              end
            else (Return false, s4)
        end
      else (Return false, s2)
  end.
Proof.
  unfold YandexDiskUploader.upload_from_url, try_except, mbind, M_bind, send.
  cbn. fold (post_upload self image_url yandex_path).
  destruct (disk_replies s) as [|[|c0 b0] r1]; cbn; try reflexivity.
  destruct (c0 =? 202); [reflexivity|].
  destruct (c0 =? 409); [|reflexivity].
  rewrite create_folder_eq. cbn.
  destruct r1 as [|[|c1 b1] r2]; cbn; try reflexivity.
  destruct ((c1 =? 201) || (c1 =? 409)); cbn; [|reflexivity].
  destruct r2 as [|[|c2 b2] r3]; reflexivity.
Qed.

(** C1. [upload_from_url] always returns a boolean (no exception leaves it).
    Answered 202 at once, it returns [true] after that single request.
    Answered 409, it asks [create_folder] for the parent folder of the
    destination path; when that succeeds it repeats the upload request once,
    and returns [true] exactly when the repeat is answered 202; when it fails
    nothing more is sent and the result is [false]. Every other first answer,
    and a request left unanswered at any step, gives [false]. *)
Theorem upload_from_url_retries_once_after_409
    (self : YandexDiskUploader.t) (image_url : option string) (yandex_path : string)
    (s : state) :
  let post := post_upload self image_url yandex_path in
  let put := put_folder self (posixpath.dirname yandex_path) in
  let a := answer (disk_replies s) in
  let out := YandexDiskUploader.upload_from_url self image_url yandex_path s in
  (exists b : bool, fst out = Return b)
  /\ (a 0%nat = Some 202 ->
      fst out = Return true /\ sent (snd out) = (sent s ++ [post])%list)
  /\ (a 0%nat = Some 409 -> a 1%nat = Some 201 \/ a 1%nat = Some 409 ->
      fst out = Return (bool_decide (a 2%nat = Some 202))
      /\ sent (snd out) = (sent s ++ [post; put; post])%list)
  /\ (a 0%nat = Some 409 -> a 1%nat <> Some 201 -> a 1%nat <> Some 409 ->
      fst out = Return false /\ sent (snd out) = (sent s ++ [post; put])%list)
  /\ (a 0%nat <> Some 202 -> a 0%nat <> Some 409 ->
      fst out = Return false /\ sent (snd out) = (sent s ++ [post])%list).
Proof.
  intros post put a out. subst a out. rewrite upload_from_url_eq.
  fold post put. cbv zeta. rewrite bool_decide_answer. unfold answer.
  destruct (disk_replies s) as [|[|c0 b0] r1]; cbn.
  1,2: repeat split; eauto; intros; congruence.
  destruct (Z.eqb_spec c0 202) as [->|N202].
  { cbn. repeat split; eauto; intros; congruence. }
  destruct (Z.eqb_spec c0 409) as [->|N409].
  2:{ cbn. repeat split; eauto; intros; congruence. }
  destruct r1 as [|[|c1 b1] r2]; cbn; rewrite <- ?app_assoc; cbn.
  1,2: repeat split; eauto; intros; try congruence;
       match goal with H : _ \/ _ |- _ => destruct H; congruence end.
  destruct (Z.eqb_spec c1 201) as [->|N201]; cbn.
  { destruct r2 as [|[|c2 b2] r3]; cbn; rewrite <- ?app_assoc; cbn;
      repeat split; eauto; intros; congruence. }
  destruct (Z.eqb_spec c1 409) as [->|N409']; cbn.
  { destruct r2 as [|[|c2 b2] r3]; cbn; rewrite <- ?app_assoc; cbn;
      repeat split; eauto; intros; congruence. }
  repeat split; eauto; intros; try congruence.
  all: match goal with H : _ \/ _ |- _ => destruct H; congruence end.
Qed.

(** ** Reasoning about statements *)

Section Ensures.
Context (T : relation state) `{!PreOrder T}.

Lemma ensures_ret {A} (a : A) : ensures T (mret a).
Proof. intros s. cbn. reflexivity. Qed.

Lemma ensures_raise {A} (e : exn) : ensures T (@raise A e).
Proof. intros s. cbn. reflexivity. Qed.

Lemma ensures_lift {A} (c : outcome A) : ensures T (lift c).
Proof. intros s. cbn. reflexivity. Qed.

Lemma ensures_bind {A B} (c : M A) (k : A -> M B) :
  ensures T c -> (forall a, ensures T (k a)) -> ensures T (c ≫= k).
Proof.
  intros Hc Hk s. unfold mbind, M_bind. specialize (Hc s).
  destruct (c s) as [[a|e] s']; cbn in *; [|assumption].
  etransitivity; [exact Hc | apply Hk].
Qed.

Lemma ensures_try_except {A} (body : M A) class handler :
  ensures T body -> (forall e, ensures T (handler e)) ->
  ensures T (try_except body class handler).
Proof.
  intros Hb Hh s. unfold try_except. specialize (Hb s).
  destruct (body s) as [[a|e] s']; cbn in *; [assumption|].
  destruct (class e); [|assumption].
  etransitivity; [exact Hb | apply Hh].
Qed.

Lemma ensures_try_finally {A} (body : M A) cleanup :
  ensures T body -> ensures T cleanup -> ensures T (try_finally body cleanup).
Proof.
  intros Hb Hc s. unfold try_finally. specialize (Hb s).
  destruct (body s) as [r s']. specialize (Hc s').
  destruct (cleanup s') as [[[]|e] s'']; cbn in *; etransitivity; eauto.
Qed.

Lemma ensures_for_each {A} (l : list A) body :
  (forall x, ensures T (body x)) -> ensures T (DogImageUploader.for_each l body).
Proof.
  intros Hb. induction l as [|x l IH]; cbn.
  - apply (ensures_ret tt).
  - apply ensures_bind; auto.
Qed.

Lemma ensures_if {A} (b : bool) (c1 c2 : M A) :
  ensures T c1 -> ensures T c2 -> ensures T (if b then c1 else c2).
Proof. destruct b; auto. Qed.

Lemma ensures_getitem_status {A} (data : api_body A) : ensures T (getitem_status data).
Proof.
  destruct data as [|[status|] message]; cbn;
    [apply ensures_raise | apply ensures_ret | apply ensures_raise].
Qed.

Lemma ensures_getitem_message {A} (data : api_body A) : ensures T (getitem_message data).
Proof.
  destruct data as [|status [message|]]; cbn;
    [apply ensures_raise | apply ensures_ret | apply ensures_raise].
Qed.

Lemma ensures_get_message data : ensures T (get_message data).
Proof.
  destruct data as [|status [message|]]; cbn;
    [apply ensures_raise | apply ensures_ret | apply ensures_ret].
Qed.
End Ensures.

#[global] Instance grows_preorder {X : Type} (f : state -> list X) (P : X -> Prop) :
  PreOrder (grows f P).
Proof.
  split.
  - intros s. exists []. split; [now rewrite app_nil_r | constructor].
  - intros s1 s2 s3 (n1 & E1 & F1) (n2 & E2 & F2). exists (n1 ++ n2)%list. split.
    + now rewrite E2, E1, app_assoc.
    + apply Forall_app; auto.
Qed.

#[global] Instance network_only_preorder : PreOrder network_only.
Proof.
  split.
  - intros s. unfold network_only. tauto.
  - intros s1 s2 s3. unfold network_only. intuition congruence.
Qed.

Lemma grows_one {X : Type} (f : state -> list X) (P : X -> Prop) s s' x :
  f s' = (f s ++ [x])%list -> P x -> grows f P s s'.
Proof. intros E HP. exists [x]. split; [assumption | now constructor]. Qed.

Lemma grows_same {X : Type} (f : state -> list X) (P : X -> Prop) s s' :
  f s' = f s -> grows f P s s'.
Proof. intros E. exists []. split; [now rewrite app_nil_r | constructor]. Qed.

(** A proof that a statement made of a few primitive steps relates the
    states: unfold the steps, split on the answers, and compare the fields. *)
Ltac by_cases_on_answers :=
  intros ?s; cbn;
  repeat match goal with
         | |- context [match ?l with [] => _ | _ :: _ => _ end] => destruct l as [|[|? ?] ?]; cbn
         | |- context [if ?b then _ else _] => destruct b; cbn
         end;
  first [ reflexivity
        | now (unfold network_only; cbn; repeat split)
        | now (eapply grows_one; [cbn; reflexivity | reflexivity])
        | now (apply grows_same; reflexivity) ].

Lemma send_image_network_only r : ensures network_only (send dog_image r).
Proof. unfold send. by_cases_on_answers. Qed.

Lemma send_disk_network_only r : ensures network_only (send yandex_disk r).
Proof. unfold send. by_cases_on_answers. Qed.

Lemma send_timeouts {B} (svc : service B) r :
  (forall v s, sent (set_pending svc v s) = sent s) ->
  timeout_ok r -> ensures sends_with_timeouts (send svc r).
Proof.
  intros Hsvc Hr s. unfold send.
  destruct (pending svc _) as [|[|code body] rest]; cbn;
    eapply grows_one; rewrite ?Hsvc; cbn; eauto.
Qed.

Lemma raise_for_status_ensures (T : relation state) `{!PreOrder T} {B} (r : response B) :
  ensures T (raise_for_status r).
Proof.
  unfold raise_for_status. apply ensures_if; [apply ensures_raise | apply ensures_ret]; assumption.
Qed.

(** Breaks a goal [ensures T c] along the structure of [c]. *)
Ltac ensures_step :=
  lazymatch goal with
  | |- PreOrder _ => typeclasses eauto
  | |- ensures _ (mret _) => apply ensures_ret
  | |- ensures _ (raise _) => apply ensures_raise
  | |- ensures _ (lift _) => apply ensures_lift
  | |- ensures _ (raise_for_status _) => apply raise_for_status_ensures
  | |- ensures _ (getitem_status _) => apply ensures_getitem_status
  | |- ensures _ (getitem_message _) => apply ensures_getitem_message
  | |- ensures _ (get_message _) => apply ensures_get_message
  | |- ensures _ (_ ≫= _) => apply ensures_bind; [| | intros ?]
  | |- ensures _ (try_except _ _ _) => apply ensures_try_except; [| | intros ?]
  | |- ensures _ (try_finally _ _) => apply ensures_try_finally
  | |- ensures _ (DogImageUploader.for_each _ _) => apply ensures_for_each; [| intros ?]
  | |- ensures _ (if _ then _ else _) => apply ensures_if
  end.

Create HintDb ensures discriminated.

Ltac ensures_auto := repeat ensures_step; eauto with ensures.

#[global] Hint Resolve send_image_network_only send_disk_network_only : ensures.

Lemma send_breeds_timeouts r : timeout_ok r -> ensures sends_with_timeouts (send dog_breeds r).
Proof. now apply send_timeouts. Qed.

Lemma send_image_timeouts r : timeout_ok r -> ensures sends_with_timeouts (send dog_image r).
Proof. now apply send_timeouts. Qed.

Lemma send_disk_timeouts r : timeout_ok r -> ensures sends_with_timeouts (send yandex_disk r).
Proof. now apply send_timeouts. Qed.

Lemma timeout_ok_get url : timeout_ok
  {| req_method := GET; req_url := url; req_headers := []; req_params := []; req_timeout := 10 |}.
Proof. reflexivity. Qed.

Lemma timeout_ok_put self path : timeout_ok (put_folder self path).
Proof. reflexivity. Qed.

Lemma timeout_ok_post self image_url yandex_path :
  timeout_ok (post_upload self image_url yandex_path).
Proof. reflexivity. Qed.

#[global] Hint Resolve send_breeds_timeouts send_image_timeouts send_disk_timeouts
  timeout_ok_get timeout_ok_put timeout_ok_post : ensures.

Lemma get_image_url_network_only url : ensures network_only (_get_image_url url).
Proof. unfold _get_image_url. ensures_auto. Qed.

Lemma get_image_url_timeouts url : ensures sends_with_timeouts (_get_image_url url).
Proof. unfold _get_image_url. ensures_auto. Qed.

Lemma create_folder_network_only self path :
  ensures network_only (YandexDiskUploader.create_folder self path).
Proof. unfold YandexDiskUploader.create_folder. ensures_auto. Qed.

Lemma create_folder_timeouts self path :
  ensures sends_with_timeouts (YandexDiskUploader.create_folder self path).
Proof.
  unfold YandexDiskUploader.create_folder. fold (put_folder self path). ensures_auto.
Qed.

#[global] Hint Resolve get_image_url_network_only get_image_url_timeouts
  create_folder_network_only create_folder_timeouts : ensures.

Lemma upload_from_url_network_only self image_url yandex_path :
  ensures network_only (YandexDiskUploader.upload_from_url self image_url yandex_path).
Proof. unfold YandexDiskUploader.upload_from_url. ensures_auto. Qed.

Lemma upload_from_url_timeouts self image_url yandex_path :
  ensures sends_with_timeouts (YandexDiskUploader.upload_from_url self image_url yandex_path).
Proof.
  unfold YandexDiskUploader.upload_from_url.
  fold (post_upload self image_url yandex_path). ensures_auto.
Qed.

#[global] Hint Resolve upload_from_url_network_only upload_from_url_timeouts : ensures.

Lemma print_timeouts l : ensures sends_with_timeouts (print l).
Proof. intros s. now apply grows_same. Qed.

Lemma get_all_breeds_timeouts : ensures sends_with_timeouts DogAPI.get_all_breeds.
Proof. unfold DogAPI.get_all_breeds. pose proof print_timeouts. ensures_auto. Qed.

#[global] Hint Resolve print_timeouts get_all_breeds_timeouts : ensures.

(** ** One image slot: the breed itself or one of its sub-breeds *)

Section Slots.
Context `{UrlChecks}.

Lemma process_image_slot breed sub folder uploader :
  process_image breed sub folder uploader = process_slot breed sub folder uploader.
Proof. destruct sub; reflexivity. Qed.

Lemma process_breed_image_slot breed folder uploader :
  DogImageUploader._process_breed_image breed folder uploader
  = process_slot breed None folder uploader.
Proof. reflexivity. Qed.

Lemma process_sub_breed_image_slot breed sub_breed folder uploader :
  DogImageUploader._process_sub_breed_image breed sub_breed folder uploader
  = process_slot breed (Some sub_breed) folder uploader.
Proof. reflexivity. Qed.

(** A slot by what happens in it. *)
Lemma process_slot_eq breed sub folder uploader s :
  process_slot breed sub folder uploader s =
  match fetch_image breed sub s with
  | (Raise _, s1) => finish (fallback_record breed sub folder) s1
  | (Return image_url, s1) =>
      match ImageFilenameHelper.get_filename_from_url image_url with
      | Raise _ => finish (fallback_record breed sub folder) s1
      | Return filename =>
          match YandexDiskUploader.upload_from_url uploader image_url
                  (slot_path folder breed sub filename) s1 with
          | (Return success, s2) =>
              finish (fetched_record breed sub folder image_url filename success) s2
          | (Raise _, s2) => finish (fallback_record breed sub folder) s2
          end
      end
  end.
Proof.
  unfold process_slot, try_block, try_finally, try_except, mbind, M_bind, lift.
  destruct (fetch_image breed sub s) as [[image_url|e] s1]; [|reflexivity].
  destruct (ImageFilenameHelper.get_filename_from_url image_url) as [filename|e];
    [|reflexivity].
  destruct (YandexDiskUploader.upload_from_url _ _ _ s1) as [[success|e] s2];
    reflexivity.
Qed.


Lemma fetch_image_network_only breed sub : ensures network_only (fetch_image breed sub).
Proof.
  destruct sub; unfold fetch_image, DogAPI.get_sub_breed_image, DogAPI.get_breed_image;
    ensures_auto.
Qed.

Lemma fetch_image_timeouts breed sub : ensures sends_with_timeouts (fetch_image breed sub).
Proof.
  destruct sub; unfold fetch_image, DogAPI.get_sub_breed_image, DogAPI.get_breed_image;
    ensures_auto.
Qed.

(** A slot always ends normally, with exactly one record more; nothing is
    printed and no file is touched. *)
Lemma process_slot_spec breed sub folder uploader s :
  exists r s',
    process_slot breed sub folder uploader s = (Return tt, s')
    /\ results s' = (results s ++ [r])%list
    /\ slot_record breed sub folder r
    /\ printed s' = printed s /\ files s' = files s /\ fault s' = fault s
    /\ pbar_total s' = pbar_total s /\ pbar_n s' = pbar_n s + 1
    /\ slept_ms s' = slept_ms s + 500
    /\ sends_with_timeouts s s'.
Proof.
  rewrite process_slot_eq.
  pose proof (fetch_image_network_only breed sub s) as N1.
  pose proof (fetch_image_timeouts breed sub s) as T1.
  destruct (fetch_image breed sub s) as [[image_url|e] s1]; cbn in N1, T1;
    destruct N1 as (? & ? & ? & ? & ? & ? & ? & ?).
  2:{ exists (fallback_record breed sub folder). eexists. split; [reflexivity|]. cbn.
      repeat apply conj; try congruence; [constructor | exact T1]. }
  destruct (ImageFilenameHelper.get_filename_from_url image_url) as [filename|e] eqn:F.
  2:{ exists (fallback_record breed sub folder). eexists. split; [reflexivity|]. cbn.
      repeat apply conj; try congruence; [constructor | exact T1]. }
  pose proof (upload_from_url_network_only uploader image_url
                (slot_path folder breed sub filename) s1) as N2.
  pose proof (upload_from_url_timeouts uploader image_url
                (slot_path folder breed sub filename) s1) as T2.
  destruct (YandexDiskUploader.upload_from_url _ _ _ s1) as [[success|e] s2];
    cbn in N2, T2; destruct N2 as (? & ? & ? & ? & ? & ? & ? & ?).
  - exists (fetched_record breed sub folder image_url filename success).
    eexists. split; [reflexivity|]. cbn.
    repeat apply conj; try congruence;
      [now constructor | (etransitivity; [exact T1 | exact T2])].
  - exists (fallback_record breed sub folder). eexists. split; [reflexivity|]. cbn.
    repeat apply conj; try congruence;
      [constructor | (etransitivity; [exact T1 | exact T2])].
Qed.

End Slots.

(** ** The run after the destination folder exists *)

Section UploadPhase.
Context `{UrlChecks}.

Lemma sub_breeds_loop_spec breed folder uploader (sub_breeds : list string) s :
  exists rs s',
    DogImageUploader.for_each sub_breeds
      (fun sub_breed =>
         DogImageUploader._process_sub_breed_image breed sub_breed folder uploader) s
    = (Return tt, s')
    /\ results s' = (results s ++ rs)%list
    /\ Forall2 (fun sub_breed r => slot_record breed (Some sub_breed) folder r) sub_breeds rs
    /\ printed s' = printed s /\ files s' = files s /\ fault s' = fault s
    /\ pbar_total s' = pbar_total s
    /\ pbar_n s' = pbar_n s + Z.of_nat (length sub_breeds)
    /\ slept_ms s' = slept_ms s + 500 * Z.of_nat (length sub_breeds)
    /\ sends_with_timeouts s s'.
Proof.
  revert s. induction sub_breeds as [|sub_breed rest IH]; intros s.
  - exists [], s. cbn. rewrite app_nil_r.
    repeat apply conj; try reflexivity; try lia. constructor.
  - cbn [DogImageUploader.for_each]. rewrite process_sub_breed_image_slot.
    destruct (process_slot_spec breed (Some sub_breed) folder uploader s)
      as (r & s1 & E1 & R1 & S1 & P1 & F1 & FA1 & BT1 & BN1 & SL1 & T1).
    destruct (IH s1) as (rs & s2 & E2 & R2 & S2 & P2 & F2 & FA2 & BT2 & BN2 & SL2 & T2).
    exists (r :: rs), s2. unfold mbind, M_bind. rewrite E1, E2.
    repeat apply conj; try congruence.
    + rewrite R2, R1, <- app_assoc. reflexivity.
    + now constructor.
    + rewrite BN2, BN1. cbn [length]. lia.
    + rewrite SL2, SL1. cbn [length]. lia.
    + etransitivity; eassumption.
Qed.

(** [run] by its exits. *)
Lemma run_eq breed_line token_line s :
  DogImageUploader.run breed_line token_line s =
  let breed := Str.lower (Str.strip breed_line) in
  let yd_token := Str.strip token_line in
  if String.eqb yd_token EmptyString then print TokenEmpty s
  else
    match DogAPI.get_all_breeds s with
    | (Raise e, s1) => (Raise e, s1)
    | (Return breeds, s1) =>
        if negb (DogImageUploader.truthy breeds) then print BreedsUnavailable s1
        else
          match breeds with
          | Null => (Raise TypeError, s1)
          | Text text =>
              if Str.contains breed text then (Raise TypeError, s1)
              else print (BreedNotFound breed) s1
          | Mapping m =>
              match m !! breed with
              | None => print (BreedNotFound breed) s1
              | Some sub_breeds =>
                  match YandexDiskUploader.create_folder
                          (YandexDiskUploader.__init__ yd_token)
                          ("/" ++ breed ++ "/") s1 with
                  | (Raise e, s2) => (Raise e, s2)
                  | (Return false, s2) => print FolderNotCreated s2
                  | (Return true, s2) =>
                      upload_all breed sub_breeds ("/" ++ breed ++ "/")
                        (YandexDiskUploader.__init__ yd_token) s2
                  end
              end
          end
    end.
Proof.
  unfold DogImageUploader.run. cbv zeta.
  destruct (String.eqb (Str.strip token_line) EmptyString); [reflexivity|].
  unfold mbind at 1, M_bind at 1.
  destruct (DogAPI.get_all_breeds s) as [[breeds|e] s1]; [|reflexivity].
  destruct (negb (DogImageUploader.truthy breeds)); [reflexivity|].
  unfold mbind at 1, M_bind at 1.
  destruct breeds as [|m|text]; cbn [DogImageUploader.contains DogImageUploader.getitem raise];
    [reflexivity| |].
  2:{ cbn [mret M_ret]. destruct (Str.contains _ text); reflexivity. }
  cbn [mret M_ret].
  destruct (m !! _) as [sub_breeds|] eqn:L.
  2:{ rewrite bool_decide_eq_false_2; [reflexivity|]. now intros [x [=]]. }
  rewrite bool_decide_eq_true_2 by eauto. cbn [negb].
  unfold mbind at 1, M_bind at 1. cbn [mret M_ret].
  unfold mbind at 1, M_bind at 1.
  destruct (YandexDiskUploader.create_folder _ _ s1) as [[[|]|e] s2]; reflexivity.
Qed.

(** What [ResultSaver.save] leaves, by the fault of the file system. *)
Lemma save_eq records filename s :
  ResultSaver.save records filename s =
  let text := JSON.dumps (JSON.Arr (map ResultSaver.record_dict records)) in
  match fault s with
  | NoFault =>
      (Return tt, set_files (<[filename := utf8_encode text]> (files s)) s)
  | OpenFails => (Return tt, set_printed (printed s ++ [SaveFailed OSError]) s)
  | WriteFails n =>
      (Return tt,
       set_printed (printed s ++ [SaveFailed OSError])
         (set_files (<[filename := take n (utf8_encode text)]> (files s)) s))
  end.
Proof.
  unfold ResultSaver.save, try_except, write_text.
  destruct (fault s); reflexivity.
Qed.

Lemma loop_when_nonempty {A} (l : list A) (body : A -> M unit) :
  (if DogImageUploader.nonempty l then DogImageUploader.for_each l body else mret tt)
  = DogImageUploader.for_each l body.
Proof. destruct l; reflexivity. Qed.

Lemma total_files_eq {A} (l : list A) :
  (if DogImageUploader.nonempty l then 1 + Z.of_nat (length l) else 1)
  = 1 + Z.of_nat (length l).
Proof. destruct l; reflexivity. Qed.

Lemma upload_all_spec breed sub_breeds folder uploader s :
  exists r0 rs s',
    upload_all breed sub_breeds folder uploader s = (Return tt, s')
    /\ results s' = r0 :: rs
    /\ slot_record breed None folder r0
    /\ Forall2 (fun sub_breed r => slot_record breed (Some sub_breed) folder r) sub_breeds rs
    /\ pbar_total s' = Some (1 + Z.of_nat (length sub_breeds))
    /\ pbar_n s' = 1 + Z.of_nat (length sub_breeds)
    /\ slept_ms s' = slept_ms s + 500 * (1 + Z.of_nat (length sub_breeds))
    /\ saved (r0 :: rs) s s'
    /\ sends_with_timeouts s s'.
Proof.
  unfold upload_all. cbv zeta. rewrite total_files_eq, loop_when_nonempty.
  set (total := 1 + Z.of_nat (length sub_breeds)).
  unfold mbind, M_bind, DogImageUploader.tqdm, DogImageUploader.results_clear.
  cbv beta iota. rewrite process_breed_image_slot.
  destruct (process_slot_spec breed None folder uploader
              (set_results [] (set_pbar (Some total) 0 s)))
    as (r0 & s1 & E1 & R1 & S1 & P1 & F1 & FA1 & BT1 & BN1 & SL1 & T1).
  rewrite E1. cbv beta iota. cbn in R1, P1, F1, FA1, BT1, BN1, SL1.
  destruct (sub_breeds_loop_spec breed folder uploader sub_breeds s1)
    as (rs & s2 & E2 & R2 & S2 & P2 & F2 & FA2 & BT2 & BN2 & SL2 & T2).
  rewrite E2. cbv beta iota. unfold DogImageUploader.get_results. cbv beta iota.
  rewrite save_eq. cbv zeta. rewrite R2, R1. cbn [app].
  fold (result_file (r0 :: rs)).
  exists r0, rs. unfold saved.
  assert (T : sends_with_timeouts s s2).
  { transitivity s1; [|exact T2]. destruct T1 as (new & E & F). now exists new. }
  assert (FA : fault s2 = fault s) by congruence. rewrite FA.
  assert (R : results s2 = r0 :: rs) by (rewrite R2, R1; reflexivity).
  assert (BN : pbar_n s2 = total) by (subst total; lia).
  assert (SL : slept_ms s2 = slept_ms s + 500 * total) by (subst total; lia).
  assert (BT : pbar_total s2 = Some total) by congruence.
  destruct (fault s);
    (eexists; split; [reflexivity|]); cbn;
    repeat apply conj; try assumption.
  all: rewrite ?P2, ?P1, ?F2, ?F1, <- ?app_assoc; reflexivity.
Qed.

End UploadPhase.

(** ** The breed catalog client *)

(** [get_all_breeds] by the answer to its request. *)
Lemma get_all_breeds_eq s :
  DogAPI.get_all_breeds s =
  let s1 := set_sent (sent s ++ [get_breeds]) s in
  match breeds_replies s with
  | [] =>
      (Return (Mapping ∅),
       set_printed (printed s ++ [ApiRequestFailed ConnectionError]) s1)
  | NoReply :: rest =>
      (Return (Mapping ∅),
       set_printed (printed s ++ [ApiRequestFailed ConnectionError])
         (set_breeds_replies rest s1))
  | Reply code body :: rest =>
      if (400 <=? code) && (code <? 600)
      then (Return (Mapping ∅),
            set_printed (printed s ++ [ApiRequestFailed (HTTPError code)])
              (set_breeds_replies rest s1))
      else (match body with
            | NotObject => Raise TypeError
            | Object _ None => Raise KeyError
            | Object _ (Some message) => Return message
            end, set_breeds_replies rest s1)
  end.
Proof.
  unfold DogAPI.get_all_breeds, try_except, mbind, M_bind, send, raise_for_status.
  cbn. fold get_breeds.
  destruct (breeds_replies s) as [|[|code body] rest]; cbn; try reflexivity.
  destruct ((400 <=? code) && (code <? 600)); [reflexivity|].
  destruct body as [|status [message|]]; reflexivity.
Qed.

(** [get_all_breeds] leaves the other services, the files and the results
    alone. It raises only when its request was answered under a status
    outside 400..599: [TypeError] for a body that is not an object and
    [KeyError] for an object without a message. *)
Lemma get_all_breeds_spec s :
  exists r s1,
    DogAPI.get_all_breeds s = (r, s1)
    /\ disk_replies s1 = disk_replies s /\ image_replies s1 = image_replies s
    /\ files s1 = files s /\ fault s1 = fault s /\ results s1 = results s
    /\ sent s1 = (sent s ++ [get_breeds])%list
    /\ (answer (breeds_replies s) 0 = None ->
        r = Return (Mapping ∅)
        /\ printed s1 = (printed s ++ [ApiRequestFailed ConnectionError])%list)
    /\ (forall e, r = Raise e ->
        (e = KeyError \/ e = TypeError)
        /\ exists code, answer (breeds_replies s) 0 = Some code
                        /\ error_status code = false)
    /\ (forall text, r = Return (Text text) ->
        exists code, answer (breeds_replies s) 0 = Some code
                     /\ error_status code = false).
Proof.
  rewrite get_all_breeds_eq. cbv zeta. unfold answer.
  destruct (breeds_replies s) as [|[|code body] rest]; cbn.
  1,2: eexists _, _; repeat apply conj; try reflexivity; auto; discriminate.
  fold (error_status code).
  destruct (error_status code) eqn:E.
  { eexists _, _; repeat apply conj; try reflexivity; discriminate. }
  eexists _, _; repeat apply conj; try reflexivity; try discriminate.
  - intros e Raised. split; [|eauto].
    destruct body as [|status [message|]]; inversion Raised; auto.
  - intros text _. eauto.
Qed.

(** [_get_image_url] when its request gets no answer. *)
Lemma get_image_url_unanswered url s :
  answer (image_replies s) 0 = None ->
  (_get_image_url url s).1 = Raise (ImageRequestError ConnectionError).
Proof.
  unfold _get_image_url, try_except, mbind, M_bind, send, answer. cbn.
  destruct (image_replies s) as [|[|code body] rest]; cbn; try reflexivity.
  discriminate.
Qed.

(** C3. [get_all_breeds] does not look at the status of the JSON body: a 200
    answer whose body says "error" gives its message as the catalog, nothing
    is printed, and the catalog counts as not empty. The run then reports an
    unknown breed, or, when the breed's name occurs in the message, ends with
    an uncaught [TypeError]. [_get_image_url] does check the status. *)
Theorem get_all_breeds_ignores_body_status :
  (DogAPI.get_all_breeds (fresh [Reply 200 error_report] [] [])).1
    = Return error_text
  /\ printed (DogAPI.get_all_breeds (fresh [Reply 200 error_report] [] [])).2 = []
  /\ DogImageUploader.truthy error_text = true
  /\ (forall C : UrlChecks,
        (DogImageUploader.run "hound" "token" (fresh [Reply 200 error_report] [] [])).1
          = Return tt
        /\ printed (DogImageUploader.run "hound" "token"
                      (fresh [Reply 200 error_report] [] [])).2
           = [BreedNotFound "hound"])
  /\ (forall C : UrlChecks,
        (DogImageUploader.run "breed" "token" (fresh [Reply 200 error_report] [] [])).1
          = Raise TypeError)
  /\ (_get_image_url "https://dog.ceo/api/breed/hound/images/random"
        (fresh [] [Reply 200 (body_of "error" (Some "Breed not found"))] [])).1
     = Raise (ApiStatusError (Some "Breed not found")).
Proof.
  repeat apply conj; try reflexivity; intros C; try split; reflexivity.
Qed.

(** ** The run as a whole *)

Section Run.
Context `{UrlChecks}.

Lemma create_folder_spec self path s :
  exists created s',
    YandexDiskUploader.create_folder self path s = (Return created, s')
    /\ sent s' = (sent s ++ [put_folder self path])%list
    /\ printed s' = printed s /\ files s' = files s /\ fault s' = fault s
    /\ results s' = results s
    /\ created = match answer (disk_replies s) 0 with
                 | Some code => (code =? 201) || (code =? 409)
                 | None => false
                 end.
Proof.
  rewrite create_folder_eq. unfold answer.
  destruct (disk_replies s) as [|[|code body] rest]; cbn;
    eexists _, _; repeat apply conj; reflexivity.
Qed.

(** A run sends each request with its timeout. It raises only when the
    request for the breed list was answered, under a status outside
    400..599, with a text as the message or with a body that has no
    message. *)
Lemma run_spec breed_line token_line s :
  sends_with_timeouts s (DogImageUploader.run breed_line token_line s).2
  /\ ((DogImageUploader.run breed_line token_line s).1 = Return tt
      \/ exists code,
           answer (breeds_replies s) 0 = Some code /\ error_status code = false
           /\ ((exists text, (DogAPI.get_all_breeds s).1 = Return (Text text))
               \/ (DogAPI.get_all_breeds s).1 = Raise KeyError
               \/ (DogAPI.get_all_breeds s).1 = Raise TypeError)).
Proof.
  rewrite run_eq. cbv zeta.
  destruct (String.eqb _ _).
  { split; [apply print_timeouts | now left]. }
  pose proof (get_all_breeds_timeouts s) as T1.
  destruct (get_all_breeds_spec s)
    as (r & s1 & E1 & _ & _ & _ & _ & _ & _ & _ & Raised & Texts).
  rewrite E1 in *. cbn [fst snd] in *.
  destruct r as [breeds|e].
  2:{ split; [exact T1|]. right.
      destruct (Raised e eq_refl) as ([-> | ->] & code & A & E);
        exists code; auto. }
  destruct (negb (DogImageUploader.truthy breeds)) eqn:Full.
  { split; [|now left]. etransitivity; [exact T1 | apply print_timeouts]. }
  destruct breeds as [|m|text]; [discriminate| |].
  2:{ destruct (Str.contains _ text).
      - split; [exact T1|]. right.
        destruct (Texts text eq_refl) as (code & A & E). exists code. eauto.
      - split; [|now left]. etransitivity; [exact T1 | apply print_timeouts]. }
  destruct (m !! _) as [sub_breeds|] eqn:L.
  2:{ split; [|now left]. etransitivity; [exact T1 | apply print_timeouts]. }
  pose proof (create_folder_timeouts
                (YandexDiskUploader.__init__ (Str.strip token_line))
                ("/" ++ Str.lower (Str.strip breed_line) ++ "/") s1) as T2.
  destruct (create_folder_spec
              (YandexDiskUploader.__init__ (Str.strip token_line))
              ("/" ++ Str.lower (Str.strip breed_line) ++ "/") s1)
    as (created & s2 & E2 & _).
  rewrite E2 in *. cbn [fst snd] in *.
  destruct created.
  - destruct (upload_all_spec (Str.lower (Str.strip breed_line)) sub_breeds
                ("/" ++ Str.lower (Str.strip breed_line) ++ "/")
                (YandexDiskUploader.__init__ (Str.strip token_line)) s2)
      as (r0 & rs & s3 & E3 & _ & _ & _ & _ & _ & _ & _ & T3).
    rewrite E3. split; [|now left].
    etransitivity; [exact T1|]. etransitivity; [exact T2 | exact T3].
  - split; [|now left].
    etransitivity; [exact T1|]. etransitivity; [exact T2 | apply print_timeouts].
Qed.

End Run.

(** C4 (amended). Every request issued during a run carries a bounded
    timeout: 30 seconds for an upload request ([POST]), 10 seconds for every
    other request. A request that gets no answer (a timeout, a transport
    error) is a failure of the operation and never an uncaught exception:
    [get_all_breeds] prints the error and returns the empty catalog,
    [_get_image_url] raises its descriptive error (which the processing of
    the image catches), [create_folder] and [upload_from_url] return
    [false]. A run raises only when the request for the breed list was
    answered, under a status outside 400..599: with a text as the message
    (then [get_all_breeds] returns the text), or with a body from which
    [get_all_breeds] cannot take the message (it raises [KeyError] or
    [TypeError], which its [except] clause does not catch). *)
Theorem requests_carry_timeouts_and_unanswered_ones_fail
    `{UrlChecks} (breed_line token_line : string) (s : state) :
  (exists new,
      sent (DogImageUploader.run breed_line token_line s).2 = (sent s ++ new)%list
      /\ Forall (fun r => req_timeout r = timeout_of (req_method r)) new)
  /\ (answer (breeds_replies s) 0 = None ->
      (DogAPI.get_all_breeds s).1 = Return (Mapping ∅)
      /\ printed (DogAPI.get_all_breeds s).2
         = (printed s ++ [ApiRequestFailed ConnectionError])%list)
  /\ (forall url, answer (image_replies s) 0 = None ->
      (_get_image_url url s).1 = Raise (ImageRequestError ConnectionError))
  /\ (forall self path, answer (disk_replies s) 0 = None ->
      (YandexDiskUploader.create_folder self path s).1 = Return false)
  /\ (forall self image_url yandex_path, answer (disk_replies s) 0 = None ->
      (YandexDiskUploader.upload_from_url self image_url yandex_path s).1 = Return false)
  /\ ((DogImageUploader.run breed_line token_line s).1 = Return tt
      \/ exists code,
           answer (breeds_replies s) 0 = Some code /\ error_status code = false
           /\ ((exists text, (DogAPI.get_all_breeds s).1 = Return (Text text))
               \/ (DogAPI.get_all_breeds s).1 = Raise KeyError
               \/ (DogAPI.get_all_breeds s).1 = Raise TypeError)).
Proof.
  destruct (run_spec breed_line token_line s) as [T R].
  repeat apply conj; try assumption.
  - intros U. destruct (get_all_breeds_spec s)
      as (breeds & s1 & E & _ & _ & _ & _ & _ & _ & P & _).
    rewrite E. cbn. destruct (P U) as [-> ->]. now split.
  - intros url. apply get_image_url_unanswered.
  - intros self path U.
    destruct (create_folder_spec self path s) as (created & s' & E & _ & _ & _ & _ & _ & C).
    rewrite E, C, U. reflexivity.
  - intros self image_url yandex_path U. rewrite upload_from_url_eq. cbv zeta.
    unfold answer in U. destruct (disk_replies s) as [|[|code body] rest]; cbn in *;
      [reflexivity | reflexivity | discriminate].
Qed.

Lemma requests_carry_timeouts_and_unanswered_ones_fail_witness :
  answer (breeds_replies (fresh [] [] [])) 0 = None
  /\ answer (disk_replies (fresh [] [] [])) 0 = None
  /\ (DogAPI.get_all_breeds (fresh [] [] [])).1 = Return (Mapping ∅)
  /\ (YandexDiskUploader.create_folder (YandexDiskUploader.__init__ "token")
        "/hound/" (fresh [] [] [])).1 = Return false.
Proof.
  destruct (@requests_carry_timeouts_and_unanswered_ones_fail accept_all
              "hound" "token" (fresh [] [] [])) as (_ & B & _ & D & _).
  split; [reflexivity|]. split; [reflexivity|]. split.
  - apply (proj1 (B eq_refl)).
  - apply D. reflexivity.
Defined.

(** C4, as stated, fails: the upload request is sent with a timeout of 30
    seconds. *)
Lemma upload_request_has_timeout_30 :
  exists r,
    In r (sent (YandexDiskUploader.upload_from_url (YandexDiskUploader.__init__ "token")
                  (Some "https://images.dog.ceo/breeds/hound/a.jpg") "/hound/hound_a.jpg"
                  (fresh [] [] [Reply 202 tt])).2)
    /\ req_timeout r = 30 /\ req_timeout r <> 10.
Proof.
  eexists. split; [left; reflexivity|]. split; [reflexivity | discriminate].
Qed.

Lemma truthy_empty : DogImageUploader.truthy (Mapping ∅) = false.
Proof. cbn. now rewrite bool_decide_eq_true_2. Qed.



(** ** The record of a slot *)

Section Records.
Context `{UrlChecks}.


Lemma append_assoc (a b c : string) : (a ++ b) ++ c = a ++ (b ++ c).
Proof.
  induction a as [|x a IH]; [reflexivity|].
  change (String x ((a ++ b) ++ c) = String x (a ++ (b ++ c))). now rewrite IH.
Qed.

Lemma endswith_app (a b : string) : Str.endswith (a ++ b) b = true.
Proof.
  induction a as [|c a IH].
  - change (Str.endswith b b = true).
    destruct b; [reflexivity|]. cbn [Str.endswith]. now rewrite String.eqb_refl.
  - change (Str.endswith (String c (a ++ b)) b = true).
    cbn [Str.endswith]. rewrite IH. apply orb_true_r.
Qed.

Lemma fallback_path_ends_in_fallback_name breed sub folder :
  Str.endswith (slot_path folder breed sub "image.jpg") "image.jpg" = true.
Proof.
  destruct sub as [sub_breed|]; cbn [slot_path].
  - replace (folder ++ breed ++ "_" ++ sub_breed ++ "_" ++ "image.jpg")
      with ((folder ++ breed ++ "_" ++ sub_breed ++ "_") ++ "image.jpg");
      [apply endswith_app|].
    rewrite !append_assoc. reflexivity.
  - replace (folder ++ breed ++ "_" ++ "image.jpg")
      with ((folder ++ breed ++ "_") ++ "image.jpg"); [apply endswith_app|].
    rewrite !append_assoc. reflexivity.
Qed.

(** The run of the hypotheses "passes breed resolution and folder
    creation", reduced to the part that follows. *)
Lemma run_main_path breed_line token_line s m sub_breeds :
  Str.strip token_line <> EmptyString ->
  (DogAPI.get_all_breeds s).1 = Return (Mapping m) ->
  m !! Str.lower (Str.strip breed_line) = Some sub_breeds ->
  answer (disk_replies s) 0 = Some 201 \/ answer (disk_replies s) 0 = Some 409 ->
  exists s2,
    DogImageUploader.run breed_line token_line s
    = upload_all (Str.lower (Str.strip breed_line)) sub_breeds
        ("/" ++ Str.lower (Str.strip breed_line) ++ "/")
        (YandexDiskUploader.__init__ (Str.strip token_line)) s2
    /\ fault s2 = fault s /\ files s2 = files s.
Proof.
  intros N Hget L Created. rewrite run_eq. cbv zeta.
  destruct (String.eqb_spec (Str.strip token_line) EmptyString) as [E|_];
    [contradiction|].
  destruct (get_all_breeds_spec s) as (breeds & s1 & E1 & D1 & _ & F1 & FA1 & _).
  rewrite E1 in *. cbn [fst] in Hget. subst breeds.
  assert (Full : DogImageUploader.truthy (Mapping m) = true).
  { cbn. apply negb_true_iff, bool_decide_eq_false. intros ->.
    rewrite lookup_empty in L. discriminate. }
  rewrite Full, L. cbn [negb].
  destruct (create_folder_spec (YandexDiskUploader.__init__ (Str.strip token_line))
              ("/" ++ Str.lower (Str.strip breed_line) ++ "/") s1)
    as (created & s2 & E2 & _ & _ & F2 & FA2 & _ & C2).
  rewrite E2. rewrite D1 in C2.
  assert (created = true) as ->.
  { rewrite C2. destruct Created as [-> | ->]; reflexivity. }
  exists s2. repeat apply conj; [reflexivity | congruence | congruence].
Qed.

End Records.



Lemma upload_from_url_retries_once_after_409_witness :
  answer (disk_replies folder_missing_once) 0 = Some 409
  /\ answer (disk_replies folder_missing_once) 1 = Some 201
  /\ (YandexDiskUploader.upload_from_url (YandexDiskUploader.__init__ "token")
        (Some "https://images.dog.ceo/breeds/hound/a.jpg") "/hound/hound_a.jpg"
        folder_missing_once).1 = Return true
  /\ map (fun r => (req_method r, req_params r))
       (sent (YandexDiskUploader.upload_from_url (YandexDiskUploader.__init__ "token")
                (Some "https://images.dog.ceo/breeds/hound/a.jpg") "/hound/hound_a.jpg"
                folder_missing_once).2)
     = [(POST, [("path", Some "/hound/hound_a.jpg");
                ("url", Some "https://images.dog.ceo/breeds/hound/a.jpg");
                ("overwrite", Some "true")]);
        (PUT, [("path", Some "/hound")]);
        (POST, [("path", Some "/hound/hound_a.jpg");
                ("url", Some "https://images.dog.ceo/breeds/hound/a.jpg");
                ("overwrite", Some "true")])].
Proof.
  assert (A0 : answer (disk_replies folder_missing_once) 0 = Some 409) by reflexivity.
  assert (A1 : answer (disk_replies folder_missing_once) 1 = Some 201) by reflexivity.
  destruct (upload_from_url_retries_once_after_409 (YandexDiskUploader.__init__ "token")
              (Some "https://images.dog.ceo/breeds/hound/a.jpg") "/hound/hound_a.jpg"
              folder_missing_once) as (_ & _ & Retry & _).
  destruct (Retry A0 (or_introl A1)) as [Result Sent].
  repeat apply conj; try assumption. rewrite Sent. reflexivity.
Defined.


(** ** The file name extractor *)

Section StrFacts.

Lemma append_cons (c : ascii) (a b : string) : String c a ++ b = String c (a ++ b).
Proof. reflexivity. Qed.

Lemma all_append p (a b : string) :
  Str.all p (a ++ b) = Str.all p a && Str.all p b.
Proof.
  induction a as [|c a IH]; [reflexivity|].
  rewrite append_cons. cbn [Str.all]. now rewrite IH, andb_assoc.
Qed.

Lemma all_lstrip p q (s : string) : Str.all p s = true -> Str.all p (Str.lstrip q s) = true.
Proof.
  induction s as [|c s IH]; cbn; [reflexivity|].
  intros [Hc Hs]%andb_true_iff. destruct (q c); cbn; auto.
  now rewrite Hc, Hs.
Qed.

Lemma all_remove p q (s : string) : Str.all p s = true -> Str.all p (Str.remove q s) = true.
Proof.
  induction s as [|c s IH]; cbn; [reflexivity|].
  intros [Hc Hs]%andb_true_iff. destruct (q c); cbn; auto.
  now rewrite Hc, IH.
Qed.

Lemma all_removed q (s : string) :
  Str.all (fun c => negb (q c)) (Str.remove q s) = true.
Proof.
  induction s as [|c s IH]; cbn; [reflexivity|].
  destruct (q c) eqn:Q; cbn; [assumption|]. now rewrite Q, IH.
Qed.

Lemma all_split_first p c (s h t : string) :
  Str.split_first c s = Some (h, t) -> Str.all p s = true ->
  Str.all p h = true /\ Str.all p t = true.
Proof.
  revert h. induction s as [|a s IH]; cbn; [discriminate|].
  intros h E [Ha Hs]%andb_true_iff. destruct (Ascii.eqb a c).
  - injection E as <- <-. auto.
  - destruct (Str.split_first c s) as [[h' t']|]; [|discriminate].
    injection E as <- <-. destruct (IH h' eq_refl Hs). cbn. now rewrite Ha.
Qed.

Lemma all_split_last p c (s h t : string) :
  Str.split_last c s = Some (h, t) -> Str.all p s = true ->
  Str.all p h = true /\ Str.all p t = true.
Proof.
  revert h. induction s as [|a s IH]; cbn; [discriminate|].
  intros h E [Ha Hs]%andb_true_iff.
  destruct (Str.split_last c s) as [[h' t']|].
  - injection E as <- <-. destruct (IH h' eq_refl Hs). cbn. now rewrite Ha.
  - destruct (Ascii.eqb a c); [|discriminate]. injection E as <- <-. auto.
Qed.

Lemma all_drop p n (s : string) : Str.all p s = true -> Str.all p (Str.drop n s) = true.
Proof.
  revert s. induction n as [|n IH]; intros [|c s]; cbn; auto.
  intros [_ Hs]%andb_true_iff. auto.
Qed.

Lemma all_break p q (s : string) :
  Str.all p s = true ->
  Str.all p (Str.break q s).1 = true /\ Str.all p (Str.break q s).2 = true.
Proof.
  induction s as [|c s IH]; cbn; [auto|].
  intros [Hc Hs]%andb_true_iff. destruct (q c); cbn.
  - split; [reflexivity | now rewrite Hc, Hs].
  - destruct (IH Hs) as [H1 H2]. destruct (Str.break q s) as [h t]; cbn in *.
    now rewrite Hc, H1.
Qed.

Lemma all_impl (p q : ascii -> bool) (s : string) :
  (forall c, p c = true -> q c = true) -> Str.all p s = true -> Str.all q s = true.
Proof.
  intros Hpq. induction s as [|c s IH]; cbn; [reflexivity|].
  intros [Hc Hs]%andb_true_iff. now rewrite (Hpq c Hc), IH.
Qed.

(** [c] does not occur in [s], as a property of every character. *)
Lemma has_false_all c (s : string) :
  Str.has c s = false <-> Str.all (fun a => negb (Ascii.eqb a c)) s = true.
Proof.
  induction s as [|a s IH]; cbn; [tauto|].
  rewrite orb_false_iff, andb_true_iff, negb_true_iff, IH. tauto.
Qed.

Lemma split_first_head_free c (s h t : string) :
  Str.split_first c s = Some (h, t) -> Str.has c h = false.
Proof.
  revert h. induction s as [|a s IH]; cbn; [discriminate|].
  intros h E. destruct (Ascii.eqb a c) eqn:A.
  - injection E as <- <-. reflexivity.
  - destruct (Str.split_first c s) as [[h' t']|]; [|discriminate].
    injection E as <- <-. cbn. now rewrite A, (IH h' eq_refl).
Qed.

Lemma split_first_none c (s : string) :
  Str.split_first c s = None <-> Str.has c s = false.
Proof.
  induction s as [|a s IH]; cbn; [tauto|].
  destruct (Ascii.eqb a c); cbn.
  - split; discriminate.
  - destruct (Str.split_first c s) as [[h t]|]; rewrite <- IH; split; auto; discriminate.
Qed.

Lemma split_last_none c (s : string) :
  Str.split_last c s = None <-> Str.has c s = false.
Proof.
  induction s as [|a s IH]; cbn; [tauto|].
  destruct (Str.split_last c s) as [[h t]|].
  - split; [discriminate|]. intros [_ E]%orb_false_iff. apply IH in E. discriminate.
  - destruct (Ascii.eqb a c); cbn; [split; discriminate|].
    split; [intros _; now apply IH | reflexivity].
Qed.

Lemma split_last_tail_free c (s h t : string) :
  Str.split_last c s = Some (h, t) -> Str.has c t = false.
Proof.
  revert h. induction s as [|a s IH]; cbn; [discriminate|].
  intros h E. destruct (Str.split_last c s) as [[h' t']|] eqn:L.
  - injection E as <- <-. now apply (IH h').
  - destruct (Ascii.eqb a c); [|discriminate]. injection E as <- <-.
    now apply split_last_none.
Qed.

Lemma remove_id p (s : string) :
  Str.all (fun c => negb (p c)) s = true -> Str.remove p s = s.
Proof.
  induction s as [|c s IH]; cbn; [reflexivity|].
  intros [Hc Hs]%andb_true_iff. apply negb_true_iff in Hc. now rewrite Hc, IH.
Qed.

Lemma basename_free (p : string) : Str.has "/"%char (posixpath.basename p) = false.
Proof.
  unfold posixpath.basename, posixpath.sep.
  destruct (Str.split_last "/"%char p) as [[h t]|] eqn:L.
  - now apply (split_last_tail_free _ _ _ _ L).
  - now apply split_last_none.
Qed.

Lemma basename_all q (p : string) :
  Str.all q p = true -> Str.all q (posixpath.basename p) = true.
Proof.
  intros Hp. unfold posixpath.basename, posixpath.sep.
  destruct (Str.split_last "/"%char p) as [[h t]|] eqn:L; [|assumption].
  now destruct (all_split_last q _ _ _ _ L Hp).
Qed.

Lemma basename_id (s : string) :
  Str.has "/"%char s = false -> posixpath.basename s = s.
Proof.
  intros Hs. unfold posixpath.basename, posixpath.sep.
  apply split_last_none in Hs. now rewrite Hs.
Qed.

End StrFacts.

Section Extractor.
Context `{UrlChecks}.

(** [urlsplit] is its two checks of the network location, then the
    components. *)
Lemma urlsplit_eq url :
  urllib.urlsplit url =
  (_ ← (if Str.startswith (after_scheme url) "//"
        then urllib.bracket_check (urllib.netloc (components url))
        else mret tt);
   _ ← urllib._checknetloc (urllib.netloc (components url));
   mret (components url)).
Proof.
  unfold urllib.urlsplit, components, after_scheme, cleaned.
  destruct (urllib.split_scheme _) as [scheme rest]. cbn [fst snd].
  unfold mbind, outcome_bind, mret, outcome_ret.
  destruct (Str.startswith rest "//").
  - destruct (urllib._splitnetloc rest) as [netloc rest'].
    assert (N : urllib.netloc
                  (let '(rest5, fragment) :=
                     match Str.split_first "#"%char rest' with
                     | Some (h, t) => (h, t)
                     | None => (rest', EmptyString)
                     end in
                   let '(rest6, query) :=
                     match Str.split_first "?"%char rest5 with
                     | Some (h, t) => (h, t)
                     | None => (rest5, EmptyString)
                     end in
                   {| urllib.scheme := scheme; urllib.netloc := netloc;
                      urllib.path := rest6; urllib.query := query;
                      urllib.fragment := fragment |}) = netloc).
    { destruct (Str.split_first "#"%char rest') as [[h t]|];
        destruct (Str.split_first "?"%char _) as [[h' t']|]; reflexivity. }
    rewrite N.
    destruct (urllib.bracket_check netloc) as [[]|e]; [|reflexivity].
    destruct (Str.split_first "#"%char rest') as [[h t]|];
      destruct (Str.split_first "?"%char _) as [[h' t']|]; reflexivity.
  - destruct (Str.split_first "#"%char rest) as [[h t]|];
      destruct (Str.split_first "?"%char _) as [[h' t']|]; reflexivity.
Qed.

(** [urlsplit] raises nothing but [ValueError]. *)
Lemma urlsplit_raises url e : urllib.urlsplit url = Raise e -> e = ValueError.
Proof.
  rewrite urlsplit_eq. unfold urllib.bracket_check, urllib._checknetloc, mbind, outcome_bind, mret, outcome_ret.
  repeat match goal with
         | |- context [if ?b then _ else _] => destruct b
         end; congruence.
Qed.

Lemma urlsplit_returns url r : urllib.urlsplit url = Return r -> r = components url.
Proof.
  rewrite urlsplit_eq. unfold urllib.bracket_check, urllib._checknetloc, mbind, outcome_bind, mret, outcome_ret.
  repeat match goal with
         | |- context [if ?b then _ else _] => destruct b
         end; congruence.
Qed.

Lemma cleaned_safe url : Str.all safe (cleaned url) = true.
Proof. apply all_removed. Qed.

Lemma split_scheme_all p (url : string) :
  Str.all p url = true -> Str.all p (urllib.split_scheme url).2 = true.
Proof.
  intros Hp. unfold urllib.split_scheme.
  destruct (Str.split_first ":"%char url) as [[[|c0 before] after]|] eqn:S; try assumption.
  destruct (_ && _); [|assumption].
  now destruct (all_split_first p _ _ _ _ S Hp).
Qed.

(** The path of the components has no tab or line break, no [#] and no
    [?]. *)
Lemma components_path url :
  Str.all safe (urllib.path (components url)) = true
  /\ Str.has "#"%char (urllib.path (components url)) = false
  /\ Str.has "?"%char (urllib.path (components url)) = false.
Proof.
  unfold components, after_scheme.
  pose proof (split_scheme_all safe _ (cleaned_safe url)) as S3.
  set (rest := (urllib.split_scheme (cleaned url)).2) in *.
  assert (exists netloc rest',
            (if Str.startswith rest "//" then urllib._splitnetloc rest
             else (EmptyString, rest)) = (netloc, rest')
            /\ Str.all safe rest' = true) as (netloc & rest' & -> & S4).
  { destruct (Str.startswith rest "//"); [|eauto].
    unfold urllib._splitnetloc.
    destruct (all_break safe urllib.netloc_delimiter (Str.drop 2 rest)
                (all_drop safe 2 rest S3)) as [_ Hb].
    destruct (Str.break _ _) as [n r]. eauto. }
  assert (exists rest5 fragment,
            match Str.split_first "#"%char rest' with
            | Some (h, t) => (h, t)
            | None => (rest', EmptyString)
            end = (rest5, fragment)
            /\ Str.all safe rest5 = true /\ Str.has "#"%char rest5 = false)
    as (rest5 & fragment & -> & S5 & F5).
  { destruct (Str.split_first "#"%char rest') as [[h t]|] eqn:S.
    - exists h, t. destruct (all_split_first safe _ _ _ _ S S4).
      repeat split; auto. now apply (split_first_head_free _ _ _ _ S).
    - exists rest', EmptyString. repeat split; auto. now apply split_first_none. }
  destruct (Str.split_first "?"%char rest5) as [[h t]|] eqn:S; cbn [urllib.path].
  - destruct (all_split_first safe _ _ _ _ S S5).
    apply has_false_all in F5.
    destruct (all_split_first _ _ _ _ _ S F5) as [F6 _]. apply has_false_all in F6.
    repeat split; auto. now apply (split_first_head_free _ _ _ _ S).
  - repeat split; auto. now apply split_first_none.
Qed.

Lemma splitparams_clean p (url : string) :
  Str.all p url = true -> Str.all p (urllib._splitparams url) = true.
Proof.
  intros Hp. unfold urllib._splitparams.
  destruct (Str.split_last "/"%char url) as [[h t]|] eqn:L.
  - destruct (all_split_last p _ _ _ _ L Hp) as [Hh Ht].
    destruct (Str.split_first ";"%char t) as [[t' rest]|] eqn:S; [|assumption].
    destruct (all_split_first p _ _ _ _ S Ht) as [Ht' _].
    rewrite !all_append, Hh, Ht'.
    pose proof Hp as Hp'. clear - L Hp' Ht'.
    (* the separator itself is a character of [url] *)
    assert (Hsep : p "/"%char = true).
    { clear Ht'. revert h L Hp'. induction url as [|a url IH]; cbn; [discriminate|].
      intros h E [Ha Hs]%andb_true_iff.
      destruct (Str.split_last "/"%char url) as [[h' t'']|].
      - injection E as <- <-. now apply (IH h').
      - destruct (Ascii.eqb_spec a "/"%char) as [->|]; [assumption | discriminate]. }
    cbn. now rewrite Hsep.
  - destruct (Str.split_first ";"%char url) as [[h t]|] eqn:S; [|assumption].
    now destruct (all_split_first p _ _ _ _ S Hp).
Qed.

End Extractor.

Section ExtractorSpec.
Context `{UrlChecks}.

Lemma components_netloc_all p url :
  Str.all p url = true -> Str.all p (urllib.netloc (components url)) = true.
Proof.
  intros Hp. unfold components, after_scheme.
  assert (S3 : Str.all p (urllib.split_scheme (cleaned url)).2 = true).
  { apply split_scheme_all. unfold cleaned. now apply all_remove, all_lstrip. }
  set (rest := (urllib.split_scheme (cleaned url)).2) in *.
  destruct (Str.startswith rest "//").
  - unfold urllib._splitnetloc.
    destruct (all_break p urllib.netloc_delimiter (Str.drop 2 rest)
                (all_drop p 2 rest S3)) as [Hn _].
    destruct (Str.break _ _) as [n r]. cbn [fst] in Hn.
    destruct (Str.split_first "#"%char r) as [[h t]|];
      destruct (Str.split_first "?"%char _) as [[h' t']|]; exact Hn.
  - destruct (Str.split_first "#"%char rest) as [[h t]|];
      destruct (Str.split_first "?"%char _) as [[h' t']|]; reflexivity.
Qed.

(** A URL of plain characters passes the checks of [urlsplit]. *)
Lemma urlsplit_plain url :
  Str.all plain url = true -> urllib.urlsplit url = Return (components url).
Proof.
  intros Hp. rewrite urlsplit_eq.
  pose proof (components_netloc_all plain url Hp) as Hn.
  set (netloc := urllib.netloc (components url)) in *.
  assert (A : Str.all Str.isascii netloc = true).
  { revert Hn. apply all_impl. unfold plain. intros c.
    now intros [[? _]%andb_true_iff _]%andb_true_iff. }
  assert (L : Str.has "["%char netloc = false).
  { apply has_false_all. revert Hn. apply all_impl. unfold plain. intros c.
    now intros [[_ ?]%andb_true_iff _]%andb_true_iff. }
  assert (R : Str.has "]"%char netloc = false).
  { apply has_false_all. revert Hn. apply all_impl. unfold plain. intros c.
    now intros [_ ?]%andb_true_iff. }
  unfold urllib.bracket_check, urllib._checknetloc. rewrite L, R, A, orb_true_r.
  destruct (Str.startswith (after_scheme url) "//"); reflexivity.
Qed.

Lemma prefix_slashes_has (s : string) :
  Str.startswith s "//" = true -> Str.has "/"%char s = true.
Proof.
  destruct s as [|c s]; [discriminate|].
  change (Ascii.eqb "/"%char c && Str.startswith s "/" = true ->
          Ascii.eqb c "/"%char || Str.has "/"%char s = true).
  rewrite (Ascii.eqb_sym c). destruct (Ascii.eqb "/"%char c); [reflexivity | discriminate].
Qed.

(** Extracting from a file name that [urlsplit] reads as a bare path gives
    the file name back. *)
Lemma extract_again (filename : string) :
  filename <> EmptyString -> Str.has "."%char filename = true ->
  Str.has "/"%char filename = false -> Str.has "#"%char filename = false ->
  Str.has "?"%char filename = false -> Str.all safe filename = true ->
  Str.has ":"%char filename = false -> Str.has ";"%char filename = false ->
  Str.lstrip urllib.c0_control_or_space filename = filename ->
  ImageFilenameHelper.get_filename_from_url (Some filename) = Return filename.
Proof.
  intros Nonempty Dot Slash Hash Quest Safe Colon Semi Strip.
  assert (C : cleaned filename = filename).
  { unfold cleaned. rewrite Strip. now apply remove_id. }
  assert (A : after_scheme filename = filename).
  { unfold after_scheme, urllib.split_scheme. rewrite C.
    apply split_first_none in Colon. now rewrite Colon. }
  assert (P : Str.startswith filename "//" = false).
  { destruct (Str.startswith filename "//") eqn:E; [|reflexivity].
    apply prefix_slashes_has in E. congruence. }
  assert (Comp : components filename =
                 {| urllib.scheme := EmptyString; urllib.netloc := EmptyString;
                    urllib.path := filename; urllib.query := EmptyString;
                    urllib.fragment := EmptyString |}).
  { unfold components. rewrite A, P.
    apply split_first_none in Hash, Quest. rewrite Hash, Quest.
    unfold urllib.split_scheme. rewrite C.
    apply split_first_none in Colon. now rewrite Colon. }
  unfold ImageFilenameHelper.get_filename_from_url, urllib.urlparse_path. cbn [urllib._coerce_args].
  rewrite urlsplit_eq, A, P, Comp. cbn [urllib.netloc].
  unfold urllib._checknetloc. cbn [String.eqb orb].
  unfold mbind, outcome_bind, mret, outcome_ret.
  cbn [urllib.path urllib.scheme].
  rewrite Semi, andb_false_r, basename_id by assumption.
  rewrite Dot. destruct (String.eqb_spec filename EmptyString); [contradiction|].
  reflexivity.
Qed.

(** [urlparse(None)] has the empty path, and the file name is the fallback
    name. *)
Lemma get_filename_from_url_None :
  ImageFilenameHelper.get_filename_from_url None = Return "image.jpg".
Proof. reflexivity. Qed.

End ExtractorSpec.

Section FinalSegment.
Context `{UrlChecks}.

(** A character that starts the query or the fragment. *)
Let ends_path (c : ascii) : bool := Ascii.eqb c "#"%char || Ascii.eqb c "?"%char.

Lemma before_cons d c (s : string) :
  before d (String c s) = if Ascii.eqb c d then EmptyString else String c (before d s).
Proof.
  unfold before. cbn [Str.split_first]. destruct (Ascii.eqb c d); [reflexivity|].
  destruct (Str.split_first d s) as [[h t]|]; reflexivity.
Qed.

Lemma without_query_cons c (s : string) :
  without_query (String c s)
  = if ends_path c then EmptyString else String c (without_query s).
Proof.
  unfold without_query, ends_path. rewrite before_cons.
  destruct (Ascii.eqb_spec c "#"%char) as [->|Nh]; [reflexivity|].
  rewrite before_cons. destruct (Ascii.eqb c "?"%char); reflexivity.
Qed.

Lemma scheme_character_eq c : scheme_character c = urllib.scheme_char c.
Proof.
  unfold scheme_character, urllib.scheme_char. cbn [Str.has].
  rewrite (Ascii.eqb_sym "+"%char c), (Ascii.eqb_sym "-"%char c), (Ascii.eqb_sym "."%char c).
  rewrite orb_false_r, <- !orb_assoc. reflexivity.
Qed.

Lemma all_scheme_character (s : string) :
  Str.all scheme_character s = Str.all urllib.scheme_char s.
Proof.
  induction s as [|c s IH]; [reflexivity|].
  cbn [Str.all]. now rewrite scheme_character_eq, IH.
Qed.

Lemma isalpha_isascii c : Str.isalpha c = true -> Str.isascii c = true.
Proof.
  destruct c as [[] [] [] [] [] [] [] []]; vm_compute; intros E;
    first [reflexivity | discriminate E].
Qed.

Lemma isalpha_scheme_char c : Str.isalpha c = true -> urllib.scheme_char c = true.
Proof. unfold urllib.scheme_char. now intros ->. Qed.

Lemma ends_path_no_scheme_char c : ends_path c = true -> urllib.scheme_char c = false.
Proof.
  unfold ends_path. intros [E|E]%orb_true_iff; apply Ascii.eqb_eq in E; subst; reflexivity.
Qed.

(** The first colon of a URL and of the URL without query and fragment. *)
Lemma split_first_colon_without_query (u : string) :
  match Str.split_first ":"%char u with
  | None => Str.split_first ":"%char (without_query u) = None
  | Some (h, t) =>
      if Str.all (fun c => negb (ends_path c)) h
      then Str.split_first ":"%char (without_query u) = Some (h, without_query t)
      else Str.split_first ":"%char (without_query u) = None
           /\ Str.all urllib.scheme_char h = false
  end.
Proof.
  induction u as [|c u IH]; [reflexivity|].
  rewrite without_query_cons. cbn [Str.split_first].
  destruct (Ascii.eqb_spec c ":"%char) as [->|Nc].
  { reflexivity. }
  destruct (ends_path c) eqn:Q.
  - destruct (Str.split_first ":"%char u) as [[h t]|]; [|reflexivity].
    cbn [Str.all]. rewrite Q. cbn [negb andb]. split; [reflexivity|].
    now rewrite (ends_path_no_scheme_char c Q).
  - cbn [Str.split_first]. destruct (Ascii.eqb_spec c ":"%char); [contradiction|].
    destruct (Str.split_first ":"%char u) as [[h t]|].
    + cbn [Str.all]. rewrite Q. cbn [negb andb].
      destruct (Str.all (fun c0 => negb (ends_path c0)) h).
      * now rewrite IH.
      * destruct IH as [-> S]. split; [reflexivity|]. rewrite S. apply andb_false_r.
    + now rewrite IH.
Qed.

(** The scheme, and what follows it, of a URL and of the URL without query
    and fragment. *)
Lemma split_scheme_without_query (u : string) :
  (urllib.split_scheme u).1 = Str.lower (scheme_and_rest (without_query u)).1
  /\ without_query (urllib.split_scheme u).2 = (scheme_and_rest (without_query u)).2.
Proof.
  unfold urllib.split_scheme, scheme_and_rest.
  pose proof (split_first_colon_without_query u) as S.
  destruct (Str.split_first ":"%char u) as [[h t]|]; [|now rewrite S].
  destruct (Str.all (fun c => negb (ends_path c)) h) eqn:Q.
  - rewrite S. destruct h as [|c0 r]; [now split|].
    rewrite all_scheme_character. cbn [Str.all].
    destruct (Str.isalpha c0) eqn:A.
    + rewrite (isalpha_isascii c0 A), (isalpha_scheme_char c0 A). cbn [andb].
      destruct (Str.all urllib.scheme_char r); now split.
    + rewrite andb_false_r. now split.
  - destruct S as [-> S]. destruct h as [|c0 r]; [now split|].
    rewrite S, andb_false_r. now split.
Qed.

Lemma startswith_empty (s : string) : Str.startswith s EmptyString = true.
Proof. now destruct s. Qed.

Lemma startswith_slashes_without_query (r : string) :
  Str.startswith (without_query r) "//" = Str.startswith r "//".
Proof.
  destruct r as [|a [|b r]]; try reflexivity.
  - rewrite without_query_cons. destruct (ends_path a) eqn:Q; [|reflexivity].
    cbn. apply orb_true_iff in Q as [E|E]; apply Ascii.eqb_eq in E; subst; reflexivity.
  - rewrite without_query_cons. destruct (ends_path a) eqn:Qa.
    { cbn. apply orb_true_iff in Qa as [E|E]; apply Ascii.eqb_eq in E; subst; reflexivity. }
    rewrite without_query_cons. destruct (ends_path b) eqn:Qb.
    2:{ cbn [Str.startswith]. now rewrite !startswith_empty. }
    apply orb_true_iff in Qb as [E|E]; apply Ascii.eqb_eq in E; subst b;
      cbn [Str.startswith];
      [change (Ascii.eqb "/" "#")%char with false
      |change (Ascii.eqb "/" "?")%char with false];
      cbn [andb]; now rewrite !andb_false_r.
Qed.

Lemma drop_two_without_query (r : string) :
  Str.startswith r "//" = true ->
  Str.drop 2 (without_query r) = without_query (Str.drop 2 r).
Proof.
  destruct r as [|a [|b r]]; try discriminate.
  - cbn [Str.startswith]. rewrite andb_false_r. discriminate.
  - cbn [Str.startswith]. intros [Ea [Eb _]%andb_true_iff]%andb_true_iff.
    apply Ascii.eqb_eq in Ea. subst a. apply Ascii.eqb_eq in Eb. subst b.
    rewrite !without_query_cons. reflexivity.
Qed.

(** The path that follows the authority. *)
Lemma path_after_authority (x : string) :
  match Str.split_first "/"%char (without_query x) with
  | Some (_, p) => String "/"%char p
  | None => EmptyString
  end = without_query (Str.break urllib.netloc_delimiter x).2.
Proof.
  induction x as [|c x IH]; [reflexivity|].
  rewrite without_query_cons. cbn [Str.break].
  unfold urllib.netloc_delimiter at 1. cbn [Str.has].
  destruct (Ascii.eqb_spec "/"%char c) as [<-|Ns].
  { cbn [orb snd]. rewrite without_query_cons. reflexivity. }
  destruct (Ascii.eqb_spec "?"%char c) as [<-|Nq].
  { cbn [orb snd]. rewrite without_query_cons. reflexivity. }
  destruct (Ascii.eqb_spec "#"%char c) as [<-|Nh].
  { cbn [orb snd]. rewrite without_query_cons. reflexivity. }
  cbn [orb]. unfold ends_path.
  destruct (Ascii.eqb_spec c "#"%char) as [->|_]; [contradiction|].
  destruct (Ascii.eqb_spec c "?"%char) as [->|_]; [contradiction|].
  cbn [orb Str.split_first].
  destruct (Ascii.eqb_spec c "/"%char) as [->|_]; [contradiction|].
  destruct (Str.break urllib.netloc_delimiter x) as [h t]. cbn [snd] in *.
  rewrite <- IH.
  destruct (Str.split_first "/"%char (without_query x)) as [[h' t']|]; reflexivity.
Qed.

(** The path of [urlsplit] is the path of the URL it reads. *)
Lemma components_url_path url :
  urllib.path (components url) = url_path (cleaned url)
  /\ urllib.scheme (components url)
     = Str.lower (scheme_and_rest (without_query (cleaned url))).1.
Proof.
  destruct (split_scheme_without_query (cleaned url)) as [Scheme Rest].
  unfold components, after_scheme, url_path. rewrite <- Rest.
  set (rest := (urllib.split_scheme (cleaned url)).2) in *.
  rewrite startswith_slashes_without_query.
  assert (P : forall x,
            urllib.path
              (let '(rest0, fragment) :=
                 match Str.split_first "#"%char x with
                 | Some (h, t) => (h, t)
                 | None => (x, EmptyString)
                 end in
               let '(rest1, query) :=
                 match Str.split_first "?"%char rest0 with
                 | Some (h, t) => (h, t)
                 | None => (rest0, EmptyString)
                 end in
               {| urllib.scheme := (urllib.split_scheme (cleaned url)).1;
                  urllib.netloc := EmptyString; urllib.path := rest1;
                  urllib.query := query; urllib.fragment := fragment |})
            = without_query x).
  { intros x. unfold without_query, before.
    destruct (Str.split_first "#"%char x) as [[h t]|];
      destruct (Str.split_first "?"%char _) as [[h' t']|]; reflexivity. }
  destruct (Str.startswith rest "//") eqn:Slashes.
  - rewrite (drop_two_without_query rest Slashes), path_after_authority.
    unfold urllib._splitnetloc.
    destruct (Str.break urllib.netloc_delimiter (Str.drop 2 rest)) as [netloc rest'].
    cbn [snd]. split; [|].
    + rewrite <- (P rest').
      destruct (Str.split_first "#"%char rest') as [[h t]|];
        destruct (Str.split_first "?"%char _) as [[h' t']|]; reflexivity.
    + destruct (Str.split_first "#"%char rest') as [[h t]|];
        destruct (Str.split_first "?"%char _) as [[h' t']|]; exact Scheme.
  - split; [apply P|].
    destruct (Str.split_first "#"%char rest) as [[h t]|];
      destruct (Str.split_first "?"%char _) as [[h' t']|]; exact Scheme.
Qed.

Lemma has_before c d (s : string) : Str.has c s = false -> Str.has c (before d s) = false.
Proof.
  induction s as [|a s IH]; [reflexivity|].
  rewrite before_cons. cbn [Str.has]. intros [Ea Es]%orb_false_iff.
  destruct (Ascii.eqb a d); [reflexivity|]. cbn [Str.has]. now rewrite Ea, IH.
Qed.

Lemma before_id d (s : string) : Str.has d s = false -> before d s = s.
Proof.
  intros E. unfold before. apply split_first_none in E. now rewrite E.
Qed.

Lemma split_last_at c (a b : string) :
  Str.has c b = false -> Str.split_last c (a ++ String c b) = Some (a, b).
Proof.
  intros Hb. induction a as [|x a IH].
  - change (Str.split_last c (String c b) = Some (EmptyString, b)).
    cbn [Str.split_last]. apply split_last_none in Hb. now rewrite Hb, Ascii.eqb_refl.
  - rewrite append_cons. cbn [Str.split_last]. now rewrite IH.
Qed.

Lemma append_slash_tail (h t : string) :
  Str.has "/"%char t = false ->
  posixpath.basename (h ++ "/" ++ t) = t.
Proof.
  intros Free. unfold posixpath.basename, posixpath.sep.
  change (h ++ "/" ++ t) with (h ++ String "/"%char t).
  now rewrite split_last_at.
Qed.

(** The base name of a path cut at its parameters is the base name cut at
    its parameters. *)
Lemma basename_splitparams (p : string) :
  posixpath.basename (urllib._splitparams p) = before ";"%char (posixpath.basename p).
Proof.
  unfold urllib._splitparams, posixpath.basename at 2, posixpath.sep, before.
  destruct (Str.split_last "/"%char p) as [[h t]|] eqn:L.
  - pose proof (split_last_tail_free _ _ _ _ L) as Free.
    destruct (Str.split_first ";"%char t) as [[t' params]|] eqn:S.
    + apply append_slash_tail.
      pose proof (has_before "/"%char ";"%char t Free) as B.
      unfold before in B. now rewrite S in B.
    + unfold posixpath.basename, posixpath.sep. now rewrite L.
  - apply basename_id.
    apply split_last_none in L.
    pose proof (has_before "/"%char ";"%char p L) as B.
    unfold before in B.
    destruct (Str.split_first ";"%char p) as [[h params]|]; exact B.
Qed.

Lemma has_basename c (p : string) :
  Str.has c p = false -> Str.has c (posixpath.basename p) = false.
Proof.
  rewrite !has_false_all. apply basename_all.
Qed.

(** What [get_filename_from_url] returns, by the segment that names the
    file. *)
Lemma get_filename_from_url_segment url filename :
  ImageFilenameHelper.get_filename_from_url (Some url) = Return filename ->
  filename = if String.eqb (naming_segment url) EmptyString
                || negb (Str.has "."%char (naming_segment url))
             then "image.jpg" else naming_segment url.
Proof.
  unfold ImageFilenameHelper.get_filename_from_url, urllib.urlparse_path.
  cbn [urllib._coerce_args].
  destruct (urllib.urlsplit url) as [r|e] eqn:S; cbn; [|discriminate].
  apply urlsplit_returns in S as ->.
  destruct (components_url_path url) as [Path Scheme].
  assert (Name : posixpath.basename
                   (if bool_decide (urllib.scheme (components url) ∈ urllib.uses_params)
                       && Str.has ";"%char (urllib.path (components url))
                    then urllib._splitparams (urllib.path (components url))
                    else urllib.path (components url))
                 = naming_segment url).
  { unfold naming_segment, takes_parameters, final_segment.
    rewrite <- Scheme, <- Path.
    fold (posixpath.basename (urllib.path (components url))).
    destruct (bool_decide (urllib.scheme (components url) ∈ urllib.uses_params));
      [|reflexivity].
    cbn [andb]. destruct (Str.has ";"%char (urllib.path (components url))) eqn:Semi.
    - apply basename_splitparams.
    - symmetry. apply before_id. now apply has_basename. }
  destruct (bool_decide (urllib.scheme (components url) ∈ urllib.uses_params)
            && Str.has ";"%char (urllib.path (components url)));
    cbn; rewrite Name; destruct (_ || _); now intros [= <-].
Qed.

End FinalSegment.

(** The file name [get_filename_from_url] returns has no separator, no [?],
    no [#], and no tab or line break. *)
Lemma extracted_name_clean `{UrlChecks} (url : option string) filename :
  ImageFilenameHelper.get_filename_from_url url = Return filename ->
  Str.has "/"%char filename = false /\ Str.has "?"%char filename = false
  /\ Str.has "#"%char filename = false /\ Str.all safe filename = true.
Proof.
  destruct url as [url|].
  2:{ rewrite get_filename_from_url_None. intros [= <-]. now repeat split. }
  unfold ImageFilenameHelper.get_filename_from_url, urllib.urlparse_path.
  cbn [urllib._coerce_args].
  destruct (urllib.urlsplit url) as [r|e] eqn:S; cbn; [|discriminate].
  apply urlsplit_returns in S as ->.
  destruct (components_path url) as (Safe & Hash & Quest).
  set (p := if bool_decide (urllib.scheme (components url) ∈ urllib.uses_params)
               && Str.has ";"%char (urllib.path (components url))
            then urllib._splitparams (urllib.path (components url))
            else urllib.path (components url)).
  assert (Hp : Str.all safe p = true /\ Str.has "#"%char p = false
               /\ Str.has "?"%char p = false).
  { subst p. destruct (_ && _); [|now repeat split].
    rewrite !has_false_all in *. repeat split; now apply splitparams_clean. }
  destruct Hp as (Safe' & Hash' & Quest').
  assert (E : (if bool_decide (urllib.scheme (components url) ∈ urllib.uses_params)
                  && Str.has ";"%char (urllib.path (components url))
               then mret (urllib._splitparams (urllib.path (components url)))
               else mret (urllib.path (components url))) = Return p).
  { subst p. destruct (_ && _); reflexivity. }
  rewrite E. cbn. clear E.
  destruct (_ || _); intros [= <-]; [now repeat split|].
  rewrite !has_false_all in *. repeat split.
  - apply has_false_all, basename_free.
  - now apply basename_all.
  - now apply basename_all.
  - now apply basename_all.
Qed.

(** C6 (amended). [get_filename_from_url] is a function of the URL alone. It
    raises only when [urlsplit] rejects the network location of the URL, with
    [ValueError]; a URL of ASCII characters without brackets is never
    rejected. When it returns, the file name is not empty and contains a
    ".". It is decided by the final path segment of the URL, the URL read as
    [urlsplit] reads it (leading spaces and control characters stripped,
    tabs and line breaks removed) and divided as RFC 3986 divides it: the
    segment that names the file is the final segment, cut at its first ";"
    when the scheme is one whose segments take parameters (http and https
    among them), so it is the final segment itself when that has no ";".
    The file name is this segment when it is not empty and contains a ".",
    and "image.jpg" otherwise. Extracting again from an extracted file name
    gives the same file name when that name has no ":" and no ";" and does
    not start with a space or a control character. For [None] in the place
    of the URL the file name is "image.jpg". *)
Theorem get_filename_from_url_names_the_last_segment `{UrlChecks} (url : string) :
  (forall e, ImageFilenameHelper.get_filename_from_url (Some url) = Raise e ->
     e = ValueError /\ urllib.urlsplit url = Raise ValueError)
  /\ (Str.all plain url = true ->
      exists filename, ImageFilenameHelper.get_filename_from_url (Some url) = Return filename)
  /\ (forall filename, ImageFilenameHelper.get_filename_from_url (Some url) = Return filename ->
      filename <> EmptyString
      /\ Str.has "."%char filename = true
      /\ (naming_segment url <> EmptyString ->
          Str.has "."%char (naming_segment url) = true ->
          filename = naming_segment url)
      /\ (naming_segment url = EmptyString
          \/ Str.has "."%char (naming_segment url) = false ->
          filename = "image.jpg")
      /\ (Str.has ";"%char (final_segment (cleaned url)) = false ->
          naming_segment url = final_segment (cleaned url))
      /\ (Str.has ":"%char filename = false -> Str.has ";"%char filename = false ->
          Str.lstrip urllib.c0_control_or_space filename = filename ->
          ImageFilenameHelper.get_filename_from_url (Some filename) = Return filename))
  /\ ImageFilenameHelper.get_filename_from_url None = Return "image.jpg".
Proof.
  repeat apply conj.
  - unfold ImageFilenameHelper.get_filename_from_url, urllib.urlparse_path.
    cbn [urllib._coerce_args].
    intros e. destruct (urllib.urlsplit url) as [r|e'] eqn:S; cbn.
    + destruct (_ && _); cbn; destruct (_ || _); discriminate.
    + intros [= <-]. apply urlsplit_raises in S as ->. now split.
  - unfold ImageFilenameHelper.get_filename_from_url, urllib.urlparse_path.
    cbn [urllib._coerce_args].
    intros Plain. rewrite (urlsplit_plain url Plain). cbn.
    destruct (_ && _); cbn; destruct (_ || _); eauto.
  - intros filename E.
    pose proof (get_filename_from_url_segment url filename E) as Name.
    destruct (extracted_name_clean (Some url) filename E) as (Slash & Quest & Hash & Safe).
    assert (Shape : filename <> EmptyString /\ Str.has "."%char filename = true).
    { destruct (String.eqb_spec (naming_segment url) EmptyString) as [Empty|Nonempty];
        cbn [orb] in Name.
      - subst filename. split; [discriminate | reflexivity].
      - destruct (Str.has "."%char (naming_segment url)) eqn:Dot; cbn [negb] in Name;
          subst filename; split; try assumption; try discriminate; reflexivity. }
    destruct Shape as [Nonempty Dot].
    repeat apply conj; try assumption.
    + intros Ns Ds. rewrite Ds in Name.
      destruct (String.eqb_spec (naming_segment url) EmptyString); [contradiction|].
      exact Name.
    + intros [Es|Ds].
      * rewrite Es in Name. exact Name.
      * rewrite Ds, orb_true_r in Name. exact Name.
    + intros Semi. unfold naming_segment.
      destruct (takes_parameters (cleaned url)); [|reflexivity].
      now apply before_id.
    + intros. now apply extract_again.
  - apply get_filename_from_url_None.
Qed.

Lemma get_filename_from_url_names_the_last_segment_witness :
  Str.all plain "https://images.dog.ceo/breeds/hound-afghan/n02088094_1003.jpg" = true
  /\ naming_segment "https://images.dog.ceo/breeds/hound-afghan/n02088094_1003.jpg"
     = "n02088094_1003.jpg"
  /\ @ImageFilenameHelper.get_filename_from_url accept_all
       (Some "https://images.dog.ceo/breeds/hound-afghan/n02088094_1003.jpg")
     = Return "n02088094_1003.jpg"
  /\ @ImageFilenameHelper.get_filename_from_url accept_all (Some "n02088094_1003.jpg")
     = Return "n02088094_1003.jpg".
Proof.
  assert (Plain : Str.all plain
                    "https://images.dog.ceo/breeds/hound-afghan/n02088094_1003.jpg" = true)
    by reflexivity.
  assert (Segment : naming_segment
                      "https://images.dog.ceo/breeds/hound-afghan/n02088094_1003.jpg"
                    = "n02088094_1003.jpg") by reflexivity.
  destruct (@get_filename_from_url_names_the_last_segment accept_all
              "https://images.dog.ceo/breeds/hound-afghan/n02088094_1003.jpg")
    as (_ & Total & Named & _).
  destruct (Total Plain) as [filename E].
  destruct (Named filename E) as (_ & _ & Is_segment & _ & _ & Again).
  assert (F : filename = "n02088094_1003.jpg").
  { rewrite <- Segment. apply Is_segment; rewrite Segment; [discriminate | reflexivity]. }
  subst filename.
  exact (conj Plain (conj Segment (conj E (Again eq_refl eq_refl eq_refl)))).
Defined.

(** C6, as stated, fails three times: a URL with an unbalanced bracket in
    its network location makes the extraction raise; a last segment with a
    colon is not extracted to itself ("a:b.jpg" gives "b.jpg"); and the final
    segment "a;b.jpg" of "https://x/a;b.jpg", which contains a ".", is not
    the file name: the segment is cut at the ";", "a" has no ".", and the
    file name is "image.jpg". *)
Lemma get_filename_from_url_is_neither_total_nor_idempotent :
  ~ (exists C : UrlChecks,
       exists filename,
         @ImageFilenameHelper.get_filename_from_url C (Some "http://[/x.jpg") = Return filename)
  /\ ~ (exists C : UrlChecks,
          forall url filename,
            @ImageFilenameHelper.get_filename_from_url C (Some url) = Return filename ->
            @ImageFilenameHelper.get_filename_from_url C (Some filename) = Return filename)
  /\ ~ (exists C : UrlChecks,
          forall url,
            final_segment url <> EmptyString ->
            Str.has "."%char (final_segment url) = true ->
            @ImageFilenameHelper.get_filename_from_url C (Some url)
            = Return (final_segment url)).
Proof.
  repeat apply conj.
  - intros (C & filename & E). vm_compute in E. discriminate.
  - intros (C & Idem).
    specialize (Idem "https://images.dog.ceo/breeds/hound/a:b.jpg" "a:b.jpg" eq_refl).
    vm_compute in Idem. discriminate.
  - intros (C & Named).
    specialize (Named "https://x/a;b.jpg" ltac:(discriminate) eq_refl).
    vm_compute in Named. discriminate.
Qed.

(** ** The result file *)

Section RoundTrip.

Lemma utf8_decode_char (c : ascii) (rest : list byte) :
  Reader.utf8_decode (utf8_char c ++ rest) = String c <$> Reader.utf8_decode rest.
Proof.
  destruct c as [[] [] [] [] [] [] [] []]; reflexivity.
Qed.

Lemma utf8_decode_encode (s : string) : Reader.utf8_decode (utf8_encode s) = Some s.
Proof.
  induction s as [|c s IH]; [reflexivity|].
  cbn [utf8_encode]. now rewrite utf8_decode_char, IH.
Qed.

Lemma parse_chars_escape_char (c : ascii) (rest : string) :
  Reader.parse_chars (JSON.escape_char c ++ rest) = Reader.push c (Reader.parse_chars rest).
Proof.
  destruct c as [[] [] [] [] [] [] [] []]; reflexivity.
Qed.

Lemma parse_chars_escape (s rest : string) :
  Reader.parse_chars (JSON.escape s ++ String JSON.dquote rest) = Some (s, rest).
Proof.
  induction s as [|c s IH]; [reflexivity|].
  cbn [JSON.escape]. rewrite append_assoc, parse_chars_escape_char, IH. reflexivity.
Qed.

Lemma skip_ws_spaces (n : nat) (rest : string) :
  Reader.skip_ws (JSON.spaces n ++ rest) = Reader.skip_ws rest.
Proof. induction n as [|n IH]; [reflexivity | exact IH]. Qed.

Lemma skip_ws_newline_indent (level : nat) (rest : string) :
  Reader.skip_ws (JSON.newline_indent level ++ rest) = Reader.skip_ws rest.
Proof. unfold JSON.newline_indent. exact (skip_ws_spaces (4 * level) rest). Qed.

(** The text of a string is read back as the string. *)
Lemma parse_value_string (fuel : nat) (s rest : string) :
  Reader.parse_value (S fuel) (JSON.encode_basestring s ++ rest)
  = Some (JSON.Str s, rest).
Proof.
  unfold JSON.encode_basestring.
  change (String JSON.dquote (JSON.escape s ++ String JSON.dquote EmptyString) ++ rest)
    with (String JSON.dquote ((JSON.escape s ++ String JSON.dquote EmptyString) ++ rest)).
  rewrite append_assoc.
  change (String JSON.dquote EmptyString ++ rest) with (String JSON.dquote rest).
  change (Reader.parse_value (S fuel) (String JSON.dquote ?x))
    with ('(x0, r') ← Reader.parse_chars x; Some (JSON.Str x0, r')).
  now rewrite parse_chars_escape.
Qed.

Lemma parse_value_flat (fuel level : nat) (v : JSON.value) (rest : string) :
  flat v ->
  Reader.parse_value (S fuel) (JSON.encode level v ++ rest) = Some (v, rest).
Proof.
  destruct v as [|s|items|members]; cbn [flat]; try contradiction; intros _.
  - reflexivity.
  - apply parse_value_string.
Qed.

Lemma parse_value_space (fuel : nat) (s : string) :
  Reader.parse_value fuel (String " " s) = Reader.parse_value fuel s.
Proof. destruct fuel; reflexivity. Qed.

(** One member, up to the value: the key, the colon, the value. *)
Lemma parse_member (fuel level : nat) (k : string) (v : JSON.value) (tail : string) :
  flat v ->
  Reader.parse_members (S (S fuel)) (member_text level (k, v) ++ tail)
  = match Reader.skip_ws tail with
    | EmptyString => None
    | String c3 r4 =>
        if Ascii.eqb c3 "," then
          '(ms, r5) ← Reader.parse_members (S fuel) r4; Some ((k, v) :: ms, r5)
        else if Ascii.eqb c3 "}" then Some ([(k, v)], r4)
        else None
    end.
Proof.
  intros F. unfold member_text. rewrite !append_assoc.
  unfold JSON.encode_basestring at 1.
  change (String JSON.dquote (JSON.escape k ++ String JSON.dquote EmptyString) ++ ?t)
    with (String JSON.dquote ((JSON.escape k ++ String JSON.dquote EmptyString) ++ t)).
  rewrite append_assoc.
  change (String JSON.dquote EmptyString ++ ?t) with (String JSON.dquote t).
  change (": " ++ ?t) with (String ":" (String " " t)).
  set (after_key := String ":" (String " " (JSON.encode (S level) v ++ tail))).
  change (Reader.parse_members (S (S fuel)) (String JSON.dquote ?x))
    with ('(k0, r1) ← Reader.parse_chars x;
          match Reader.skip_ws r1 with
          | EmptyString => None
          | String c1 r2 =>
              if Ascii.eqb c1 ":" then
                '(v0, r3) ← Reader.parse_value (S fuel) r2;
                match Reader.skip_ws r3 with
                | EmptyString => None
                | String c3 r4 =>
                    if Ascii.eqb c3 "," then
                      '(ms, r5) ← Reader.parse_members (S fuel) r4;
                      Some ((k0, v0) :: ms, r5)
                    else if Ascii.eqb c3 "}" then Some ([(k0, v0)], r4)
                    else None
                end
              else None
          end).
  rewrite parse_chars_escape. subst after_key. cbn [mbind option_bind].
  change (Reader.skip_ws (String ":" ?t)) with (String ":" t).
  cbv beta iota. change (Ascii.eqb ":" ":") with true. cbv iota.
  rewrite parse_value_space, (parse_value_flat fuel (S level) v tail F).
  reflexivity.
Qed.

Lemma skip_ws_idem (s : string) : Reader.skip_ws (Reader.skip_ws s) = Reader.skip_ws s.
Proof.
  unfold Reader.skip_ws. induction s as [|c s IH]; [reflexivity|].
  cbn [Str.lstrip]. destruct (Reader.is_ws c) eqn:W; [exact IH|].
  cbn [Str.lstrip]. now rewrite W.
Qed.

Lemma parse_value_ws (fuel : nat) (s : string) :
  Reader.parse_value fuel (Reader.skip_ws s) = Reader.parse_value fuel s.
Proof. destruct fuel; [reflexivity|]. cbn [Reader.parse_value]. now rewrite skip_ws_idem. Qed.

Lemma parse_members_ws (fuel : nat) (s : string) :
  Reader.parse_members fuel (Reader.skip_ws s) = Reader.parse_members fuel s.
Proof. destruct fuel; [reflexivity|]. cbn [Reader.parse_members]. now rewrite skip_ws_idem. Qed.

Lemma parse_elements_ws (fuel : nat) (s : string) :
  Reader.parse_elements fuel (Reader.skip_ws s) = Reader.parse_elements fuel s.
Proof. destruct fuel; [reflexivity|]. cbn [Reader.parse_elements]. now rewrite parse_value_ws. Qed.

Lemma concat_cons2 (sep x y : string) (l : list string) :
  String.concat sep (x :: y :: l) = x ++ sep ++ String.concat sep (y :: l).
Proof. reflexivity. Qed.

(** The members of an object, all of them flat, are read back. *)
Lemma parse_members_flat (level : nat) (members : list (string * JSON.value)) :
  members <> [] -> Forall (fun kv => flat kv.2) members ->
  forall fuel rest,
    (length members < fuel)%nat ->
    Reader.parse_members fuel
      (String.concat (separator level) (map (member_text level) members)
       ++ JSON.newline_indent level ++ "}" ++ rest)
    = Some (members, rest).
Proof.
  induction members as [|[k v] members IH]; [contradiction|].
  intros _ Flat fuel rest Fuel.
  apply Forall_cons in Flat as [Fv Flat]. cbn [snd] in Fv.
  destruct fuel as [|[|fuel]]; cbn [length] in Fuel; try lia.
  destruct members as [|kv' members'].
  - cbn [map String.concat]. rewrite (parse_member fuel level k v _ Fv).
    rewrite skip_ws_newline_indent. reflexivity.
  - cbn [map]. rewrite concat_cons2, !append_assoc.
    rewrite (parse_member fuel level k v _ Fv).
    unfold separator at 1. rewrite append_assoc.
    change (Reader.skip_ws ("," ++ ?t)) with (String "," t).
    cbv iota. change (Ascii.eqb "," ",") with true. cbv iota.
    rewrite <- parse_members_ws, skip_ws_newline_indent, parse_members_ws.
    change (member_text level kv' :: map (member_text level) members')
      with (map (member_text level) (kv' :: members')).
    rewrite IH; [reflexivity | discriminate | assumption | cbn [length] in *; lia].
Qed.

Lemma encode_object (level : nat) (kv : string * JSON.value)
    (members : list (string * JSON.value)) :
  JSON.encode level (JSON.Obj (kv :: members))
  = "{" ++ JSON.newline_indent (S level)
    ++ String.concat (separator level) (map (member_text level) (kv :: members))
    ++ JSON.newline_indent level ++ "}".
Proof. reflexivity. Qed.

Lemma member_text_starts (level : nat) (kv : string * JSON.value) (tail : string) :
  exists t, member_text level kv ++ tail = String JSON.dquote t.
Proof. destruct kv as [k v]. eexists. reflexivity. Qed.

Lemma concat_members_starts (level : nat) (kv : string * JSON.value)
    (members : list (string * JSON.value)) (tail : string) :
  exists t,
    String.concat (separator level) (map (member_text level) (kv :: members)) ++ tail
    = String JSON.dquote t.
Proof.
  destruct members as [|kv' members]; cbn [map].
  - apply member_text_starts.
  - rewrite concat_cons2, append_assoc. apply member_text_starts.
Qed.

(** An object with flat members is read back. *)
Lemma parse_value_object (level : nat) (members : list (string * JSON.value)) :
  members <> [] -> Forall (fun kv => flat kv.2) members ->
  forall fuel rest,
    (S (length members) < fuel)%nat ->
    Reader.parse_value fuel (JSON.encode level (JSON.Obj members) ++ rest)
    = Some (JSON.Obj members, rest).
Proof.
  intros Nonempty Flat fuel rest Fuel.
  destruct members as [|kv members]; [contradiction|].
  destruct fuel as [|fuel]; [lia|].
  rewrite encode_object, !append_assoc.
  pose proof (parse_members_flat level (kv :: members) Nonempty Flat fuel rest
                ltac:(lia)) as P.
  destruct (concat_members_starts level kv members
              (JSON.newline_indent level ++ "}" ++ rest)) as [t E].
  rewrite E in *.
  change (Reader.parse_value (S fuel) ("{" ++ ?x))
    with (match Reader.skip_ws x with
          | EmptyString => None
          | String c' r' =>
              if Ascii.eqb c' "}" then Some (JSON.Obj [], r')
              else '(ms, r'') ← Reader.parse_members fuel (Reader.skip_ws x);
                   Some (JSON.Obj ms, r'')
          end).
  rewrite skip_ws_newline_indent.
  change (Reader.skip_ws (String JSON.dquote t)) with (String JSON.dquote t).
  cbv iota. change (Ascii.eqb JSON.dquote "}") with false. cbv iota.
  now rewrite P.
Qed.

Lemma parse_value_flat_object (width level : nat) (v : JSON.value) fuel rest :
  flat_object width v -> (S width < fuel)%nat ->
  Reader.parse_value fuel (JSON.encode level v ++ rest) = Some (v, rest).
Proof.
  destruct v as [| | |members]; cbn [flat_object]; try contradiction.
  intros (Nonempty & Flat & Width) Fuel. apply parse_value_object; auto. lia.
Qed.

Lemma encode_flat_object_starts (width level : nat) (v : JSON.value) (tail : string) :
  flat_object width v -> exists t, JSON.encode level v ++ tail = String "{" t.
Proof.
  destruct v as [| | |[|kv members]]; cbn [flat_object]; try contradiction.
  - now intros [? _].
  - intros _. rewrite encode_object. eexists. reflexivity.
Qed.

(** The elements of an array, all of them flat objects, are read back. *)
Lemma parse_elements_flat_objects (width level : nat) (items : list JSON.value) :
  items <> [] -> Forall (flat_object width) items ->
  forall fuel rest,
    (length items + S width < fuel)%nat ->
    Reader.parse_elements fuel
      (String.concat (separator level) (map (JSON.encode (S level)) items)
       ++ JSON.newline_indent level ++ "]" ++ rest)
    = Some (items, rest).
Proof.
  induction items as [|v items IH]; [contradiction|].
  intros _ Flat fuel rest Fuel.
  apply Forall_cons in Flat as [Fv Flat].
  destruct fuel as [|fuel]; cbn [length] in Fuel; [lia|].
  cbn [Reader.parse_elements].
  destruct items as [|v' items'].
  - cbn [map String.concat].
    rewrite (parse_value_flat_object width (S level) v fuel _ Fv) by lia.
    cbn [mbind option_bind]. rewrite skip_ws_newline_indent. reflexivity.
  - cbn [map]. rewrite concat_cons2, !append_assoc.
    rewrite (parse_value_flat_object width (S level) v fuel _ Fv) by (cbn [length] in *; lia).
    cbn [mbind option_bind]. unfold separator at 1. rewrite append_assoc.
    change (Reader.skip_ws ("," ++ ?t)) with (String "," t).
    cbv iota. change (Ascii.eqb "," ",") with true. cbv iota.
    rewrite <- parse_elements_ws, skip_ws_newline_indent, parse_elements_ws.
    change (JSON.encode (S level) v' :: map (JSON.encode (S level)) items')
      with (map (JSON.encode (S level)) (v' :: items')).
    rewrite IH; [reflexivity | discriminate | assumption | cbn [length] in *; lia].
Qed.

Lemma encode_array (level : nat) (v : JSON.value) (items : list JSON.value) :
  JSON.encode level (JSON.Arr (v :: items))
  = "[" ++ JSON.newline_indent (S level)
    ++ String.concat (separator level) (map (JSON.encode (S level)) (v :: items))
    ++ JSON.newline_indent level ++ "]".
Proof. reflexivity. Qed.

(** An array of flat objects is read back. *)
Lemma parse_value_array (width level : nat) (items : list JSON.value) fuel rest :
  Forall (flat_object width) items ->
  (S (length items + S width) < fuel)%nat ->
  Reader.parse_value fuel (JSON.encode level (JSON.Arr items) ++ rest)
  = Some (JSON.Arr items, rest).
Proof.
  intros Flat Fuel. destruct fuel as [|fuel]; [lia|].
  destruct items as [|v items]; [reflexivity|].
  rewrite encode_array, !append_assoc.
  pose proof (parse_elements_flat_objects width level (v :: items) ltac:(discriminate)
                Flat fuel rest ltac:(lia)) as P.
  assert (exists t,
            String.concat (separator level) (map (JSON.encode (S level)) (v :: items))
            ++ JSON.newline_indent level ++ "]" ++ rest = String "{" t) as [t E].
  { apply Forall_cons in Flat as [Fv _].
    destruct items as [|v' items']; cbn [map].
    - now apply (encode_flat_object_starts width).
    - rewrite concat_cons2, append_assoc. now apply (encode_flat_object_starts width). }
  rewrite E in *.
  change (Reader.parse_value (S fuel) ("[" ++ ?x))
    with (match Reader.skip_ws x with
          | EmptyString => None
          | String c' r' =>
              if Ascii.eqb c' "]" then Some (JSON.Arr [], r')
              else '(vs, r'') ← Reader.parse_elements fuel (Reader.skip_ws x);
                   Some (JSON.Arr vs, r'')
          end).
  rewrite skip_ws_newline_indent.
  change (Reader.skip_ws (String "{" t)) with (String "{" t).
  cbv iota. change (Ascii.eqb "{" "]") with false. cbv iota.
  now rewrite P.
Qed.

Lemma length_append (a b : string) :
  String.length (a ++ b) = (String.length a + String.length b)%nat.
Proof.
  induction a as [|c a IH]; [reflexivity|].
  change (S (String.length (a ++ b)) = S (String.length a + String.length b)).
  now rewrite IH.
Qed.

Lemma length_concat_ge (sep : string) (l : list string) (k : nat) :
  Forall (fun x => (k <= String.length x)%nat) l ->
  (k * length l <= String.length (String.concat sep l))%nat.
Proof.
  induction 1 as [|x l Hx Hl IH]; [cbn; lia|].
  destruct l as [|y l].
  - cbn [String.concat length]. lia.
  - rewrite concat_cons2, !length_append. cbn [length] in *. lia.
Qed.

Lemma record_dict_flat (r : upload_record) : flat_object 5 (ResultSaver.record_dict r).
Proof.
  unfold ResultSaver.record_dict, flat_object. split; [discriminate|]. split; [|cbn; lia].
  repeat constructor; cbn; try exact I;
    [destruct (rec_sub_breed r) | destruct (rec_image_url r)]; exact I.
Qed.

Lemma length_spaces (n : nat) : String.length (JSON.spaces n) = n.
Proof.
  induction n as [|n IH]; [reflexivity|].
  change (S (String.length (JSON.spaces n)) = S n). now rewrite IH.
Qed.

Lemma length_newline_indent (level : nat) :
  String.length (JSON.newline_indent level) = S (4 * level).
Proof.
  unfold JSON.newline_indent.
  change (S (String.length (JSON.spaces (4 * level))) = S (4 * level)).
  now rewrite length_spaces.
Qed.

Lemma record_text_length (level : nat) (r : upload_record) :
  (8 <= String.length (JSON.encode level (ResultSaver.record_dict r)))%nat.
Proof.
  unfold ResultSaver.record_dict.
  rewrite encode_object, !length_append, !length_newline_indent.
  change (String.length "{") with 1%nat. change (String.length "}") with 1%nat. lia.
Qed.

(** The text written for a list of records is read back as the array of
    their objects. *)
Lemma loads_dumps (records : list upload_record) :
  Reader.loads (JSON.dumps (JSON.Arr (map ResultSaver.record_dict records)))
  = Some (JSON.Arr (map ResultSaver.record_dict records)).
Proof.
  unfold Reader.loads, JSON.dumps.
  set (items := map ResultSaver.record_dict records).
  assert (Flat : Forall (flat_object 5) items).
  { subst items. apply Forall_map, Forall_forall. intros r _. apply record_dict_flat. }
  assert (Len : (S (length items + 6) < String.length (JSON.encode 0 (JSON.Arr items))
                 \/ items = [])%nat).
  { subst items. destruct records as [|r records]; [now right|left].
    cbn [map]. rewrite encode_array, !length_append.
    pose proof (length_concat_ge (separator 0)
                  (map (JSON.encode 1) (map ResultSaver.record_dict (r :: records))) 8) as G.
    rewrite !length_map in G. cbn [map] in G.
    rewrite !length_newline_indent. cbn [length]. rewrite !length_map.
    change (String.length "[") with 1%nat. change (String.length "]") with 1%nat.
    assert (F : Forall (fun x => (8 <= String.length x)%nat)
                  (JSON.encode 1 (ResultSaver.record_dict r)
                   :: map (JSON.encode 1) (map ResultSaver.record_dict records))).
    { constructor; [apply record_text_length|].
      apply Forall_map, Forall_map, Forall_forall. intros x _. apply record_text_length. }
    specialize (G F). cbn [map length] in *. lia. }
  destruct Len as [Len| ->]; [|reflexivity].
  pose proof (parse_value_array 5 0 items _ EmptyString Flat Len) as P.
  assert (E : JSON.encode 0 (JSON.Arr items) ++ EmptyString = JSON.encode 0 (JSON.Arr items)).
  { generalize (JSON.encode 0 (JSON.Arr items)). intros x.
    induction x as [|c x IH]; [reflexivity|].
    change (String c (x ++ EmptyString) = String c x). now rewrite IH. }
  rewrite E in P. rewrite P. reflexivity.
Qed.

Lemma record_of_dict (r : upload_record) :
  Reader.record_of (ResultSaver.record_dict r) = Some r.
Proof. destruct r as [b [sb|] [u|] p []]; reflexivity. Qed.

Lemma records_of_dicts (records : list upload_record) :
  Reader.records_of (JSON.Arr (map ResultSaver.record_dict records)) = Some records.
Proof.
  cbn [Reader.records_of]. induction records as [|r records IH]; [reflexivity|].
  cbn [map mapM]. rewrite record_of_dict. cbn [mbind option_bind].
  rewrite IH. reflexivity.
Qed.

(** The bytes written for a list of records are read back as the records. *)
Lemma read_results_result_file (records : list upload_record) :
  Reader.read_results (result_file records) = Some records.
Proof.
  unfold Reader.read_results, result_file.
  rewrite utf8_decode_encode. cbn [mbind option_bind].
  rewrite loads_dumps. cbn [mbind option_bind]. apply records_of_dicts.
Qed.

Lemma spaces_all (n : nat) : Str.all (Ascii.eqb " "%char) (JSON.spaces n) = true.
Proof. induction n as [|n IH]; [reflexivity | exact IH]. Qed.

(** The text of a record, as [json.dump] writes it in the array. *)
Lemma encode_record_text (r : upload_record) :
  JSON.encode 1 (ResultSaver.record_dict r) = record_text r.
Proof. destruct r as [b [sb|] [u|] p st]; reflexivity. Qed.

(** The text [json.dump] writes for the records. *)
Lemma dumps_results_text (records : list upload_record) :
  JSON.dumps (JSON.Arr (map ResultSaver.record_dict records)) = results_text records.
Proof.
  destruct records as [|r records]; [reflexivity|].
  unfold JSON.dumps. cbn [map]. rewrite encode_array. unfold results_text.
  cbn [map]. rewrite map_map, encode_record_text.
  rewrite (map_ext _ record_text encode_record_text). reflexivity.
Qed.

End RoundTrip.

(** C8. [save] writes, under the given name, the UTF-8 bytes of the JSON text
    of the whole list of records, and reading these bytes back (decoding
    them, parsing the text, taking each object as a record) gives the very
    list: as many records, with the same fields. A character that is not
    ASCII is written as itself, in two UTF-8 bytes, with no escape. The text
    is pretty-printed with an indentation of four spaces per level: it is
    "[]" for no record, and otherwise each record starts on a line of its
    own after four spaces and each of its five members is on a line of its
    own after eight spaces, the closing brace after four spaces and the
    closing bracket at the start of the last line; the indentation the
    writer produces at a level is a line break and 4 times the level
    characters, all of them spaces. When the file
    cannot be opened or written, [save] prints the error and returns, and the
    run goes on to its end: it prints its last line and returns normally. *)
Theorem saved_results_read_back_and_failures_are_reported `{UrlChecks} :
  (forall records filename s,
      fault s = NoFault ->
      ResultSaver.save records filename s
      = (Return tt, set_files (<[filename := result_file records]> (files s)) s))
  /\ (forall records,
        Reader.read_results (result_file records) = Some records)
  /\ (forall c,
        (128 <= N_of_ascii c)%N ->
        JSON.escape_char c = String c EmptyString
        /\ exists b1 b2, utf8_char c = [b1; b2])
  /\ ((forall records,
         JSON.dumps (JSON.Arr (map ResultSaver.record_dict records)) = results_text records)
      /\ (forall records, result_file records = utf8_encode (results_text records))
      /\ (forall n,
            String.length (JSON.spaces n) = n
            /\ Str.all (Ascii.eqb " "%char) (JSON.spaces n) = true)
      /\ (forall level,
            String.length (JSON.newline_indent level) = S (4 * level)
            /\ exists indentation,
                 JSON.newline_indent level = line_break indentation
                 /\ Str.all (Ascii.eqb " "%char) indentation = true))
  /\ (forall records filename s,
        fault s <> NoFault ->
        (ResultSaver.save records filename s).1 = Return tt
        /\ printed (ResultSaver.save records filename s).2
           = (printed s ++ [SaveFailed OSError])%list)
  /\ (forall breed_line token_line s m sub_breeds,
        Str.strip token_line <> EmptyString ->
        (DogAPI.get_all_breeds s).1 = Return (Mapping m) ->
        m !! Str.lower (Str.strip breed_line) = Some sub_breeds ->
        answer (disk_replies s) 0 = Some 201 \/ answer (disk_replies s) 0 = Some 409 ->
        (DogImageUploader.run breed_line token_line s).1 = Return tt
        /\ last (printed (DogImageUploader.run breed_line token_line s).2) = Some Done
        /\ (fault s = NoFault ->
            files (DogImageUploader.run breed_line token_line s).2 !! "results.json"
            = Some (result_file (results (DogImageUploader.run breed_line token_line s).2)))
        /\ (fault s <> NoFault ->
            exists before,
              printed (DogImageUploader.run breed_line token_line s).2
              = (before ++ [SaveFailed OSError; Done])%list)).
Proof.
  repeat apply conj.
  - intros records filename s F. rewrite save_eq, F. reflexivity.
  - apply read_results_result_file.
  - intros c. destruct c as [[] [] [] [] [] [] [] []]; cbn; intros L;
      try (exfalso; lia); (split; [reflexivity | eauto]).
  - apply dumps_results_text.
  - intros records. unfold result_file. now rewrite dumps_results_text.
  - intros n. split; [apply length_spaces | apply spaces_all].
  - intros level. split; [apply length_newline_indent|].
    exists (JSON.spaces (4 * level)). split; [reflexivity | apply spaces_all].
  - intros records filename s F. rewrite save_eq. cbv zeta.
    destruct (fault s); [contradiction | now split | now split].
  - intros breed_line token_line s m sub_breeds N Hget L Created.
    destruct (run_main_path breed_line token_line s m sub_breeds N Hget L Created)
      as (s2 & E & FA & FI).
    destruct (upload_all_spec (Str.lower (Str.strip breed_line)) sub_breeds
                ("/" ++ Str.lower (Str.strip breed_line) ++ "/")
                (YandexDiskUploader.__init__ (Str.strip token_line)) s2)
      as (r0 & rs & s3 & E3 & R3 & _ & _ & _ & _ & _ & Saved & _).
    rewrite E, E3. cbn [fst snd]. unfold saved in Saved. rewrite FA in Saved.
    repeat apply conj.
    + reflexivity.
    + destruct (fault s); destruct Saved as [-> _]; [apply last_snoc | |];
        change ([SaveFailed OSError; Done]) with ([SaveFailed OSError] ++ [Done])%list;
        rewrite app_assoc; apply last_snoc.
    + intros F. rewrite F in Saved. destruct Saved as [_ ->].
      rewrite lookup_insert_eq, R3. reflexivity.
    + intros F. destruct (fault s); [contradiction| |];
        destruct Saved as [-> _]; eauto.
Qed.

Lemma saved_results_read_back_and_failures_are_reported_witness :
  Str.strip "token" <> EmptyString
  /\ (DogAPI.get_all_breeds (with_fault (WriteFails 7) refused_upload)).1
     = Return (Mapping hound_catalog)
  /\ answer (disk_replies (with_fault (WriteFails 7) refused_upload)) 0 = Some 201
  /\ fault (with_fault (WriteFails 7) refused_upload) <> NoFault
  /\ (@DogImageUploader.run accept_all "hound" "token"
        (with_fault (WriteFails 7) refused_upload)).1 = Return tt
  /\ exists before,
       printed (@DogImageUploader.run accept_all "hound" "token"
                  (with_fault (WriteFails 7) refused_upload)).2
       = (before ++ [SaveFailed OSError; Done])%list.
Proof.
  assert (N : Str.strip "token" <> EmptyString) by discriminate.
  assert (G : (DogAPI.get_all_breeds (with_fault (WriteFails 7) refused_upload)).1
              = Return (Mapping hound_catalog)) by reflexivity.
  assert (L : hound_catalog !! Str.lower (Str.strip "hound") = Some ["afghan"; "blood"])
    by reflexivity.
  assert (C : answer (disk_replies (with_fault (WriteFails 7) refused_upload)) 0 = Some 201)
    by reflexivity.
  assert (F : fault (with_fault (WriteFails 7) refused_upload) <> NoFault) by discriminate.
  destruct (@saved_results_read_back_and_failures_are_reported accept_all)
    as (_ & _ & _ & _ & _ & Run).
  destruct (Run "hound" "token" (with_fault (WriteFails 7) refused_upload)
              hound_catalog ["afghan"; "blood"] N G L (or_introl C))
    as (Ret & _ & _ & Reported).
  repeat apply conj; try assumption. exact (Reported F).
Defined.

(** * The program, request by request *)

(** ** The breed catalog client, request by request *)

(** [_get_image_url] by the answer to its request. *)
Lemma get_image_url_eq url s :
  _get_image_url url s =
  let s1 := set_sent (sent s ++ [get url]) s in
  match image_replies s with
  | [] => (Raise (ImageRequestError ConnectionError), s1)
  | NoReply :: rest =>
      (Raise (ImageRequestError ConnectionError), set_image_replies rest s1)
  | Reply code body :: rest =>
      (if error_status code then Raise (ImageRequestError (HTTPError code))
       else match body with
            | NotObject => Raise TypeError
            | Object None _ => Raise KeyError
            | Object (Some status) message =>
                if String.eqb status "success" then
                  match message with
                  | Some image_url => Return image_url
                  | None => Raise KeyError
                  end
                else Raise (ApiStatusError (reported message))
            end,
       set_image_replies rest s1)
  end.
Proof.
  unfold _get_image_url, try_except, mbind, M_bind, send, raise_for_status, error_status.
  cbn. fold (get url).
  destruct (image_replies s) as [|[|code body] rest]; cbn; try reflexivity.
  destruct ((400 <=? code) && (code <? 600)); cbn; [reflexivity|].
  destruct body as [|[status|] [message|]]; cbn; try reflexivity.
  all: destruct (String.eqb status "success"); reflexivity.
Qed.

Ltac conjs := repeat match goal with |- _ /\ _ => split end.

(** X1. [_get_image_url] sends one request, [GET url] with a timeout of 10
    seconds, takes the next answer of the image service (if there is one) and
    touches nothing else. It returns exactly when the answer has a status
    outside 400..599 and a body that is an object with the status "success"
    and with a message: what it returns is that message, a URL, or [None]
    when the message is [null]. Every exception that leaves it is no
    [RequestException]: the wrapped transport or HTTP error; for an object
    with another status, the error that carries the message of the body
    ([None] when there is none); [KeyError] for an object without a status,
    or with the status "success" and without a message; [TypeError] for a
    body that is not an object. Under a 4xx or 5xx status the body is not
    looked at. *)
Theorem get_image_url_returns_the_message_of_a_success
    (url : string) (s : state) :
  let out := _get_image_url url s in
  sent out.2 = (sent s ++ [get url])%list
  /\ image_replies out.2 = drop 1 (image_replies s)
  /\ network_only s out.2
  /\ disk_replies out.2 = disk_replies s
  /\ (forall image_url,
        out.1 = Return image_url <->
        exists code rest,
          image_replies s = Reply code (Object (Some "success") (Some image_url)) :: rest
          /\ error_status code = false)
  /\ (forall e,
        out.1 = Raise e ->
        is_RequestException e = false
        /\ ((exists cause, e = ImageRequestError cause /\ is_RequestException cause = true)
            \/ (exists message, e = ApiStatusError message)
            \/ e = KeyError \/ e = TypeError))
  /\ (forall code body rest,
        image_replies s = Reply code body :: rest -> error_status code = true ->
        out.1 = Raise (ImageRequestError (HTTPError code)))
  /\ (forall code body rest,
        image_replies s = Reply code body :: rest -> error_status code = false ->
        match body with
        | NotObject => out.1 = Raise TypeError
        | Object None _ => out.1 = Raise KeyError
        | Object (Some status) message =>
            (status = "success" ->
             match message with
             | Some image_url => out.1 = Return image_url
             | None => out.1 = Raise KeyError
             end)
            /\ (status <> "success" ->
                out.1 = Raise (ApiStatusError (reported message)))
        end).
Proof.
  intros out. subst out. rewrite get_image_url_eq. cbv zeta.
  destruct (image_replies s) as [|[|code body] rest] eqn:R; cbn [fst snd].
  - conjs; try reflexivity; try assumption.
    + unfold network_only. cbn. repeat split.
    + intros u. split; [discriminate|]. intros (? & ? & ? & _). discriminate.
    + intros e [= <-]. split; [reflexivity|]. left. eauto.
    + discriminate.
    + discriminate.
  - conjs; try reflexivity.
    + unfold network_only. cbn. repeat split.
    + intros u. split; [discriminate|]. intros (? & ? & ? & _). discriminate.
    + intros e [= <-]. split; [reflexivity|]. left. eauto.
    + discriminate.
    + discriminate.
  - conjs; try reflexivity.
    + unfold network_only. cbn. repeat split.
    + intros u. split.
      * destruct (error_status code) eqn:E; [discriminate|].
        destruct body as [|[status|] [message|]]; try discriminate.
        all: destruct (String.eqb_spec status "success") as [->|]; try discriminate.
        intros [= <-]. eauto.
      * intros (c & r & [= -> -> ->] & ->). reflexivity.
    + intros e. destruct (error_status code) eqn:E.
      * intros [= <-]. split; [reflexivity|]. left. eauto.
      * destruct body as [|[status|] [message|]].
        2,3: destruct (String.eqb_spec status "success") as [->|]; try discriminate.
        all: intros [= <-]; split; [reflexivity|]; eauto 6.
    + intros c b r [= -> -> ->] ->. reflexivity.
    + intros c b r [= -> -> ->] ->.
      destruct b as [|[status|] [message|]]; try reflexivity.
      all: split; [intros ->; reflexivity|].
      all: intros N; destruct (String.eqb_spec status "success"); [contradiction|];
        reflexivity.
Qed.

(** X2. [get_all_breeds] looks at the HTTP status of the answer and at
    nothing else. It sends the one request for the breed list and takes the
    next answer of that service; the other services, the files and the
    results are as they were. An answer with a status outside 400..599 and a
    body that is an object with a message gives that message, whatever the
    status of the body, and nothing is printed; an answer with a 4xx or 5xx
    status, and no answer at all, give the empty catalog after the error is
    printed, and the run then stops at "no catalog". The only exceptions
    that leave it are the [KeyError] of an object without a message and the
    [TypeError] of a body that is not an object; nothing catches them, and
    they end the run. *)
Theorem get_all_breeds_checks_the_http_status_only (s : state) :
  let out := DogAPI.get_all_breeds s in
  sent out.2 = (sent s ++ [get_breeds])%list
  /\ breeds_replies out.2 = drop 1 (breeds_replies s)
  /\ image_replies out.2 = image_replies s /\ disk_replies out.2 = disk_replies s
  /\ files out.2 = files s /\ results out.2 = results s
  /\ (answer (breeds_replies s) 0 = None ->
      out.1 = Return (Mapping ∅)
      /\ printed out.2 = (printed s ++ [ApiRequestFailed ConnectionError])%list)
  /\ (forall code body rest,
        breeds_replies s = Reply code body :: rest -> error_status code = true ->
        out.1 = Return (Mapping ∅)
        /\ printed out.2 = (printed s ++ [ApiRequestFailed (HTTPError code)])%list)
  /\ (forall code body rest,
        breeds_replies s = Reply code body :: rest -> error_status code = false ->
        printed out.2 = printed s
        /\ match body with
           | NotObject => out.1 = Raise TypeError
           | Object _ None => out.1 = Raise KeyError
           | Object _ (Some message) => out.1 = Return message
           end)
  /\ (forall e, out.1 = Raise e -> e = KeyError \/ e = TypeError)
  /\ (forall (C : UrlChecks) breed_line token_line code body rest,
        Str.strip token_line <> EmptyString ->
        breeds_replies s = Reply code body :: rest -> error_status code = true ->
        (DogImageUploader.run breed_line token_line s).1 = Return tt
        /\ printed (DogImageUploader.run breed_line token_line s).2
           = (printed s ++ [ApiRequestFailed (HTTPError code); BreedsUnavailable])%list
        /\ sent (DogImageUploader.run breed_line token_line s).2
           = (sent s ++ [get_breeds])%list)
  /\ (forall (C : UrlChecks) breed_line token_line e,
        Str.strip token_line <> EmptyString ->
        out.1 = Raise e ->
        (DogImageUploader.run breed_line token_line s).1 = Raise e
        /\ printed (DogImageUploader.run breed_line token_line s).2 = printed s).
Proof.
  intros out. subst out. conjs.
  11:{ intros C breed_line token_line code body rest N R E.
      rewrite run_eq. cbv zeta.
      destruct (String.eqb_spec (Str.strip token_line) EmptyString); [contradiction|].
      rewrite get_all_breeds_eq. cbv zeta. rewrite R. fold (error_status code). rewrite E.
      rewrite truthy_empty. cbn. rewrite <- app_assoc. repeat split. }
  11:{ intros C breed_line token_line e N. rewrite run_eq. cbv zeta.
      destruct (String.eqb_spec (Str.strip token_line) EmptyString); [contradiction|].
      rewrite get_all_breeds_eq. cbv zeta.
      destruct (breeds_replies s) as [|[|code body] rest] eqn:R; cbn [fst snd];
        try discriminate.
      fold (error_status code). destruct (error_status code); [discriminate|].
      cbn [fst snd]. destruct body as [|status [message|]]; try discriminate.
      all: intros [= <-]; split; reflexivity. }
  all: rewrite get_all_breeds_eq; cbv zeta; unfold answer.
  all: destruct (breeds_replies s) as [|[|code body] rest] eqn:R; cbn [fst snd];
    try fold (error_status code); try destruct (error_status code) eqn:E; cbn;
    eauto; try discriminate.
  all: try (intros c b r [= -> -> ->] E'; try congruence; auto).
  - split; [reflexivity|]. destruct b as [|status [message|]]; reflexivity.
  - intros e. destruct body as [|status [message|]]; intros [= <-]; auto.
Qed.

(** ** What is sent *)

Section Requests.
Context `{UrlChecks} (P : request -> Prop) (uploader : YandexDiskUploader.t).
Hypothesis P_get : forall breed sub, P (get (image_endpoint breed sub)).
Hypothesis P_put : forall path, P (put_folder uploader path).
Hypothesis P_post : forall image_url path, P (post_upload uploader image_url path).

Lemma send_grows {B} (svc : service B) r :
  (forall v s, sent (set_pending svc v s) = sent s) ->
  P r -> ensures (grows sent P) (send svc r).
Proof.
  intros Hsvc Hr s. unfold send.
  destruct (pending svc _) as [|[|code body] rest]; cbn;
    eapply grows_one; rewrite ?Hsvc; cbn; eauto.
Qed.

Lemma silent_grows {A} (c : M A) :
  (forall s, sent (c s).2 = sent s) -> ensures (grows sent P) c.
Proof. intros E s. now apply grows_same. Qed.

Lemma fetch_image_grows breed sub : ensures (grows sent P) (fetch_image breed sub).
Proof.
  pose proof (P_get breed sub) as G.
  destruct sub; unfold fetch_image, DogAPI.get_sub_breed_image, DogAPI.get_breed_image,
    _get_image_url; cbv zeta;
    repeat ensures_step; try (apply send_grows; [reflexivity | exact G]).
Qed.

Lemma create_folder_grows path :
  ensures (grows sent P) (YandexDiskUploader.create_folder uploader path).
Proof.
  unfold YandexDiskUploader.create_folder. fold (put_folder uploader path).
  repeat ensures_step; try (apply send_grows; [reflexivity | apply P_put]).
Qed.

Lemma upload_from_url_grows image_url path :
  ensures (grows sent P) (YandexDiskUploader.upload_from_url uploader image_url path).
Proof.
  unfold YandexDiskUploader.upload_from_url. fold (post_upload uploader image_url path).
  cbv zeta.
  repeat ensures_step;
    try (apply send_grows; [reflexivity | apply P_post]);
    try apply create_folder_grows.
Qed.

Lemma process_slot_grows breed sub folder :
  ensures (grows sent P) (process_slot breed sub folder uploader).
Proof.
  unfold process_slot, try_block.
  repeat ensures_step;
    try apply fetch_image_grows; try apply upload_from_url_grows;
    try (apply silent_grows; reflexivity).
Qed.

Lemma upload_all_grows breed sub_breeds folder :
  ensures (grows sent P) (upload_all breed sub_breeds folder uploader).
Proof.
  unfold upload_all. cbv zeta. rewrite loop_when_nonempty.
  repeat ensures_step;
    try (rewrite process_breed_image_slot; apply process_slot_grows);
    try (rewrite process_sub_breed_image_slot; apply process_slot_grows);
    try (apply silent_grows; reflexivity).
  apply silent_grows. intros s. rewrite save_eq. cbv zeta. destruct (fault s); reflexivity.
Qed.

End Requests.

Lemma startswith_app (a b : string) : Str.startswith (a ++ b) a = true.
Proof.
  induction a as [|c a IH]; [now destruct b|].
  change (Ascii.eqb c c && Str.startswith (a ++ b) a = true).
  now rewrite Ascii.eqb_refl, IH.
Qed.

(** Every request of a run satisfies [P] when the requests of its four kinds
    do. *)
Lemma run_grows `{UrlChecks} (P : request -> Prop) breed_line token_line :
  P get_breeds ->
  (forall breed sub, P (get (image_endpoint breed sub))) ->
  (forall path, P (put_folder (YandexDiskUploader.__init__ (Str.strip token_line)) path)) ->
  (forall image_url path,
     P (post_upload (YandexDiskUploader.__init__ (Str.strip token_line)) image_url path)) ->
  ensures (grows sent P) (DogImageUploader.run breed_line token_line).
Proof.
  intros P_breeds P_get P_put P_post.
  set (uploader := YandexDiskUploader.__init__ (Str.strip token_line)) in *.
  assert (Print : forall l, ensures (grows sent P) (print l)).
  { intros l. apply silent_grows. reflexivity. }
  intros s. rewrite run_eq. cbv zeta. fold uploader.
  destruct (String.eqb _ _); [apply Print|].
  assert (T1 : grows sent P s (DogAPI.get_all_breeds s).2).
  { rewrite get_all_breeds_eq. cbv zeta.
    destruct (breeds_replies s) as [|[|code body] rest]; cbn;
      try destruct (_ && _); cbn; eapply grows_one; cbn; eauto. }
  destruct (DogAPI.get_all_breeds s) as [[breeds|e] s1]; cbn [fst snd] in *; [|exact T1].
  destruct (negb (DogImageUploader.truthy breeds)).
  { etransitivity; [exact T1 | apply Print]. }
  destruct breeds as [|m|text]; [exact T1| |].
  2:{ destruct (Str.contains _ text); [exact T1|].
      etransitivity; [exact T1 | apply Print]. }
  destruct (m !! _) as [sub_breeds|]; [|etransitivity; [exact T1 | apply Print]].
  pose proof (create_folder_grows P uploader P_put
                ("/" ++ Str.lower (Str.strip breed_line) ++ "/") s1) as T2.
  destruct (YandexDiskUploader.create_folder _ _ s1) as [[[|]|e] s2]; cbn [fst snd] in *.
  - etransitivity; [exact T1|]. etransitivity; [exact T2|].
    apply (upload_all_grows P uploader P_get P_put P_post).
  - etransitivity; [exact T1|]. etransitivity; [exact T2 | apply Print].
  - etransitivity; [exact T1 | exact T2].
Qed.

(** X3. Whatever the inputs and the answers, every request of a run is
    addressed as follows. A [GET] goes to a URL of the image service and
    carries no header and no parameter, so the token never reaches that
    service. A [PUT] goes to the folder endpoint of the disk and a [POST] to
    its upload endpoint; both carry the one header [Authorization], which is
    "OAuth " followed by the stripped token, the [PUT] with the one parameter
    [path], the [POST] with [path], [url] and [overwrite] set to "true". *)
Theorem run_sends_the_token_to_the_disk_only
    `{UrlChecks} (breed_line token_line : string) (s : state) :
  exists new,
    sent (DogImageUploader.run breed_line token_line s).2 = (sent s ++ new)%list
    /\ Forall (well_addressed (Str.strip token_line)) new.
Proof.
  apply (run_grows (well_addressed (Str.strip token_line)) breed_line token_line).
  - unfold well_addressed, get_breeds. cbn. split; [apply startswith_app | now split].
  - intros breed sub. unfold well_addressed, get. cbn.
    split; [destruct sub; apply startswith_app | now split].
  - intros path. unfold well_addressed. cbn. repeat split. now exists path.
  - intros image_url path. unfold well_addressed. cbn. repeat split.
    now exists path, image_url.
Qed.

(** ** The requests of a slot *)

Lemma fetch_image_eq breed sub : fetch_image breed sub = _get_image_url (image_endpoint breed sub).
Proof. destruct sub; reflexivity. Qed.

Lemma upload_from_url_requests uploader image_url path s :
  exists b disk s',
    YandexDiskUploader.upload_from_url uploader image_url path s = (Return b, s')
    /\ sent s' = (sent s ++ disk)%list
    /\ upload_attempt uploader image_url path disk
    /\ disk_replies s' = drop (length disk) (disk_replies s)
    /\ image_replies s' = image_replies s
    /\ (b = true ->
        exists n, answer (disk_replies s) n = Some 202 /\ length disk = S n
                  /\ disk !! n = Some (post_upload uploader image_url path)).
Proof.
  rewrite upload_from_url_eq. cbv zeta. unfold upload_attempt, answer.
  destruct (disk_replies s) as [|[|c0 b0] r1] eqn:R0; cbn.
  1,2: eexists false, [_], _; split; [reflexivity|]; cbn; repeat split; auto; discriminate.
  destruct (Z.eqb_spec c0 202) as [->|N202].
  { eexists true, [_], _. split; [reflexivity|]. cbn. repeat split; auto.
    intros _. exists 0%nat. now repeat split. }
  destruct (c0 =? 409).
  2:{ eexists false, [_], _. split; [reflexivity|]. cbn. repeat split; auto. discriminate. }
  destruct r1 as [|[|c1 b1] r2]; cbn.
  1,2: eexists false, [_; _], _; split; [reflexivity|]; cbn; rewrite <- ?app_assoc;
       repeat split; auto; discriminate.
  destruct ((c1 =? 201) || (c1 =? 409)); cbn.
  2:{ eexists false, [_; _], _. split; [reflexivity|]. cbn. rewrite <- ?app_assoc.
      repeat split; auto. discriminate. }
  destruct r2 as [|[|c2 b2] r3]; cbn.
  1,2: eexists false, [_; _; _], _; split; [reflexivity|]; cbn; rewrite <- ?app_assoc;
       repeat split; auto; discriminate.
  eexists (c2 =? 202), [_; _; _], _. split; [reflexivity|]. cbn. rewrite <- ?app_assoc.
  repeat split; auto. intros E%Z.eqb_eq. subst. exists 2%nat. now repeat split.
Qed.

Lemma fetch_image_state breed sub s :
  sent (fetch_image breed sub s).2 = (sent s ++ [get (image_endpoint breed sub)])%list
  /\ image_replies (fetch_image breed sub s).2 = drop 1 (image_replies s)
  /\ disk_replies (fetch_image breed sub s).2 = disk_replies s.
Proof.
  rewrite fetch_image_eq, get_image_url_eq. cbv zeta.
  destruct (image_replies s) as [|[|code body] rest] eqn:R; cbn; auto.
Qed.

(** A slot by its requests. *)
Lemma process_slot_requests `{UrlChecks} breed sub folder uploader s :
  exists disk s',
    process_slot breed sub folder uploader s = (Return tt, s')
    /\ sent s' = (sent s ++ get (image_endpoint breed sub) :: disk)%list
    /\ image_replies s' = drop 1 (image_replies s)
    /\ disk_replies s' = drop (length disk) (disk_replies s)
    /\ match (fetch_image breed sub s).1 with
       | Raise _ => disk = []
       | Return image_url =>
           match ImageFilenameHelper.get_filename_from_url image_url with
           | Raise _ => disk = []
           | Return filename =>
               upload_attempt uploader image_url (slot_path folder breed sub filename) disk
           end
       end.
Proof.
  rewrite process_slot_eq.
  destruct (fetch_image_state breed sub s) as (S1 & I1 & D1).
  destruct (fetch_image breed sub s) as [[image_url|e] s1]; cbn [fst snd] in *.
  2:{ exists []. eexists. split; [reflexivity|]. cbn. now rewrite S1, I1, D1. }
  destruct (ImageFilenameHelper.get_filename_from_url image_url) as [filename|e].
  2:{ exists []. eexists. split; [reflexivity|]. cbn. now rewrite S1, I1, D1. }
  destruct (upload_from_url_requests uploader image_url
              (slot_path folder breed sub filename) s1)
    as (b & disk & s2 & E & S2 & A & D2 & I2 & _).
  rewrite E. exists disk. eexists. split; [reflexivity|]. cbn.
  rewrite S2, S1, I2, I1, D2, D1, <- app_assoc. now repeat split.
Qed.

Lemma upload_attempt_length uploader image_url path disk :
  upload_attempt uploader image_url path disk ->
  (1 <= length disk <= 3)%nat /\ Forall (fun r => req_method r <> GET) disk.
Proof.
  intros [->|[->| ->]]; cbn; (split; [lia|]); repeat constructor; discriminate.
Qed.

(** X4. Each of the two processing methods sends the fetch of its slot (the
    random-image endpoint of the breed, or of the breed and the sub-breed)
    and then at most three requests to the disk, none of them a [GET]; it
    takes one answer of the image service and as many answers of the disk as
    it sent requests there. When the fetch or the extraction of the file
    name raises, nothing is sent to the disk. Otherwise the requests to the
    disk are those of one upload of the fetched URL to the path of the slot:
    the upload; or the upload and the creation of the parent folder; or
    these two and the upload again. *)
Theorem a_slot_sends_its_fetch_and_the_requests_of_one_upload
    `{UrlChecks} (breed : string) (sub : option string) (folder : string)
    (uploader : YandexDiskUploader.t) (s : state) :
  let out := process_image breed sub folder uploader s in
  exists disk,
    sent out.2 = (sent s ++ get (image_endpoint breed sub) :: disk)%list
    /\ (length disk <= 3)%nat
    /\ Forall (fun r => req_method r <> GET) disk
    /\ image_replies out.2 = drop 1 (image_replies s)
    /\ disk_replies out.2 = drop (length disk) (disk_replies s)
    /\ (forall e, (fetch_image breed sub s).1 = Raise e -> disk = [])
    /\ (forall image_url e,
          (fetch_image breed sub s).1 = Return image_url ->
          ImageFilenameHelper.get_filename_from_url image_url = Raise e ->
          disk = [])
    /\ (forall image_url filename,
          (fetch_image breed sub s).1 = Return image_url ->
          ImageFilenameHelper.get_filename_from_url image_url = Return filename ->
          upload_attempt uploader image_url (slot_path folder breed sub filename) disk).
Proof.
  intros out. subst out. rewrite process_image_slot.
  destruct (process_slot_requests breed sub folder uploader s)
    as (disk & s' & E & S & I & D & Shape).
  rewrite E. cbn [snd]. exists disk.
  assert (L : (length disk <= 3)%nat /\ Forall (fun r => req_method r <> GET) disk).
  { destruct (fetch_image breed sub s).1 as [image_url|e]; [|subst; cbn; split; [lia|constructor]].
    destruct (ImageFilenameHelper.get_filename_from_url image_url) as [filename|e];
      [|subst; cbn; split; [lia|constructor]].
    apply upload_attempt_length in Shape. split; [lia | apply Shape]. }
  destruct L as [L NG]. conjs; try assumption.
  - intros e Fe. now rewrite Fe in Shape.
  - intros image_url e Fe Fn. now rewrite Fe, Fn in Shape.
  - intros image_url filename Fe Fn. now rewrite Fe, Fn in Shape.
Qed.

(** ** The requests of a run *)

Lemma slot_requests_of `{UrlChecks} uploader folder breed sub s disk :
  match (fetch_image breed sub s).1 with
  | Raise _ => disk = []
  | Return image_url =>
      match ImageFilenameHelper.get_filename_from_url image_url with
      | Raise _ => disk = []
      | Return filename =>
          upload_attempt uploader image_url (slot_path folder breed sub filename) disk
      end
  end ->
  slot_requests uploader folder breed sub (get (image_endpoint breed sub) :: disk).
Proof.
  intros Shape. exists disk. split; [reflexivity|].
  destruct (fetch_image breed sub s).1 as [image_url|e]; [|now left].
  destruct (ImageFilenameHelper.get_filename_from_url image_url) as [filename|e] eqn:F;
    [|now left].
  right. eauto.
Qed.

Lemma sub_breeds_loop_requests `{UrlChecks} breed folder uploader (sub_breeds : list string) s :
  exists slots s',
    DogImageUploader.for_each sub_breeds
      (fun sub_breed =>
         DogImageUploader._process_sub_breed_image breed sub_breed folder uploader) s
    = (Return tt, s')
    /\ sent s' = (sent s ++ concat slots)%list
    /\ Forall2 (fun sub_breed requests =>
                  slot_requests uploader folder breed (Some sub_breed) requests)
         sub_breeds slots
    /\ image_replies s' = drop (length sub_breeds) (image_replies s).
Proof.
  revert s. induction sub_breeds as [|sub_breed rest IH]; intros s.
  - exists [], s. cbn. rewrite app_nil_r. repeat split. constructor.
  - cbn [DogImageUploader.for_each]. rewrite process_sub_breed_image_slot.
    destruct (process_slot_requests breed (Some sub_breed) folder uploader s)
      as (disk & s1 & E1 & S1 & I1 & _ & Shape).
    destruct (IH s1) as (slots & s2 & E2 & S2 & F2 & I2).
    exists ((get (image_endpoint breed (Some sub_breed)) :: disk) :: slots), s2.
    unfold mbind, M_bind. rewrite E1, E2. repeat split.
    + rewrite S2, S1. cbn [concat]. now rewrite <- app_assoc.
    + constructor; [|assumption]. now apply (slot_requests_of _ _ _ _ s).
    + rewrite I2, I1, drop_drop. reflexivity.
Qed.

Lemma upload_all_requests `{UrlChecks} breed sub_breeds folder uploader s :
  exists slots s',
    upload_all breed sub_breeds folder uploader s = (Return tt, s')
    /\ sent s' = (sent s ++ concat slots)%list
    /\ Forall2 (slot_requests uploader folder breed) (None :: map Some sub_breeds) slots
    /\ image_replies s' = drop (S (length sub_breeds)) (image_replies s).
Proof.
  unfold upload_all. cbv zeta. rewrite loop_when_nonempty.
  unfold mbind, M_bind, DogImageUploader.tqdm, DogImageUploader.results_clear.
  cbv beta iota. rewrite process_breed_image_slot.
  destruct (process_slot_requests breed None folder uploader
              (set_results [] (set_pbar (Some (1 + Z.of_nat (length sub_breeds))) 0 s)))
    as (disk & s1 & E1 & S1 & I1 & _ & Shape).
  rewrite total_files_eq, E1. cbv beta iota. cbn in S1, I1.
  destruct (sub_breeds_loop_requests breed folder uploader sub_breeds s1)
    as (slots & s2 & E2 & S2 & F2 & I2).
  rewrite E2. cbv beta iota. unfold DogImageUploader.get_results. cbv beta iota.
  rewrite save_eq. cbv zeta.
  exists ((get (image_endpoint breed None) :: disk) :: slots).
  assert (F : Forall2 (slot_requests uploader folder breed) (None :: map Some sub_breeds)
                ((get (image_endpoint breed None) :: disk) :: slots)).
  { constructor; [eapply slot_requests_of; exact Shape|].
    now apply Forall2_fmap_l. }
  assert (Sent : sent s2 = (sent s ++ concat ((get (image_endpoint breed None) :: disk) :: slots))%list).
  { rewrite S2, S1. cbn [concat]. now rewrite <- app_assoc. }
  assert (I : image_replies s2 = drop (S (length sub_breeds)) (image_replies s)).
  { rewrite I2, I1, drop_drop. reflexivity. }
  destruct (fault s2); (eexists; split; [reflexivity|]); cbn; auto.
Qed.

(** A run that passes the resolution of the breed and the creation of the
    folder, up to the uploads. *)
Lemma run_reaches_the_uploads `{UrlChecks} breed_line token_line s m sub_breeds :
  Str.strip token_line <> EmptyString ->
  (DogAPI.get_all_breeds s).1 = Return (Mapping m) ->
  m !! Str.lower (Str.strip breed_line) = Some sub_breeds ->
  answer (disk_replies s) 0 = Some 201 \/ answer (disk_replies s) 0 = Some 409 ->
  exists s2,
    DogImageUploader.run breed_line token_line s
    = upload_all (Str.lower (Str.strip breed_line)) sub_breeds
        ("/" ++ Str.lower (Str.strip breed_line) ++ "/")
        (YandexDiskUploader.__init__ (Str.strip token_line)) s2
    /\ sent s2
       = (sent s ++ [get_breeds;
                     put_folder (YandexDiskUploader.__init__ (Str.strip token_line))
                       ("/" ++ Str.lower (Str.strip breed_line) ++ "/")])%list
    /\ image_replies s2 = image_replies s
    /\ disk_replies s2 = drop 1 (disk_replies s)
    /\ printed s2 = printed s /\ slept_ms s2 = slept_ms s
    /\ fault s2 = fault s /\ files s2 = files s.
Proof.
  intros N Hget L Created. rewrite run_eq. cbv zeta.
  destruct (String.eqb_spec (Str.strip token_line) EmptyString) as [E|_];
    [contradiction|].
  assert (Full : DogImageUploader.truthy (Mapping m) = true).
  { cbn. apply negb_true_iff, bool_decide_eq_false. intros ->.
    rewrite lookup_empty in L. discriminate. }
  assert (exists s1,
            DogAPI.get_all_breeds s = (Return (Mapping m), s1)
            /\ sent s1 = (sent s ++ [get_breeds])%list
            /\ image_replies s1 = image_replies s /\ disk_replies s1 = disk_replies s
            /\ printed s1 = printed s /\ slept_ms s1 = slept_ms s
            /\ fault s1 = fault s /\ files s1 = files s)
    as (s1 & E1 & S1 & I1 & D1 & P1 & SL1 & FA1 & FI1).
  { revert Hget. rewrite get_all_breeds_eq. cbv zeta.
    assert (Empty : Return (Mapping ∅) = Return (Mapping m) -> False).
    { intros [= <-]. rewrite lookup_empty in L. discriminate. }
    destruct (breeds_replies s) as [|[|code body] rest]; cbn [fst];
      try (intros X; destruct (Empty X)).
    destruct (_ && _); cbn [fst]; [intros X; destruct (Empty X)|].
    destruct body as [|status [message|]]; try discriminate.
    intros [= ->]. eexists. split; [reflexivity|]. cbn. repeat split. }
  rewrite E1, Full, L. cbn [negb].
  rewrite create_folder_eq, D1. unfold answer in Created.
  destruct (disk_replies s) as [|[|code body] rest]; cbn in Created;
    try (destruct Created; discriminate).
  assert ((code =? 201) || (code =? 409) = true) as ->.
  { destruct Created as [[= ->]|[= ->]]; reflexivity. }
  eexists. split; [reflexivity|]. cbn. rewrite S1, <- app_assoc. repeat split; assumption.
Qed.

Lemma slots_count `{UrlChecks} uploader folder breed subs slots :
  Forall2 (slot_requests uploader folder breed) subs slots ->
  map req_url (List.filter is_fetch (concat slots)) = map (image_endpoint breed) subs
  /\ (length subs <= length (concat slots) <= 4 * length subs)%nat.
Proof.
  induction 1 as [|sub requests subs slots (disk & -> & Shape) _ [IHu IHl]]; [now cbn|].
  cbn [concat]. rewrite List.filter_app, map_app, length_app.
  assert (D : List.filter is_fetch disk = [] /\ (length disk <= 3)%nat).
  { destruct Shape as [->|(image_url & filename & _ & [->|[->| ->]])]; cbn; split;
      try reflexivity; lia. }
  destruct D as [Df Dl]. cbn [List.filter is_fetch get req_method]. rewrite Df.
  cbn [map app length req_url]. rewrite IHu. split; [reflexivity | lia].
Qed.

(** X5. A run that passes the resolution of the breed and the creation of
    the folder sends the request for the breed list, the creation of the
    folder "/breed/", and then the requests of its slots, slot after slot:
    the breed first, then the sub-breeds in the order of the catalog. The
    requests to the image service among them are exactly one per slot, in
    that order, whatever failed before; the slots send between N+1 and
    4(N+1) requests for N sub-breeds, and N+1 answers of the image service
    are taken. *)
Theorem run_requests_follow_the_slots
    `{UrlChecks} (breed_line token_line : string) (s : state)
    (m : gmap string (list string)) (sub_breeds : list string) :
  let breed := Str.lower (Str.strip breed_line) in
  let folder := "/" ++ breed ++ "/" in
  let uploader := YandexDiskUploader.__init__ (Str.strip token_line) in
  let out := DogImageUploader.run breed_line token_line s in
  Str.strip token_line <> EmptyString ->
  (DogAPI.get_all_breeds s).1 = Return (Mapping m) ->
  m !! breed = Some sub_breeds ->
  answer (disk_replies s) 0 = Some 201 \/ answer (disk_replies s) 0 = Some 409 ->
  exists slots,
    sent out.2 = (sent s ++ get_breeds :: put_folder uploader folder :: concat slots)%list
    /\ Forall2 (slot_requests uploader folder breed) (None :: map Some sub_breeds) slots
    /\ map req_url (List.filter is_fetch (concat slots))
       = map (image_endpoint breed) (None :: map Some sub_breeds)
    /\ (1 + length sub_breeds <= length (concat slots) <= 4 * (1 + length sub_breeds))%nat
    /\ image_replies out.2 = drop (1 + length sub_breeds) (image_replies s).
Proof.
  intros breed folder uploader out N Hget L Created.
  destruct (run_reaches_the_uploads breed_line token_line s m sub_breeds N Hget L Created)
    as (s2 & E & S2 & I2 & _).
  destruct (upload_all_requests breed sub_breeds folder uploader s2)
    as (slots & s3 & E3 & S3 & F3 & I3).
  subst out. fold breed folder uploader in E, S2. rewrite E, E3. cbn [snd].
  exists slots. destruct (slots_count _ _ _ _ _ F3) as [Urls Len].
  cbn [length] in Len. rewrite length_map in Len.
  conjs; try assumption; try lia.
  - rewrite S3, S2, <- app_assoc. reflexivity.
  - rewrite I3, I2. reflexivity.
Qed.

(** ** The records of a run, by the answers of the image service *)

Section Outcomes.
Context `{UrlChecks}.

(** The fetch of a slot returns exactly what the answer delivers. *)
Lemma fetch_image_delivers breed sub s image_url :
  (fetch_image breed sub s).1 = Return image_url
  <-> delivers (image_replies s !! 0%nat) image_url.
Proof.
  rewrite fetch_image_eq, get_image_url_eq. cbv zeta. unfold delivers.
  destruct (image_replies s) as [|[|code body] rest]; cbn [fst lookup list_lookup].
  1,2: split; [discriminate | intros (c & E & _); discriminate E].
  destruct (error_status code) eqn:Ok.
  { split; [discriminate|]. intros (c & [= <- _] & C). congruence. }
  destruct body as [|[status|] [message|]];
    try (split; [discriminate | intros (c & E & _); discriminate E]).
  - destruct (String.eqb_spec status "success") as [->|No].
    + split.
      * intros [= <-]. eauto.
      * intros (c & [= _ <-] & _). reflexivity.
    + split; [discriminate|]. intros (c & [= _ -> _] & _). contradiction.
  - split; [|intros (c & E & _); discriminate E].
    destruct (String.eqb status "success"); discriminate.
Qed.

Lemma answer_drop {B} (l : list (http_reply B)) (k n : nat) :
  answer (drop k l) n = answer l (k + n).
Proof. unfold answer. now rewrite lookup_drop. Qed.

(** A slot by the answer to its fetch. *)
Lemma process_slot_outcome breed sub folder uploader s :
  exists r disk s',
    process_slot breed sub folder uploader s = (Return tt, s')
    /\ results s' = (results s ++ [r])%list
    /\ sent s' = (sent s ++ get (image_endpoint breed sub) :: disk)%list
    /\ image_replies s' = drop 1 (image_replies s)
    /\ disk_replies s' = drop (length disk) (disk_replies s)
    /\ slot_outcome breed sub folder (image_replies s !! 0%nat) r
    /\ (rec_status r = uploaded ->
        (exists n, answer (disk_replies s) n = Some 202)
        /\ In (post_upload uploader (rec_image_url r) (rec_yandex_disk_path r)) disk)
    /\ (forall image_url filename,
          delivers (image_replies s !! 0%nat) image_url ->
          ImageFilenameHelper.get_filename_from_url image_url = Return filename ->
          exists success,
            (YandexDiskUploader.upload_from_url uploader image_url
               (slot_path folder breed sub filename) (fetch_image breed sub s).2).1
            = Return success
            /\ r = fetched_record breed sub folder image_url filename success).
Proof.
  rewrite process_slot_eq.
  destruct (fetch_image_state breed sub s) as (S1 & I1 & D1).
  pose proof (fetch_image_network_only breed sub s) as N1.
  pose proof (fetch_image_delivers breed sub s) as Del.
  destruct (fetch_image breed sub s) as [[image_url|e] s1]; cbn [fst snd] in *;
    destruct N1 as (_ & _ & _ & _ & _ & _ & R1 & _).
  2:{ assert (No : forall u, ~ delivers (image_replies s !! 0%nat) u).
      { intros u D. apply Del in D. discriminate. }
      exists (fallback_record breed sub folder), []. eexists.
      split; [reflexivity|]. cbn. rewrite S1, I1, D1, R1.
      repeat apply conj; try reflexivity.
      - now apply not_fetched.
      - discriminate.
      - intros u f D. destruct (No u D). }
  assert (D0 : delivers (image_replies s !! 0%nat) image_url) by now apply Del.
  assert (Only : forall u, delivers (image_replies s !! 0%nat) u -> u = image_url).
  { intros u D. apply Del in D. now injection D. }
  destruct (ImageFilenameHelper.get_filename_from_url image_url) as [filename|e] eqn:F.
  2:{ exists (fallback_record breed sub folder), []. eexists.
      split; [reflexivity|]. cbn. rewrite S1, I1, D1, R1.
      repeat apply conj; try reflexivity.
      - now apply (not_named _ _ _ _ image_url e).
      - discriminate.
      - intros u f D Fu. apply Only in D as ->. congruence. }
  pose proof (upload_from_url_network_only uploader image_url
                (slot_path folder breed sub filename) s1) as N2.
  destruct (upload_from_url_requests uploader image_url
              (slot_path folder breed sub filename) s1)
    as (b & disk & s2 & E & S2 & A & D2 & I2 & Accepted).
  rewrite E in *. cbn [snd] in N2. destruct N2 as (_ & _ & _ & _ & _ & _ & R2 & _).
  exists (fetched_record breed sub folder image_url filename b), disk. eexists.
  split; [reflexivity|]. cbn.
  rewrite S2, S1, I2, I1, D2, D1, R2, R1, <- app_assoc.
  repeat apply conj; try reflexivity.
  - now apply attempted.
  - destruct b; [|discriminate]. intros _.
    destruct (Accepted eq_refl) as (n & A202 & _ & Post).
    split; [rewrite <- D1; eauto|].
    apply list_elem_of_In. exact (list_elem_of_lookup_2 _ _ _ Post).
  - intros u f D Fu. apply Only in D as ->.
    rewrite F in Fu. injection Fu as <-. exists b. rewrite E. split; reflexivity.
Qed.

(** The loop over the sub-breeds, by the answers to its fetches. *)
Lemma sub_breeds_loop_outcome breed folder uploader (sub_breeds : list string) s :
  exists rs new k s',
    DogImageUploader.for_each sub_breeds
      (fun sub_breed =>
         DogImageUploader._process_sub_breed_image breed sub_breed folder uploader) s
    = (Return tt, s')
    /\ results s' = (results s ++ rs)%list
    /\ sent s' = (sent s ++ new)%list
    /\ disk_replies s' = drop k (disk_replies s)
    /\ length rs = length sub_breeds
    /\ (forall i sub_breed,
          sub_breeds !! i = Some sub_breed ->
          exists r, rs !! i = Some r
                    /\ slot_outcome breed (Some sub_breed) folder (image_replies s !! i) r)
    /\ (forall r, In r rs -> rec_status r = uploaded ->
          (exists n, answer (disk_replies s) n = Some 202)
          /\ In (post_upload uploader (rec_image_url r) (rec_yandex_disk_path r)) new).
Proof.
  revert s. induction sub_breeds as [|sub_breed rest IH]; intros s.
  - exists [], [], 0%nat, s. cbn. rewrite !app_nil_r.
    repeat apply conj; try reflexivity.
    + intros i sub_breed L. discriminate L.
    + intros r [].
  - cbn [DogImageUploader.for_each]. rewrite process_sub_breed_image_slot.
    destruct (process_slot_outcome breed (Some sub_breed) folder uploader s)
      as (r & disk & s1 & E1 & R1 & S1 & I1 & D1 & O1 & U1 & _).
    destruct (IH s1) as (rs & new & k & s2 & E2 & R2 & S2 & D2 & L2 & O2 & U2).
    exists (r :: rs), ((get (image_endpoint breed (Some sub_breed)) :: disk) ++ new)%list,
      (length disk + k)%nat, s2.
    unfold mbind, M_bind. rewrite E1, E2.
    repeat apply conj.
    + reflexivity.
    + rewrite R2, R1, <- app_assoc. reflexivity.
    + rewrite S2, S1, <- app_assoc. reflexivity.
    + rewrite D2, D1, drop_drop. reflexivity.
    + cbn. now rewrite L2.
    + intros [|i] sub_breed' L; cbn in L.
      * injection L as <-. exists r. split; [reflexivity | exact O1].
      * destruct (O2 i sub_breed' L) as (r' & Lr & Or). exists r'. split; [exact Lr|].
        rewrite I1, lookup_drop in Or. exact Or.
    + intros r' [<-|In_rs] Up.
      * destruct (U1 Up) as [A P]. split; [exact A|].
        apply in_or_app. left. right. exact P.
      * destruct (U2 r' In_rs Up) as [(n & A) P]. split.
        -- rewrite D1, answer_drop in A. eauto.
        -- apply in_or_app. now right.
Qed.

(** The records of the upload phase, by the answers to its fetches. *)
Lemma upload_all_outcome breed sub_breeds folder uploader s :
  exists new k s',
    upload_all breed sub_breeds folder uploader s = (Return tt, s')
    /\ sent s' = (sent s ++ new)%list
    /\ disk_replies s' = drop k (disk_replies s)
    /\ length (results s') = S (length sub_breeds)
    /\ (forall i sub,
          (None :: map Some sub_breeds) !! i = Some sub ->
          exists r, results s' !! i = Some r
                    /\ slot_outcome breed sub folder (image_replies s !! i) r)
    /\ (forall r, In r (results s') -> rec_status r = uploaded ->
          (exists n, answer (disk_replies s) n = Some 202)
          /\ In (post_upload uploader (rec_image_url r) (rec_yandex_disk_path r)) new).
Proof.
  unfold upload_all. cbv zeta. rewrite total_files_eq, loop_when_nonempty.
  set (total := 1 + Z.of_nat (length sub_breeds)).
  unfold mbind, M_bind, DogImageUploader.tqdm, DogImageUploader.results_clear.
  cbv beta iota. rewrite process_breed_image_slot.
  set (s0 := set_results [] (set_pbar (Some total) 0 s)).
  destruct (process_slot_outcome breed None folder uploader s0)
    as (r0 & disk & s1 & E1 & R1 & S1 & I1 & D1 & O1 & U1 & _).
  rewrite E1. cbv beta iota.
  destruct (sub_breeds_loop_outcome breed folder uploader sub_breeds s1)
    as (rs & new & k & s2 & E2 & R2 & S2 & D2 & L2 & O2 & U2).
  rewrite E2. cbv beta iota. unfold DogImageUploader.get_results. cbv beta iota.
  rewrite save_eq. cbv zeta.
  assert (R : results s2 = r0 :: rs) by (rewrite R2, R1; reflexivity).
  exists ((get (image_endpoint breed None) :: disk) ++ new)%list, (length disk + k)%nat.
  assert (Sent : sent s2
                 = (sent s ++ (get (image_endpoint breed None) :: disk) ++ new)%list).
  { rewrite S2, S1, <- app_assoc. reflexivity. }
  assert (Disk : disk_replies s2 = drop (length disk + k) (disk_replies s)).
  { rewrite D2, D1, drop_drop. reflexivity. }
  assert (Slots : forall i sub,
            (None :: map Some sub_breeds) !! i = Some sub ->
            exists r, (r0 :: rs) !! i = Some r
                      /\ slot_outcome breed sub folder (image_replies s !! i) r).
  { intros [|i] sub L.
    - injection L as <-. exists r0. split; [reflexivity | exact O1].
    - change ((Some <$> sub_breeds) !! i = Some sub) in L.
      rewrite list_lookup_fmap in L.
      destruct (sub_breeds !! i) as [sub_breed|] eqn:Li; [|discriminate].
      injection L as <-.
      destruct (O2 i sub_breed Li) as (r & Lr & Or). exists r. split; [exact Lr|].
      rewrite I1, lookup_drop in Or. exact Or. }
  assert (Ups : forall r, In r (r0 :: rs) -> rec_status r = uploaded ->
            (exists n, answer (disk_replies s) n = Some 202)
            /\ In (post_upload uploader (rec_image_url r) (rec_yandex_disk_path r))
                 ((get (image_endpoint breed None) :: disk) ++ new)).
  { intros r [<-|In_rs] Up.
    - destruct (U1 Up) as [A P]. split; [exact A|].
      apply in_or_app. left. right. exact P.
    - destruct (U2 r In_rs Up) as [(n & A) P]. split.
      + rewrite D1, answer_drop in A. eauto.
      + apply in_or_app. now right. }
  destruct (fault s2); eexists; (split; [reflexivity|]); cbn;
    rewrite ?R; repeat apply conj; try assumption; cbn; now rewrite ?L2.
Qed.

(** The records of a run that passes the resolution of the breed and the
    creation of the folder, by the answers to its fetches. *)
Lemma run_outcome breed_line token_line s m sub_breeds :
  let breed := Str.lower (Str.strip breed_line) in
  let folder := "/" ++ breed ++ "/" in
  let uploader := YandexDiskUploader.__init__ (Str.strip token_line) in
  let out := DogImageUploader.run breed_line token_line s in
  Str.strip token_line <> EmptyString ->
  (DogAPI.get_all_breeds s).1 = Return (Mapping m) ->
  m !! breed = Some sub_breeds ->
  answer (disk_replies s) 0 = Some 201 \/ answer (disk_replies s) 0 = Some 409 ->
  exists new,
    out.1 = Return tt
    /\ sent out.2 = (sent s ++ new)%list
    /\ length (results out.2) = S (length sub_breeds)
    /\ (forall i sub,
          (None :: map Some sub_breeds) !! i = Some sub ->
          exists r, results out.2 !! i = Some r
                    /\ slot_outcome breed sub folder (image_replies s !! i) r)
    /\ (forall r, In r (results out.2) -> rec_status r = uploaded ->
          upload_accepted uploader s new r).
Proof.
  intros breed folder uploader out N Hget L Created.
  destruct (run_reaches_the_uploads breed_line token_line s m sub_breeds N Hget L Created)
    as (s2 & E & S2 & I2 & D2 & _).
  destruct (upload_all_outcome breed sub_breeds folder uploader s2)
    as (new & k & s3 & E3 & S3 & D3 & Len & Slots & Ups).
  subst out. fold breed folder uploader in E, S2. rewrite E, E3. cbn [fst snd].
  exists ([get_breeds; put_folder uploader folder] ++ new)%list.
  repeat apply conj.
  - reflexivity.
  - rewrite S3, S2, <- app_assoc. reflexivity.
  - exact Len.
  - intros i sub Li. destruct (Slots i sub Li) as (r & Lr & Or).
    exists r. split; [exact Lr|]. now rewrite I2 in Or.
  - intros r In_r Up. destruct (Ups r In_r Up) as [(n & A) P]. split.
    + rewrite D2, answer_drop in A. exists (1 + n)%nat. split; [lia | exact A].
    + apply in_or_app. now right.
Qed.

(** The fields of the record of a slot. *)
Lemma slot_outcome_fields breed sub folder reply r :
  slot_outcome breed sub folder reply r ->
  rec_breed r = breed /\ rec_sub_breed r = sub
  /\ exists file, slot_file reply file
                  /\ rec_yandex_disk_path r = slot_path folder breed sub file.
Proof.
  intros [image_url filename success D F|No|image_url e D F]; cbn;
    (split; [reflexivity|]); (split; [reflexivity|]).
  - exists filename. split; [left; eauto | reflexivity].
  - exists "image.jpg". split; [|reflexivity]. right. split; [reflexivity|].
    intros u Du. destruct (No u Du).
  - exists "image.jpg". split; [|reflexivity]. right. split; [reflexivity|].
    intros u (c & Eu & _). destruct D as (c' & E' & _).
    rewrite Eu in E'. injection E' as _ ->. eauto.
Qed.

(** The file name of a slot whose fetch is answered with a URL. *)
Lemma slot_file_found url filename file :
  ImageFilenameHelper.get_filename_from_url (Some url) = Return filename ->
  slot_file (Some (image_found url)) file -> file = filename.
Proof.
  intros F [(u & (code & [= _ <-] & _) & Fu)|[_ No]].
  - rewrite F in Fu. now injection Fu.
  - destruct (No (Some url)) as [e Raised]; [now exists 200|]. congruence.
Qed.

End Outcomes.




(** C9. With the catalog [{"akita": [], "hound": ["afghan", "blood"]}] and
    the breed "hound", once the folder exists the progress bar counts 3 units
    (1 + the number of sub-breeds) and reaches them, and the run leaves three
    records, for the breed, for "afghan" and for "blood", with the paths
    [/hound/hound_<file>], [/hound/hound_afghan_<file>] and
    [/hound/hound_blood_<file>]. Each [<file>] is the file name of its slot:
    the name extracted from the image that the first, the second and the
    third answer of the image service delivers, and "image.jpg" when the
    answer delivers none or no name can be extracted. *)
Theorem hound_run_counts_three_and_names_paths
    `{UrlChecks} (token_line : string) (s : state) :
  let out := DogImageUploader.run "hound" token_line s in
  Str.strip token_line <> EmptyString ->
  (DogAPI.get_all_breeds s).1 = Return (Mapping hound_catalog) ->
  answer (disk_replies s) 0 = Some 201 \/ answer (disk_replies s) 0 = Some 409 ->
  pbar_total out.2 = Some 3
  /\ pbar_n out.2 = 3
  /\ exists r0 r1 r2 file0 file1 file2,
       results out.2 = [r0; r1; r2]
       /\ slot_file (image_replies s !! 0%nat) file0
       /\ slot_file (image_replies s !! 1%nat) file1
       /\ slot_file (image_replies s !! 2%nat) file2
       /\ rec_yandex_disk_path r0 = "/hound/hound_" ++ file0
       /\ rec_yandex_disk_path r1 = "/hound/hound_afghan_" ++ file1
       /\ rec_yandex_disk_path r2 = "/hound/hound_blood_" ++ file2
       /\ map rec_sub_breed [r0; r1; r2] = [None; Some "afghan"; Some "blood"]
       /\ slot_outcome "hound" None "/hound/" (image_replies s !! 0%nat) r0
       /\ slot_outcome "hound" (Some "afghan") "/hound/" (image_replies s !! 1%nat) r1
       /\ slot_outcome "hound" (Some "blood") "/hound/" (image_replies s !! 2%nat) r2.
Proof.
  intros out N Hget Created.
  assert (L : hound_catalog !! Str.lower (Str.strip "hound") = Some ["afghan"; "blood"])
    by reflexivity.
  assert (Bar : pbar_total out.2 = Some 3 /\ pbar_n out.2 = 3).
  { destruct (run_main_path "hound" token_line s hound_catalog _ N Hget L Created)
      as (s2 & E & _).
    change (Str.lower (Str.strip "hound")) with "hound" in E.
    change ("/" ++ "hound" ++ "/") with "/hound/" in E.
    destruct (upload_all_spec "hound" ["afghan"; "blood"] "/hound/"
                (YandexDiskUploader.__init__ (Str.strip token_line)) s2)
      as (r0 & rs & s3 & E3 & _ & _ & _ & BT & BN & _).
    subst out. rewrite E, E3. cbn [fst snd]. split; [exact BT | exact BN]. }
  destruct Bar as [BT BN]. split; [exact BT|]. split; [exact BN|].
  destruct (run_outcome "hound" token_line s hound_catalog _ N Hget L Created)
    as (new & _ & _ & Len & Slots & _).
  change (Str.lower (Str.strip "hound")) with "hound" in Slots.
  change ("/" ++ "hound" ++ "/") with "/hound/" in Slots.
  fold out in Len, Slots.
  destruct (Slots 0%nat None eq_refl) as (r0 & L0 & O0).
  destruct (Slots 1%nat (Some "afghan") eq_refl) as (r1 & L1 & O1).
  destruct (Slots 2%nat (Some "blood") eq_refl) as (r2 & L2 & O2).
  assert (R : results out.2 = [r0; r1; r2]).
  { destruct (results out.2) as [|x0 [|x1 [|x2 [|x3 xs]]]]; try discriminate Len.
    cbn in L0, L1, L2. congruence. }
  destruct (slot_outcome_fields _ _ _ _ _ O0) as (_ & S0 & file0 & F0 & P0).
  destruct (slot_outcome_fields _ _ _ _ _ O1) as (_ & S1 & file1 & F1 & P1).
  destruct (slot_outcome_fields _ _ _ _ _ O2) as (_ & S2 & file2 & F2 & P2).
  exists r0, r1, r2, file0, file1, file2.
  repeat apply conj; try assumption.
  cbn. now rewrite S0, S1, S2.
Qed.

Lemma hound_run_counts_three_and_names_paths_witness :
  Str.strip "token" <> EmptyString
  /\ (DogAPI.get_all_breeds every_answer_good).1 = Return (Mapping hound_catalog)
  /\ answer (disk_replies every_answer_good) 0 = Some 201
  /\ pbar_total (@DogImageUploader.run accept_all "hound" "token" every_answer_good).2
     = Some 3
  /\ map rec_yandex_disk_path
       (results (@DogImageUploader.run accept_all "hound" "token" every_answer_good).2)
     = ["/hound/hound_n02088238_9815.jpg"; "/hound/hound_afghan_n02088094_1003.jpg";
        "/hound/hound_blood_n02088466_6901.jpg"].
Proof.
  assert (N : Str.strip "token" <> EmptyString) by discriminate.
  assert (G : (DogAPI.get_all_breeds every_answer_good).1 = Return (Mapping hound_catalog))
    by reflexivity.
  assert (C : answer (disk_replies every_answer_good) 0 = Some 201) by reflexivity.
  destruct (@hound_run_counts_three_and_names_paths accept_all "token" every_answer_good
              N G (or_introl C))
    as (Total & _ & r0 & r1 & r2 & file0 & file1 & file2 & R & F0 & F1 & F2
        & P0 & P1 & P2 & _).
  refine (conj N (conj G (conj C (conj Total _)))).
  rewrite R. cbn [map]. rewrite P0, P1, P2.
  rewrite (@slot_file_found accept_all
             "https://images.dog.ceo/breeds/hound-basset/n02088238_9815.jpg"
             "n02088238_9815.jpg" file0 eq_refl F0).
  rewrite (@slot_file_found accept_all
             "https://images.dog.ceo/breeds/hound-afghan/n02088094_1003.jpg"
             "n02088094_1003.jpg" file1 eq_refl F1).
  rewrite (@slot_file_found accept_all
             "https://images.dog.ceo/breeds/hound-blood/n02088466_6901.jpg"
             "n02088466_6901.jpg" file2 eq_refl F2).
  reflexivity.
Defined.

(** C10 (amended). For every record of a run that passes the resolution of
    the breed and the creation of the folder, with the answer of the image
    service to the fetch of its slot: a record is [uploaded] only when that
    answer delivered what the record holds as its URL (a URL, or [None] for
    the message [null]) and the disk answered an upload with 202; when the
    answer delivers nothing, that is exactly when the fetch raises, the
    record is the one of the [except] branch, with no URL, status [failed]
    and a path that ends in "image.jpg"; a record without a URL has a path
    that ends in "image.jpg", and is the record of the [except] branch or
    the record of an upload attempted for a [null] message; a record with a
    URL holds the URL that the answer delivered, at the path built from its
    file name. *)
Theorem records_without_url_come_from_the_except_branch
    `{UrlChecks} (breed_line token_line : string) (s : state)
    (m : gmap string (list string)) (sub_breeds : list string) :
  let breed := Str.lower (Str.strip breed_line) in
  let folder := "/" ++ breed ++ "/" in
  let out := DogImageUploader.run breed_line token_line s in
  Str.strip token_line <> EmptyString ->
  (DogAPI.get_all_breeds s).1 = Return (Mapping m) ->
  m !! breed = Some sub_breeds ->
  answer (disk_replies s) 0 = Some 201 \/ answer (disk_replies s) 0 = Some 409 ->
  (forall i sub,
      (None :: map Some sub_breeds) !! i = Some sub ->
      exists r,
        results out.2 !! i = Some r
        /\ (rec_status r = uploaded ->
            delivers (image_replies s !! i) (rec_image_url r)
            /\ exists n, (1 <= n)%nat /\ answer (disk_replies s) n = Some 202)
        /\ ((forall image_url, ~ delivers (image_replies s !! i) image_url) ->
            r = fallback_record breed sub folder
            /\ rec_image_url r = None /\ rec_status r = failed
            /\ Str.endswith (rec_yandex_disk_path r) "image.jpg" = true)
        /\ (rec_image_url r = None ->
            Str.endswith (rec_yandex_disk_path r) "image.jpg" = true
            /\ (r = fallback_record breed sub folder
                \/ (delivers (image_replies s !! i) None
                    /\ exists success,
                         r = fetched_record breed sub folder None "image.jpg" success)))
        /\ (forall url,
              rec_image_url r = Some url ->
              delivers (image_replies s !! i) (Some url)
              /\ exists filename,
                   ImageFilenameHelper.get_filename_from_url (Some url) = Return filename
                   /\ rec_yandex_disk_path r = slot_path folder breed sub filename))
  /\ (forall sub s0,
        (exists e, (fetch_image breed sub s0).1 = Raise e)
        <-> forall image_url, ~ delivers (image_replies s0 !! 0%nat) image_url).
Proof.
  intros breed folder out N Hget L Created.
  destruct (run_outcome breed_line token_line s m sub_breeds N Hget L Created)
    as (new & _ & _ & _ & Slots & Ups).
  fold breed folder out in Slots, Ups.
  split.
  - intros i sub Li. destruct (Slots i sub Li) as (r & Lr & Or).
    exists r. split; [exact Lr|].
    assert (In_r : In r (results out.2)).
    { apply list_elem_of_In. exact (list_elem_of_lookup_2 _ _ _ Lr). }
    pose proof (fallback_path_ends_in_fallback_name breed sub folder) as Ends.
    destruct Or as [image_url filename success D F|No|image_url e D F].
    + cbn [rec_status rec_image_url rec_yandex_disk_path fetched_record].
      repeat apply conj.
      * intros Up. split; [exact D|].
        destruct (Ups _ In_r Up) as [A _]. exact A.
      * intros No. destruct (No image_url D).
      * intros ->. rewrite get_filename_from_url_None in F. injection F as <-.
        split; [exact Ends|]. right. split; [exact D|]. now exists success.
      * intros url ->. split; [exact D|]. now exists filename.
    + cbn [rec_status rec_image_url rec_yandex_disk_path fallback_record].
      repeat apply conj; try discriminate; auto.
    + cbn [rec_status rec_image_url rec_yandex_disk_path fallback_record].
      repeat apply conj; try discriminate; auto.
  - intros sub s0. split.
    + intros [e Raised] u D.
      apply (proj2 (fetch_image_delivers breed sub s0 u)) in D. congruence.
    + intros No. destruct (fetch_image breed sub s0).1 as [u|e] eqn:F; [|eauto].
      apply (proj1 (fetch_image_delivers breed sub s0 u)) in F. destruct (No u F).
Qed.

Lemma records_without_url_come_from_the_except_branch_witness :
  Str.strip "token" <> EmptyString
  /\ (DogAPI.get_all_breeds null_message).1 = Return (Mapping hound_catalog)
  /\ hound_catalog !! Str.lower (Str.strip "hound") = Some ["afghan"; "blood"]
  /\ answer (disk_replies null_message) 0 = Some 201
  /\ exists r,
       results (@DogImageUploader.run accept_all "hound" "token" null_message).2 !! 0%nat
       = Some r
       /\ (rec_status r = uploaded ->
           delivers (image_replies null_message !! 0%nat) (rec_image_url r)
           /\ exists n, (1 <= n)%nat /\ answer (disk_replies null_message) n = Some 202)
       /\ (rec_image_url r = None ->
           Str.endswith (rec_yandex_disk_path r) "image.jpg" = true).
Proof.
  assert (N : Str.strip "token" <> EmptyString) by discriminate.
  assert (G : (DogAPI.get_all_breeds null_message).1 = Return (Mapping hound_catalog))
    by reflexivity.
  assert (L : hound_catalog !! Str.lower (Str.strip "hound") = Some ["afghan"; "blood"])
    by reflexivity.
  assert (C : answer (disk_replies null_message) 0 = Some 201) by reflexivity.
  destruct (@records_without_url_come_from_the_except_branch accept_all "hound" "token"
              null_message hound_catalog ["afghan"; "blood"] N G L (or_introl C))
    as (Records & _).
  destruct (Records 0%nat None eq_refl) as (r & Lr & Up & _ & Without & _).
  refine (conj N (conj G (conj L (conj C _)))).
  exists r. split; [exact Lr|]. split; [exact Up|].
  intros E. exact (proj1 (Without E)).
Defined.

(** C10, as stated, fails: the image service answers the fetch of the breed
    with a "success" whose message is [null], and the disk accepts the
    upload. The record of the breed is then [uploaded] and has no URL, and it
    is not a record of the [except] branch. *)
Lemma a_null_message_is_uploaded_without_a_url :
  ~ (exists C : UrlChecks,
       forall r,
         In r (results (@DogImageUploader.run C "hound" "token" null_message).2) ->
         rec_status r = uploaded -> exists url, rec_image_url r = Some url)
  /\ ~ (exists C : UrlChecks,
          forall r,
            In r (results (@DogImageUploader.run C "hound" "token" null_message).2) ->
            rec_image_url r = None -> rec_status r = failed).
Proof.
  split; intros [C Claim];
    specialize (Claim
      {| rec_breed := "hound"; rec_sub_breed := None; rec_image_url := None;
         rec_yandex_disk_path := "/hound/hound_image.jpg"; rec_status := uploaded |}).
  - destruct Claim as [url E]; [vm_compute; left; reflexivity | reflexivity |].
    discriminate E.
  - assert (E : uploaded = failed).
    { apply Claim; [vm_compute; left; reflexivity | reflexivity]. }
    discriminate E.
Qed.


(** ** The phases of a run *)

Lemma get_all_breeds_quiet s :
  exists r lines s1,
    DogAPI.get_all_breeds s = (r, s1)
    /\ printed s1 = (printed s ++ lines)%list /\ ~ In Done lines
    /\ (lines <> [] -> r = Return (Mapping ∅))
    /\ pbar_total s1 = pbar_total s /\ pbar_n s1 = pbar_n s
    /\ slept_ms s1 = slept_ms s /\ results s1 = results s /\ files s1 = files s.
Proof.
  rewrite get_all_breeds_eq. cbv zeta.
  destruct (breeds_replies s) as [|[|code body] rest]; cbn.
  1,2: eexists _, [_], _; split; [reflexivity|]; cbn; repeat split; auto;
       intros [?|[]]; discriminate.
  destruct (_ && _).
  - eexists _, [_], _; split; [reflexivity|]; cbn; repeat split; auto.
    intros [?|[]]; discriminate.
  - eexists _, [], _; split; [reflexivity|]; cbn. rewrite app_nil_r.
    repeat split; auto. contradiction.
Qed.

Lemma run_phases `{UrlChecks} breed_line token_line s :
  exists lines,
    printed (DogImageUploader.run breed_line token_line s).2 = (printed s ++ lines)%list
    /\ idle_or_done lines s (DogImageUploader.run breed_line token_line s).2.
Proof.
  rewrite run_eq. cbv zeta.
  destruct (String.eqb _ _).
  { exists [TokenEmpty]. split; [reflexivity|]. left. cbn. repeat split; auto.
    intros [?|[]]; discriminate. }
  destruct (get_all_breeds_quiet s)
    as (r & lines1 & s1 & E1 & P1 & ND1 & Empty & BT1 & BN1 & SL1 & R1 & F1).
  rewrite E1.
  assert (Stop : forall l, l <> Done ->
            exists lines,
              printed (print l s1).2 = (printed s ++ lines)%list
              /\ idle_or_done lines s (print l s1).2).
  { intros l NotDone. exists (lines1 ++ [l])%list. cbn. rewrite P1, app_assoc.
    split; [reflexivity|]. left. repeat split; auto.
    rewrite in_app_iff. intros [?|[?|[]]]; auto. }
  assert (Raised : exists lines,
            printed s1 = (printed s ++ lines)%list /\ idle_or_done lines s s1).
  { exists lines1. split; [assumption|]. left. now repeat split. }
  destruct r as [breeds|e]; [|exact Raised].
  destruct (negb (DogImageUploader.truthy breeds)) eqn:Full; [now apply Stop|].
  destruct breeds as [|m|text]; [exact Raised| |].
  2:{ destruct (Str.contains _ text); [exact Raised | now apply Stop]. }
  destruct (m !! _) as [sub_breeds|]; [|now apply Stop].
  assert (Quiet : lines1 = []).
  { destruct lines1 as [|l lines1]; [reflexivity|].
    assert (X : Return (Mapping m) = Return (Mapping ∅)) by (apply Empty; discriminate).
    injection X as ->. now rewrite truthy_empty in Full. }
  subst lines1. rewrite app_nil_r in P1.
  set (uploader := YandexDiskUploader.__init__ (Str.strip token_line)).
  set (breed := Str.lower (Str.strip breed_line)).
  pose proof (create_folder_network_only uploader ("/" ++ breed ++ "/") s1) as N2.
  destruct (create_folder_spec uploader ("/" ++ breed ++ "/") s1)
    as (created & s2 & E2 & _).
  rewrite E2 in *. cbn [snd] in N2.
  destruct N2 as (P2 & BT2 & BN2 & SL2 & FA2 & F2 & R2 & _).
  destruct created.
  - destruct (upload_all_spec breed sub_breeds ("/" ++ breed ++ "/") uploader s2)
      as (r0 & rs & s3 & E3 & R3 & _ & Ss & BT3 & BN3 & SL3 & Saved & _).
    rewrite E3. cbn [snd].
    assert (Len : length (results s3) = S (length sub_breeds)).
    { rewrite R3. cbn. f_equal. symmetry. exact (Forall2_length _ _ _ Ss). }
    assert (exists lines, printed s3 = (printed s ++ lines)%list /\ last lines = Some Done)
      as (lines & P3 & Last).
    { unfold saved in Saved. destruct (fault s2); destruct Saved as [-> _];
        rewrite P2, P1; eexists; split; reflexivity. }
    exists lines. split; [assumption|]. right. exists (S (length sub_breeds)).
    repeat split; [lia | assumption | assumption | | | ].
    + rewrite BT3. f_equal. lia.
    + rewrite BN3. lia.
    + rewrite SL3, SL2, SL1. lia.
  - exists [FolderNotCreated]. cbn. rewrite P2, P1. split; [reflexivity|]. left.
    repeat split; cbn; try congruence. intros [?|[]]; discriminate.
Qed.

(** X6. A run either leaves the progress bar, the clock, the results and
    the files as they were and does not print its last line, or it has
    processed n slots, n at least 1: then it printed its last line last,
    holds n records, its bar counts n out of n, and it has slept 500 ms for
    each slot, whatever failed in the slots. In a run that passes the
    resolution of the breed and the creation of the folder, n is 1 + the
    number of sub-breeds. *)
Theorem run_sleeps_half_a_second_per_slot
    `{UrlChecks} (breed_line token_line : string) (s : state) :
  let out := DogImageUploader.run breed_line token_line s in
  (exists lines,
      printed out.2 = (printed s ++ lines)%list /\ idle_or_done lines s out.2)
  /\ (forall m sub_breeds,
        Str.strip token_line <> EmptyString ->
        (DogAPI.get_all_breeds s).1 = Return (Mapping m) ->
        m !! Str.lower (Str.strip breed_line) = Some sub_breeds ->
        answer (disk_replies s) 0 = Some 201 \/ answer (disk_replies s) 0 = Some 409 ->
        pbar_total out.2 = Some (1 + Z.of_nat (length sub_breeds))
        /\ pbar_n out.2 = 1 + Z.of_nat (length sub_breeds)
        /\ slept_ms out.2 = slept_ms s + 500 * (1 + Z.of_nat (length sub_breeds))).
Proof.
  intros out. subst out. split; [apply run_phases|].
  intros m sub_breeds N Hget L Created.
  destruct (run_reaches_the_uploads breed_line token_line s m sub_breeds N Hget L Created)
    as (s2 & E & _ & _ & _ & _ & SL2 & _).
  destruct (upload_all_spec (Str.lower (Str.strip breed_line)) sub_breeds
              ("/" ++ Str.lower (Str.strip breed_line) ++ "/")
              (YandexDiskUploader.__init__ (Str.strip token_line)) s2)
    as (r0 & rs & s3 & E3 & _ & _ & _ & BT3 & BN3 & SL3 & _).
  rewrite E, E3. cbn [snd]. rewrite <- SL2. auto.
Qed.

(** X7. [main] prints its last line ("done") exactly when it leaves
    records: a new uploader has none, an early exit adds none, and the upload
    phase leaves one per slot. When it is printed, that line is the last
    one; when it is not, no file was written and the program did not
    sleep. *)
Theorem main_prints_done_exactly_when_it_leaves_records
    `{UrlChecks} (breed_line token_line : string) (s : state) :
  let out := main breed_line token_line s in
  exists lines,
    printed out.2 = (printed s ++ lines)%list
    /\ (In Done lines <-> results out.2 <> [])
    /\ (In Done lines -> last lines = Some Done)
    /\ (~ In Done lines -> files out.2 = files s /\ slept_ms out.2 = slept_ms s).
Proof.
  intros out. subst out. unfold main, mbind, M_bind, DogImageUploader.__init__.
  destruct (run_phases breed_line token_line (set_results [] s)) as (lines & P & Phase).
  exists lines. split; [exact P|].
  destruct Phase as [(ND & _ & _ & SL & R & F)|(n & Pos & Last & Len & _)].
  - cbn in R, F, SL. repeat split; tauto.
  - assert (D : In Done lines).
    { clear - Last. induction lines as [|l [|l' lines] IH]; cbn in *;
        [discriminate | injection Last as ->; auto | auto]. }
    repeat split; try tauto.
    + intros _ E. rewrite E in Len. cbn in Len. lia.
Qed.

(** ** The lines typed at the prompts *)

Section Normalisation.

Lemma isspace_lower_char (c : ascii) : Str.isspace (Str.lower_char c) = Str.isspace c.
Proof. destruct c as [[] [] [] [] [] [] [] []]; reflexivity. Qed.

Lemma lower_char_idem (c : ascii) : Str.lower_char (Str.lower_char c) = Str.lower_char c.
Proof. destruct c as [[] [] [] [] [] [] [] []]; reflexivity. Qed.

Lemma lower_idem (s : string) : Str.lower (Str.lower s) = Str.lower s.
Proof.
  induction s as [|c s IH]; [reflexivity|].
  cbn [Str.lower]. now rewrite lower_char_idem, IH.
Qed.

Lemma lstrip_lower (s : string) :
  Str.lstrip Str.isspace (Str.lower s) = Str.lower (Str.lstrip Str.isspace s).
Proof.
  induction s as [|c s IH]; [reflexivity|].
  cbn [Str.lower Str.lstrip]. rewrite isspace_lower_char.
  destruct (Str.isspace c); [exact IH | reflexivity].
Qed.

Lemma rstrip_lower (s : string) :
  Str.rstrip Str.isspace (Str.lower s) = Str.lower (Str.rstrip Str.isspace s).
Proof.
  induction s as [|c s IH]; [reflexivity|].
  cbn [Str.lower Str.rstrip]. rewrite IH, isspace_lower_char.
  destruct (Str.rstrip Str.isspace s); cbn [Str.lower]; [|reflexivity].
  destruct (Str.isspace c); reflexivity.
Qed.

Lemma strip_lower (s : string) : Str.strip (Str.lower s) = Str.lower (Str.strip s).
Proof. unfold Str.strip. now rewrite lstrip_lower, rstrip_lower. Qed.

Lemma rstrip_cons p (c : ascii) (r : string) :
  Str.rstrip p (String c r)
  = match Str.rstrip p r with
    | EmptyString => if p c then EmptyString else String c EmptyString
    | r' => String c r'
    end.
Proof. reflexivity. Qed.

Lemma rstrip_idem p (s : string) : Str.rstrip p (Str.rstrip p s) = Str.rstrip p s.
Proof.
  induction s as [|c s IH]; [reflexivity|].
  rewrite rstrip_cons. destruct (Str.rstrip p s) as [|c' r'] eqn:R.
  - destruct (p c) eqn:Pc; [reflexivity|]. cbn [Str.rstrip]. now rewrite Pc.
  - rewrite (rstrip_cons p c (String c' r')), IH. reflexivity.
Qed.

Lemma lstrip_stripped p (s : string) : stripped_left p (Str.lstrip p s).
Proof.
  induction s as [|c s IH]; [exact I|].
  cbn [Str.lstrip]. destruct (p c) eqn:Pc; [exact IH | exact Pc].
Qed.

Lemma lstrip_id p (s : string) : stripped_left p s -> Str.lstrip p s = s.
Proof. destruct s as [|c s]; [reflexivity|]. cbn. now intros ->. Qed.

Lemma rstrip_stripped p (s : string) : stripped_left p s -> stripped_left p (Str.rstrip p s).
Proof.
  destruct s as [|c s]; [exact (fun x => x)|].
  cbn [stripped_left Str.rstrip]. intros Pc.
  destruct (Str.rstrip p s); [now rewrite Pc | exact Pc].
Qed.

Lemma strip_idem (s : string) : Str.strip (Str.strip s) = Str.strip s.
Proof.
  unfold Str.strip.
  rewrite (lstrip_id Str.isspace (Str.rstrip _ _)).
  - apply rstrip_idem.
  - apply rstrip_stripped, lstrip_stripped.
Qed.

Lemma lstrip_all p (w : string) : Str.all p w = true -> Str.lstrip p w = EmptyString.
Proof.
  induction w as [|c w IH]; [reflexivity|].
  cbn. intros [Pc Pw]%andb_true_iff. rewrite Pc. auto.
Qed.

Lemma rstrip_all p (w : string) : Str.all p w = true -> Str.rstrip p w = EmptyString.
Proof.
  induction w as [|c w IH]; [reflexivity|].
  cbn. intros [Pc Pw]%andb_true_iff. now rewrite IH, Pc.
Qed.

Lemma lstrip_padding p (w x : string) :
  Str.all p w = true -> Str.lstrip p (w ++ x) = Str.lstrip p x.
Proof.
  induction w as [|c w IH]; [reflexivity|].
  cbn [Str.all]. intros [Pc Pw]%andb_true_iff.
  rewrite append_cons. cbn [Str.lstrip]. rewrite Pc. auto.
Qed.

Lemma rstrip_padding p (x w : string) :
  Str.all p w = true -> Str.rstrip p (x ++ w) = Str.rstrip p x.
Proof.
  intros Pw. induction x as [|c x IH].
  - change (Str.rstrip p w = EmptyString). now apply rstrip_all.
  - rewrite append_cons. cbn [Str.rstrip]. now rewrite IH.
Qed.

Lemma strip_lstrip_padding p (x w : string) :
  Str.all p w = true ->
  Str.rstrip p (Str.lstrip p (x ++ w)) = Str.rstrip p (Str.lstrip p x).
Proof.
  intros Pw. induction x as [|c x IH].
  - change (Str.rstrip p (Str.lstrip p w) = EmptyString).
    now rewrite (lstrip_all p w Pw).
  - rewrite append_cons. cbn [Str.lstrip]. destruct (p c); [exact IH|].
    rewrite <- append_cons. now apply rstrip_padding.
Qed.

Lemma strip_padding (w1 x w2 : string) :
  Str.all Str.isspace w1 = true -> Str.all Str.isspace w2 = true ->
  Str.strip (w1 ++ x ++ w2) = Str.strip x.
Proof.
  intros P1 P2. unfold Str.strip.
  rewrite (lstrip_padding _ w1 _ P1). now apply strip_lstrip_padding.
Qed.

Lemma lstrip_decompose p (s : string) :
  exists w, Str.all p w = true /\ s = w ++ Str.lstrip p s.
Proof.
  induction s as [|c s (w & Pw & E)]; [now exists EmptyString|].
  cbn [Str.lstrip]. destruct (p c) eqn:Pc.
  - exists (String c w). cbn [Str.all]. rewrite Pc, Pw, append_cons. now rewrite <- E.
  - now exists EmptyString.
Qed.

Lemma rstrip_decompose p (s : string) :
  exists w, Str.all p w = true /\ s = Str.rstrip p s ++ w.
Proof.
  induction s as [|c s (w & Pw & E)]; [now exists EmptyString|].
  rewrite rstrip_cons. destruct (Str.rstrip p s) as [|c' r'] eqn:R.
  - change (EmptyString ++ w) with w in E. subst w. destruct (p c) eqn:Pc.
    + exists (String c s). cbn [Str.all]. now rewrite Pc, Pw.
    + now exists s.
  - exists w. split; [assumption|]. rewrite !append_cons. now rewrite <- append_cons, <- E.
Qed.

Lemma strip_decompose (s : string) :
  exists w1 w2,
    Str.all Str.isspace w1 = true /\ Str.all Str.isspace w2 = true
    /\ s = w1 ++ Str.strip s ++ w2.
Proof.
  destruct (lstrip_decompose Str.isspace s) as (w1 & P1 & E1).
  destruct (rstrip_decompose Str.isspace (Str.lstrip Str.isspace s)) as (w2 & P2 & E2).
  exists w1, w2. unfold Str.strip. now rewrite <- E2.
Qed.

End Normalisation.

(** X8. [run] reads the two lines stripped, and the breed in lower case:
    a run is the run of the normalised lines, the case of the breed does not
    matter, and white space around either line does not matter. A stripped
    line is the line without the white space at its two ends, and stripping
    it again changes nothing. *)
Theorem run_reads_its_inputs_stripped_and_the_breed_in_lower_case
    `{UrlChecks} (breed_line token_line : string) :
  DogImageUploader.run breed_line token_line
  = DogImageUploader.run (Str.lower (Str.strip breed_line)) (Str.strip token_line)
  /\ DogImageUploader.run (Str.lower breed_line) token_line
     = DogImageUploader.run breed_line token_line
  /\ (forall w1 w2 w3 w4,
        Str.all Str.isspace w1 = true -> Str.all Str.isspace w2 = true ->
        Str.all Str.isspace w3 = true -> Str.all Str.isspace w4 = true ->
        DogImageUploader.run (w1 ++ breed_line ++ w2) (w3 ++ token_line ++ w4)
        = DogImageUploader.run breed_line token_line)
  /\ (exists w1 w2,
        Str.all Str.isspace w1 = true /\ Str.all Str.isspace w2 = true
        /\ token_line = w1 ++ Str.strip token_line ++ w2)
  /\ Str.strip (Str.strip token_line) = Str.strip token_line.
Proof.
  conjs.
  - unfold DogImageUploader.run. now rewrite strip_lower, lower_idem, !strip_idem.
  - unfold DogImageUploader.run. now rewrite strip_lower, lower_idem.
  - intros w1 w2 w3 w4 P1 P2 P3 P4. unfold DogImageUploader.run.
    now rewrite !strip_padding.
  - apply strip_decompose.
  - apply strip_idem.
Qed.

(** ** The destination paths *)

Section Paths.

Lemma has_append c (a b : string) : Str.has c (a ++ b) = Str.has c a || Str.has c b.
Proof.
  induction a as [|x a IH]; [reflexivity|].
  rewrite append_cons. cbn [Str.has]. now rewrite IH, orb_assoc.
Qed.

Lemma rstrip_free p (s : string) :
  Str.all (fun c => negb (p c)) s = true -> Str.rstrip p s = s.
Proof.
  induction s as [|c s IH]; [reflexivity|].
  cbn [Str.all]. intros [Pc Ps]%andb_true_iff. apply negb_true_iff in Pc.
  rewrite rstrip_cons, (IH Ps), Pc. now destruct s.
Qed.

Lemma rstrip_keeps p (a b : string) :
  Str.rstrip p b <> EmptyString -> Str.rstrip p (a ++ b) = a ++ Str.rstrip p b.
Proof.
  intros Nb. induction a as [|c a IH]; [reflexivity|].
  rewrite !append_cons, rstrip_cons, IH.
  destruct (a ++ Str.rstrip p b) as [|x r] eqn:E; [|reflexivity].
  destruct a; [|discriminate]. now destruct Nb.
Qed.

Lemma sep_free (s : string) :
  Str.has "/"%char s = false ->
  Str.all (fun c => negb (Ascii.eqb posixpath.sep c)) s = true.
Proof.
  intros Hs. apply has_false_all in Hs. revert Hs. apply all_impl.
  intros c. unfold posixpath.sep. now rewrite (Ascii.eqb_sym c).
Qed.

Lemma slot_path_folder folder breed sub filename :
  slot_path folder breed sub filename = folder ++ slot_path EmptyString breed sub filename.
Proof. destruct sub; reflexivity. Qed.

Lemma slot_name_free breed sub filename :
  Str.has "/"%char breed = false ->
  (forall sub_breed, sub = Some sub_breed -> Str.has "/"%char sub_breed = false) ->
  Str.has "/"%char filename = false ->
  Str.has "/"%char (slot_path EmptyString breed sub filename) = false.
Proof.
  intros Hb Hs Hf. destruct sub as [sub_breed|]; cbn [slot_path].
  - change (Str.has "/"%char (breed ++ "_" ++ sub_breed ++ "_" ++ filename) = false).
    rewrite !has_append, Hb, (Hs sub_breed eq_refl), Hf. reflexivity.
  - change (Str.has "/"%char (breed ++ "_" ++ filename) = false).
    rewrite !has_append, Hb, Hf. reflexivity.
Qed.

(** In the folder of a breed, the parent of a destination path is the folder
    (without its last separator), and its last segment is the name given to
    the file. *)
Lemma built_path_parts breed sub filename :
  breed <> EmptyString -> Str.has "/"%char breed = false ->
  (forall sub_breed, sub = Some sub_breed -> Str.has "/"%char sub_breed = false) ->
  Str.has "/"%char filename = false ->
  posixpath.dirname (slot_path ("/" ++ breed ++ "/") breed sub filename) = "/" ++ breed
  /\ posixpath.basename (slot_path ("/" ++ breed ++ "/") breed sub filename)
     = slot_path EmptyString breed sub filename.
Proof.
  intros Nb Hb Hs Hf.
  pose proof (slot_name_free breed sub filename Hb Hs Hf) as Free.
  rewrite slot_path_folder. set (name := slot_path EmptyString breed sub filename) in *.
  assert (E : ("/" ++ breed ++ "/") ++ name = ("/" ++ breed) ++ String "/" name).
  { rewrite !append_assoc. reflexivity. }
  rewrite E. unfold posixpath.dirname, posixpath.basename, posixpath.sep.
  rewrite (split_last_at "/" _ _ Free). split; [|reflexivity].
  assert (Head : ("/" ++ breed) ++ String "/" EmptyString <> EmptyString) by discriminate.
  destruct (String.eqb_spec (("/" ++ breed) ++ String "/" EmptyString) EmptyString)
    as [X|_]; [contradiction|].
  assert (A : Str.all (Ascii.eqb "/") (("/" ++ breed) ++ String "/" EmptyString) = false).
  { rewrite all_append. apply andb_false_iff. left.
    destruct breed as [|c breed]; [contradiction|].
    cbn in Hb. apply orb_false_iff in Hb as [Hc _].
    change (Ascii.eqb "/" "/" && (Ascii.eqb "/" c && Str.all (Ascii.eqb "/") breed) = false).
    rewrite (Ascii.eqb_sym "/" c), Hc. reflexivity. }
  rewrite A. cbn [negb andb].
  rewrite rstrip_padding by reflexivity.
  assert (R : Str.rstrip (Ascii.eqb "/") breed = breed) by now apply rstrip_free, sep_free.
  rewrite rstrip_keeps; rewrite R; [reflexivity | assumption].
Qed.

Lemma split_last_eq c (s h t : string) :
  Str.split_last c s = Some (h, t) -> s = h ++ String c t.
Proof.
  revert h. induction s as [|a s IH]; cbn; [discriminate|].
  intros h E. destruct (Str.split_last c s) as [[h' t']|].
  - injection E as <- <-. rewrite append_cons. now rewrite <- (IH h').
  - destruct (Ascii.eqb_spec a c) as [->|]; [|discriminate]. now injection E as <- <-.
Qed.

Lemma append_empty (x : string) : x ++ EmptyString = x.
Proof. induction x as [|c x IH]; [reflexivity|]. rewrite append_cons. now f_equal. Qed.

(** [rstrip] does not return a text that ends with a character it strips. *)
Lemma rstrip_last p (x : string) (c : ascii) :
  p c = true -> Str.rstrip p (x ++ String c EmptyString) <> x ++ String c EmptyString.
Proof.
  intros Pc E. rewrite rstrip_padding in E by (cbn; now rewrite Pc).
  destruct (rstrip_decompose p x) as (w & _ & D).
  apply (f_equal String.length) in D. rewrite E, !length_append in D.
  change (String.length (String c EmptyString)) with 1%nat in D. lia.
Qed.

Lemma rstrip_empty p (s : string) : Str.rstrip p s = EmptyString -> Str.all p s = true.
Proof.
  intros R. destruct (rstrip_decompose p s) as (w & Pw & E).
  rewrite R in E. now subst s.
Qed.

End Paths.

(** X9. The file name [get_filename_from_url] returns is one path segment:
    it has no "/", no "?", no "#" and no tab or line break, so it is its own
    base name, and it is the base name of every path it is appended to after
    a "/". *)
Theorem get_filename_from_url_returns_one_path_segment
    `{UrlChecks} (url : option string) (filename : string) :
  ImageFilenameHelper.get_filename_from_url url = Return filename ->
  Str.has "/"%char filename = false
  /\ Str.has "?"%char filename = false
  /\ Str.has "#"%char filename = false
  /\ Str.all (fun c => negb (urllib.unsafe_byte c)) filename = true
  /\ posixpath.basename filename = filename
  /\ (forall folder,
        posixpath.basename (folder ++ "/" ++ filename) = filename).
Proof.
  intros E. destruct (extracted_name_clean url filename E) as (Slash & Quest & Hash & Safe).
  conjs; try assumption.
  - now apply basename_id.
  - intros folder. unfold posixpath.basename, posixpath.sep.
    change (folder ++ "/" ++ filename) with (folder ++ String "/" filename).
    now rewrite split_last_at.
Qed.

(** The path of a record of a slot, in the folder of the breed. *)
Lemma slot_record_parent `{UrlChecks} breed sub r :
  breed <> EmptyString -> Str.has "/"%char breed = false ->
  (forall sub_breed, sub = Some sub_breed -> Str.has "/"%char sub_breed = false) ->
  slot_record breed sub ("/" ++ breed ++ "/") r ->
  posixpath.dirname (rec_yandex_disk_path r) = "/" ++ breed.
Proof.
  intros Nb Hb Hs [image_url filename success F|]; cbn [rec_yandex_disk_path fetched_record fallback_record].
  - destruct (extracted_name_clean image_url filename F) as (Slash & _).
    now apply built_path_parts.
  - now apply built_path_parts.
Qed.

(** The requests of a slot that create a folder create the folder of the
    breed. *)
Lemma slot_requests_parent `{UrlChecks} uploader breed sub requests :
  breed <> EmptyString -> Str.has "/"%char breed = false ->
  (forall sub_breed, sub = Some sub_breed -> Str.has "/"%char sub_breed = false) ->
  slot_requests uploader ("/" ++ breed ++ "/") breed sub requests ->
  Forall (fun r => req_method r = PUT -> r = put_folder uploader ("/" ++ breed)) requests.
Proof.
  intros Nb Hb Hs (disk & -> & Shape). constructor; [discriminate|].
  destruct Shape as [->|(image_url & filename & F & Shape)]; [constructor|].
  destruct (extracted_name_clean image_url filename F) as (Slash & _).
  destruct (built_path_parts breed sub filename Nb Hb Hs Slash) as [D _].
  unfold upload_attempt in Shape. rewrite D in Shape.
  destruct Shape as [->|[->| ->]]; repeat constructor; try discriminate; reflexivity.
Qed.

(** X10. In a run that passes the resolution of the breed and the creation
    of the folder, when neither the breed nor a sub-breed has a "/" in its
    name (and the breed is not empty), every record's path lies directly in
    the folder of the breed: its parent ([os.path.dirname]) is "/breed". So
    every folder the run asks the disk to create is that folder: "/breed/"
    at the start, "/breed" when an upload is retried. *)
Theorem uploads_go_directly_into_the_folder_of_the_breed
    `{UrlChecks} (breed_line token_line : string) (s : state)
    (m : gmap string (list string)) (sub_breeds : list string) :
  let breed := Str.lower (Str.strip breed_line) in
  let uploader := YandexDiskUploader.__init__ (Str.strip token_line) in
  let out := DogImageUploader.run breed_line token_line s in
  Str.strip token_line <> EmptyString ->
  (DogAPI.get_all_breeds s).1 = Return (Mapping m) ->
  m !! breed = Some sub_breeds ->
  answer (disk_replies s) 0 = Some 201 \/ answer (disk_replies s) 0 = Some 409 ->
  breed <> EmptyString -> Str.has "/"%char breed = false ->
  Forall (fun sub_breed => Str.has "/"%char sub_breed = false) sub_breeds ->
  Forall (fun r => posixpath.dirname (rec_yandex_disk_path r) = "/" ++ breed)
    (results out.2)
  /\ exists new,
       sent out.2 = (sent s ++ new)%list
       /\ Forall (fun r => req_method r = PUT ->
                    r = put_folder uploader ("/" ++ breed ++ "/")
                    \/ r = put_folder uploader ("/" ++ breed)) new.
Proof.
  intros breed uploader out N Hget L Created Nb Hb Hs.
  destruct (run_reaches_the_uploads breed_line token_line s m sub_breeds N Hget L Created)
    as (s2 & E & S2 & _).
  fold breed uploader in E, S2.
  destruct (upload_all_spec breed sub_breeds ("/" ++ breed ++ "/") uploader s2)
    as (r0 & rs & s3 & E3 & R3 & S0 & Ss & _).
  destruct (upload_all_requests breed sub_breeds ("/" ++ breed ++ "/") uploader s2)
    as (slots & s3' & E3' & S3 & F3 & _).
  rewrite E3 in E3'. injection E3' as <-.
  subst out. rewrite E, E3. cbn [snd]. split.
  - rewrite R3. constructor.
    + apply (slot_record_parent breed None r0); auto. discriminate.
    + clear - Ss Nb Hb Hs. induction Ss as [|sub_breed r subs rs' S _ IH]; constructor.
      * apply Forall_cons in Hs as [Hsb _].
        apply (slot_record_parent breed (Some sub_breed) r); auto. now intros ? [= <-].
      * apply IH. now apply Forall_cons in Hs as [_ ?].
  - exists (get_breeds :: put_folder uploader ("/" ++ breed ++ "/") :: concat slots).
    split; [rewrite S3, S2, <- app_assoc; reflexivity|].
    constructor; [discriminate|]. constructor; [now left|].
    assert (Subs : forall sub, In sub (None :: map Some sub_breeds) ->
                     forall sub_breed, sub = Some sub_breed ->
                       Str.has "/"%char sub_breed = false).
    { intros sub [<-|I] sub_breed; [discriminate|]. intros ->.
      apply in_map_iff in I as (x & [= ->] & I).
      rewrite List.Forall_forall in Hs. now apply Hs. }
    clear - F3 Nb Hb Subs. revert Subs.
    induction F3 as [|sub requests subs slots' S _ IH]; intros Subs; [constructor|].
    cbn [concat]. apply Forall_app. split.
    + apply (slot_requests_parent uploader breed sub requests Nb Hb) in S.
      * eapply Forall_impl; [exact S|]. cbn. auto.
      * apply Subs. now left.
    + apply IH. intros sub' I. apply Subs. now right.
Qed.

(** X16. [os.path.dirname] and [os.path.basename], which give the folder of
    the retry and the file name, split a path: the base name has no "/"; a
    path without "/" has an empty parent and is its own base name; a path
    with a "/" has a parent that is not empty, and is its parent, then
    separators, then its base name, the separators missing only when the
    parent is made of separators (as in "/a.jpg"). The parent does not end
    with a separator unless it is made of separators only. *)
Theorem dirname_and_basename_split_a_path (p : string) :
  Str.has "/"%char (posixpath.basename p) = false
  /\ (Str.has "/"%char p = false ->
      posixpath.dirname p = EmptyString /\ posixpath.basename p = p)
  /\ (Str.has "/"%char p = true ->
      posixpath.dirname p <> EmptyString
      /\ exists seps,
           Str.all (Ascii.eqb posixpath.sep) seps = true
           /\ p = posixpath.dirname p ++ seps ++ posixpath.basename p
           /\ (seps = EmptyString ->
               Str.all (Ascii.eqb posixpath.sep) (posixpath.dirname p) = true))
  /\ (Str.all (Ascii.eqb posixpath.sep) (posixpath.dirname p) = true
      \/ Str.rstrip (Ascii.eqb posixpath.sep) (posixpath.dirname p) = posixpath.dirname p).
Proof.
  split; [apply basename_free|].
  unfold posixpath.dirname, posixpath.basename, posixpath.sep.
  destruct (Str.split_last "/"%char p) as [[h t]|] eqn:L.
  - assert (Has : Str.has "/"%char p = true).
    { destruct (Str.has "/"%char p) eqn:X; [reflexivity|].
      apply split_last_none in X. congruence. }
    apply split_last_eq in L.
    set (head := h ++ String "/" EmptyString).
    assert (Ph : p = head ++ t).
    { subst head. rewrite append_assoc. exact L. }
    assert (Nh : head <> EmptyString) by (subst head; now destruct h).
    destruct (String.eqb_spec head EmptyString) as [X|_]; [contradiction|]. cbn [negb andb].
    destruct (Str.all (Ascii.eqb "/") head) eqn:A; cbn [negb].
    + conjs; [congruence | | now left]. intros _. split; [assumption|].
      exists EmptyString. now repeat split.
    + destruct (rstrip_decompose (Ascii.eqb "/") head) as (w & Pw & E).
      conjs; [congruence | | right; apply rstrip_idem]. intros _. split.
      * intros R. apply rstrip_empty in R. congruence.
      * exists w. split; [assumption|]. split.
        -- rewrite Ph at 1. rewrite E at 1. now rewrite append_assoc.
        -- intros ->. exfalso. rewrite append_empty in E.
           now apply (rstrip_last (Ascii.eqb "/") h "/").
  - assert (Has : Str.has "/"%char p = false) by now apply split_last_none.
    cbn. conjs; [auto | congruence | now left].
Qed.

(** ** The query and the fragment of an image URL *)

Section Suffix.
Context `{UrlChecks}.

Lemma lstrip_stop p (a : string) d (b : string) :
  p d = false -> Str.lstrip p (a ++ String d b) = Str.lstrip p a ++ String d b.
Proof.
  intros Pd. induction a as [|c a IH].
  - change (Str.lstrip p (String d b) = String d b). cbn. now rewrite Pd.
  - rewrite append_cons. cbn [Str.lstrip]. destruct (p c); [exact IH | reflexivity].
Qed.

Lemma remove_append p (a b : string) :
  Str.remove p (a ++ b) = Str.remove p a ++ Str.remove p b.
Proof.
  induction a as [|c a IH]; [reflexivity|].
  rewrite append_cons. cbn [Str.remove]. destruct (p c); [exact IH|].
  rewrite append_cons. now rewrite IH.
Qed.

Lemma cleaned_suffix url d q :
  starts_suffix d ->
  cleaned (url ++ String d q) = cleaned url ++ String d (Str.remove urllib.unsafe_byte q).
Proof.
  intros D. unfold cleaned.
  rewrite lstrip_stop by (destruct D as [-> | ->]; reflexivity).
  rewrite remove_append. f_equal. cbn [Str.remove].
  now destruct D as [-> | ->].
Qed.

Lemma split_first_append c (a b : string) :
  Str.split_first c (a ++ b)
  = match Str.split_first c a with
    | Some (h, t) => Some (h, t ++ b)
    | None =>
        match Str.split_first c b with
        | Some (h, t) => Some (a ++ h, t)
        | None => None
        end
    end.
Proof.
  induction a as [|x a IH].
  - change (Str.split_first c b
            = match Str.split_first c b with
              | Some (h, t) => Some (EmptyString ++ h, t)
              | None => None
              end).
    now destruct (Str.split_first c b) as [[h t]|].
  - rewrite append_cons. cbn [Str.split_first]. destruct (Ascii.eqb x c); [reflexivity|].
    rewrite IH. destruct (Str.split_first c a) as [[h t]|]; [reflexivity|].
    now destruct (Str.split_first c b) as [[h t]|].
Qed.

Lemma split_first_at c (a b : string) :
  Str.has c a = false -> Str.split_first c (a ++ String c b) = Some (a, b).
Proof.
  intros Ha. induction a as [|x a IH].
  - change (Str.split_first c (String c b) = Some (EmptyString, b)).
    cbn. now rewrite Ascii.eqb_refl.
  - cbn in Ha. apply orb_false_iff in Ha as [Hx Ha].
    rewrite append_cons. cbn [Str.split_first]. now rewrite Hx, (IH Ha).
Qed.

Lemma split_scheme_suffix v d q :
  starts_suffix d ->
  urllib.split_scheme (v ++ String d q)
  = ((urllib.split_scheme v).1, (urllib.split_scheme v).2 ++ String d q).
Proof.
  intros D. unfold urllib.split_scheme. rewrite split_first_append.
  destruct (Str.split_first ":"%char v) as [[[|c0 before] after]|] eqn:S.
  - reflexivity.
  - destruct (_ && _); reflexivity.
  - assert (Nc : Ascii.eqb d ":" = false) by (destruct D as [-> | ->]; reflexivity).
    cbn [Str.split_first]. rewrite Nc.
    destruct (Str.split_first ":"%char q) as [[h t]|]; [|reflexivity].
    destruct v as [|c0 v].
    + change (EmptyString ++ String d h) with (String d h).
      assert (A : Str.isalpha d = false) by (destruct D as [-> | ->]; reflexivity).
      cbv beta iota. rewrite A, andb_false_r. reflexivity.
    + rewrite append_cons.
      assert (A : Str.all urllib.scheme_char (String c0 (v ++ String d h)) = false).
      { rewrite <- append_cons, all_append. apply andb_false_iff. right.
        cbn [Str.all]. apply andb_false_iff. left.
        destruct D as [-> | ->]; reflexivity. }
      cbv beta iota. rewrite A, andb_false_r. reflexivity.
Qed.

Lemma startswith_slashes_suffix (r : string) d q :
  starts_suffix d ->
  Str.startswith (r ++ String d q) "//" = Str.startswith r "//".
Proof.
  intros D.
  assert (Nd : Ascii.eqb "/" d = false) by (destruct D as [-> | ->]; reflexivity).
  destruct r as [|a [|b r]].
  - change (Ascii.eqb "/" d && Str.startswith q "/" = false). now rewrite Nd.
  - rewrite append_cons. change (EmptyString ++ String d q) with (String d q).
    cbn [Str.startswith]. rewrite Nd. reflexivity.
  - rewrite !append_cons. cbn [Str.startswith].
    now rewrite !startswith_empty.
Qed.

Lemma break_delimiter p (a : string) d (b : string) :
  p d = true ->
  Str.break p (a ++ String d b) = ((Str.break p a).1, (Str.break p a).2 ++ String d b).
Proof.
  intros Pd. induction a as [|c a IH].
  - change (Str.break p (String d b) = (EmptyString, String d b)). cbn. now rewrite Pd.
  - rewrite append_cons. cbn [Str.break]. destruct (p c); [reflexivity|].
    rewrite IH. now destruct (Str.break p a).
Qed.

Lemma drop_two_suffix (r x : string) :
  Str.startswith r "//" = true -> Str.drop 2 (r ++ x) = Str.drop 2 r ++ x.
Proof.
  destruct r as [|a [|b r]]; cbn [Str.startswith]; rewrite ?andb_false_r;
    try discriminate. reflexivity.
Qed.

Lemma after_scheme_suffix url d q :
  starts_suffix d ->
  after_scheme (url ++ String d q)
  = after_scheme url ++ String d (Str.remove urllib.unsafe_byte q)
  /\ (urllib.split_scheme (cleaned (url ++ String d q))).1
     = (urllib.split_scheme (cleaned url)).1.
Proof.
  intros D. unfold after_scheme. rewrite (cleaned_suffix url d q D).
  now rewrite (split_scheme_suffix _ d _ D).
Qed.

Lemma after_netloc_suffix url d q :
  starts_suffix d ->
  after_netloc (url ++ String d q)
  = ((after_netloc url).1,
     (after_netloc url).2 ++ String d (Str.remove urllib.unsafe_byte q)).
Proof.
  intros D. unfold after_netloc.
  destruct (after_scheme_suffix url d q D) as [-> _].
  rewrite (startswith_slashes_suffix _ d _ D).
  destruct (Str.startswith (after_scheme url) "//") eqn:P; [|reflexivity].
  unfold urllib._splitnetloc. rewrite (drop_two_suffix _ _ P).
  apply break_delimiter. now destruct D as [-> | ->].
Qed.

Lemma components_eq url :
  components url =
  let '(rest, fragment) :=
    match Str.split_first "#"%char (after_netloc url).2 with
    | Some (h, t) => (h, t)
    | None => ((after_netloc url).2, EmptyString)
    end in
  let '(rest, query) :=
    match Str.split_first "?"%char rest with
    | Some (h, t) => (h, t)
    | None => (rest, EmptyString)
    end in
  {| urllib.scheme := (urllib.split_scheme (cleaned url)).1;
     urllib.netloc := (after_netloc url).1;
     urllib.path := rest; urllib.query := query; urllib.fragment := fragment |}.
Proof.
  unfold components, after_netloc.
  now destruct (if Str.startswith (after_scheme url) "//"
                then urllib._splitnetloc (after_scheme url)
                else (EmptyString, after_scheme url)) as [netloc rest].
Qed.

(** No [c] in the URL, none in what is left of it after the network
    location. *)
Lemma after_netloc_free c url :
  Str.has c url = false -> Str.has c (after_netloc url).2 = false.
Proof.
  rewrite !has_false_all. intros Hu. unfold after_netloc, after_scheme.
  assert (S3 : Str.all (fun a => negb (Ascii.eqb a c))
                 (urllib.split_scheme (cleaned url)).2 = true).
  { apply split_scheme_all. unfold cleaned. now apply all_remove, all_lstrip. }
  destruct (Str.startswith _ "//"); [|exact S3].
  unfold urllib._splitnetloc. now apply all_break, all_drop.
Qed.

Lemma route_fragment url f :
  Str.has "#"%char url = false -> route (url ++ String "#" f) = route url.
Proof.
  intros Hash. assert (D : starts_suffix "#") by now right.
  unfold route. rewrite !components_eq.
  destruct (after_scheme_suffix url "#" f D) as [-> ->].
  rewrite (startswith_slashes_suffix _ _ _ D), (after_netloc_suffix url "#" f D).
  cbn [fst snd].
  pose proof (after_netloc_free "#" url Hash) as Free.
  rewrite (split_first_at "#" _ _ Free).
  apply split_first_none in Free. rewrite Free.
  destruct (Str.split_first "?"%char (after_netloc url).2) as [[h t]|]; reflexivity.
Qed.

Lemma route_query url q :
  Str.has "#"%char url = false -> Str.has "?"%char url = false ->
  route (url ++ String "?" q) = route url.
Proof.
  intros Hash Quest. assert (D : starts_suffix "?") by now left.
  unfold route. rewrite !components_eq.
  destruct (after_scheme_suffix url "?" q D) as [-> ->].
  rewrite (startswith_slashes_suffix _ _ _ D), (after_netloc_suffix url "?" q D).
  cbn [fst snd].
  pose proof (after_netloc_free "#" url Hash) as FreeH.
  pose proof (after_netloc_free "?" url Quest) as FreeQ.
  set (rest := (after_netloc url).2) in *.
  set (q' := Str.remove urllib.unsafe_byte q).
  rewrite split_first_append.
  apply split_first_none in FreeH. rewrite FreeH.
  change (Str.split_first "#"%char (String "?" q'))
    with (match Str.split_first "#"%char q' with
          | Some (h, t) => Some (String "?" h, t)
          | None => None
          end).
  assert (Q0 : Str.split_first "?"%char rest = None) by now apply split_first_none.
  destruct (Str.split_first "#"%char q') as [[h t]|].
  - rewrite (split_first_at "?" rest h FreeQ), Q0. reflexivity.
  - rewrite (split_first_at "?" rest q' FreeQ), Q0. reflexivity.
Qed.

(** The file name is a function of the route of the URL. *)
Lemma get_filename_from_url_route url url' :
  route url' = route url ->
  ImageFilenameHelper.get_filename_from_url (Some url')
  = ImageFilenameHelper.get_filename_from_url (Some url).
Proof.
  unfold route. intros [= P S N Pa].
  unfold ImageFilenameHelper.get_filename_from_url, urllib.urlparse_path. cbn [urllib._coerce_args].
  rewrite !urlsplit_eq, P, N.
  destruct (if Str.startswith (after_scheme url) "//"
            then urllib.bracket_check (urllib.netloc (components url))
            else mret ()) as [[]|e]; cbn; [|reflexivity].
  destruct (urllib._checknetloc (urllib.netloc (components url))) as [[]|e]; cbn;
    [|reflexivity].
  now rewrite S, Pa.
Qed.

End Suffix.

(** X11. [get_filename_from_url] does not look at the fragment or at the
    query of the URL: appending "#fragment" to a URL without "#", or
    "?query" (and a fragment) to a URL without "?" and "#", changes neither
    the file name nor whether the extraction raises. *)
Theorem get_filename_from_url_ignores_the_query_and_the_fragment
    `{UrlChecks} (url : string) :
  (forall fragment,
      Str.has "#"%char url = false ->
      ImageFilenameHelper.get_filename_from_url (Some (url ++ "#" ++ fragment))
      = ImageFilenameHelper.get_filename_from_url (Some url))
  /\ (forall query,
        Str.has "#"%char url = false -> Str.has "?"%char url = false ->
        ImageFilenameHelper.get_filename_from_url (Some (url ++ "?" ++ query))
        = ImageFilenameHelper.get_filename_from_url (Some url))
  /\ (forall query fragment,
        Str.has "#"%char url = false -> Str.has "?"%char url = false ->
        ImageFilenameHelper.get_filename_from_url (Some (url ++ "?" ++ query ++ "#" ++ fragment))
        = ImageFilenameHelper.get_filename_from_url (Some url)).
Proof.
  conjs.
  - intros fragment Hash. apply get_filename_from_url_route.
    now apply (route_fragment url fragment).
  - intros query Hash Quest. apply get_filename_from_url_route.
    now apply (route_query url query).
  - intros query fragment Hash Quest. apply get_filename_from_url_route.
    now apply (route_query url (query ++ "#" ++ fragment)).
Qed.

(** ** Saving twice *)

(** X12. [save] never raises and touches no file but its own, nor the
    requests, the results or the fault of the file system. Without a fault
    it prints nothing and rewrites its file: the file holds the text of the
    records given, whatever an earlier [save] to the same name wrote. When
    the file cannot be opened the files are as they were; when writing fails
    after n bytes the file holds those n bytes. *)
Theorem save_rewrites_its_file_and_touches_no_other
    (records : list upload_record) (filename : string) (s : state) :
  let out := ResultSaver.save records filename s in
  out.1 = Return tt
  /\ (forall other, other <> filename -> files out.2 !! other = files s !! other)
  /\ sent out.2 = sent s /\ results out.2 = results s /\ fault out.2 = fault s
  /\ (fault s = NoFault ->
      printed out.2 = printed s
      /\ files out.2 !! filename = Some (result_file records)
      /\ forall earlier,
           files (ResultSaver.save records filename
                    (ResultSaver.save earlier filename s).2).2
           = files out.2)
  /\ (fault s = OpenFails -> files out.2 = files s)
  /\ (forall n, fault s = WriteFails n ->
      files out.2 !! filename = Some (take n (result_file records))).
Proof.
  intros out. subst out. rewrite save_eq. cbv zeta.
  fold (result_file records).
  destruct (fault s) eqn:F; cbn [fst snd]; conjs; try reflexivity; try discriminate;
    try (intros other Ne; cbn; now rewrite ?lookup_insert_ne by congruence);
    try (cbn; assumption).
  - intros _. conjs; [reflexivity | cbn; apply lookup_insert_eq |].
    intros earlier. rewrite !save_eq. cbv zeta. rewrite F. cbn. rewrite F. cbn.
    apply insert_insert_eq.
  - intros n' [= <-]. cbn. apply lookup_insert_eq.
Qed.

(** ** A run in which every answer is good *)

Section Accepted.
Context `{UrlChecks}.

Lemma process_slot_accepted breed sub folder uploader s image_url filename
    more_images more_disk :
  image_replies s = image_found image_url :: more_images ->
  ImageFilenameHelper.get_filename_from_url (Some image_url) = Return filename ->
  disk_replies s = Reply 202 tt :: more_disk ->
  exists s',
    process_slot breed sub folder uploader s = (Return tt, s')
    /\ results s'
       = (results s ++ [fetched_record breed sub folder (Some image_url) filename true])%list
    /\ image_replies s' = more_images /\ disk_replies s' = more_disk
    /\ fault s' = fault s /\ printed s' = printed s /\ files s' = files s.
Proof.
  intros I F D. rewrite process_slot_eq, fetch_image_eq, get_image_url_eq. cbv zeta.
  rewrite I. unfold image_found, body_of.
  change (error_status 200) with false. cbv iota.
  change (String.eqb "success" "success") with true. cbv iota.
  rewrite F, upload_from_url_eq. cbv zeta. cbn [disk_replies set_image_replies set_sent].
  rewrite D. change (202 =? 202) with true. cbv iota.
  eexists. split; [reflexivity|]. cbn. now repeat split.
Qed.

Lemma sub_breeds_loop_accepted breed folder uploader (sub_breeds urls : list string) :
  length urls = length sub_breeds ->
  Forall (fun u => exists filename,
            ImageFilenameHelper.get_filename_from_url (Some u) = Return filename) urls ->
  forall s more_images more_disk,
    image_replies s = (map image_found urls ++ more_images)%list ->
    disk_replies s = (repeat (Reply 202 tt) (length sub_breeds) ++ more_disk)%list ->
    exists rs s',
      DogImageUploader.for_each sub_breeds
        (fun sub_breed =>
           DogImageUploader._process_sub_breed_image breed sub_breed folder uploader) s
      = (Return tt, s')
      /\ results s' = (results s ++ rs)%list
      /\ Forall2 (accepted breed folder) (zip (map Some sub_breeds) urls) rs
      /\ image_replies s' = more_images /\ disk_replies s' = more_disk
      /\ fault s' = fault s /\ printed s' = printed s /\ files s' = files s.
Proof.
  revert urls. induction sub_breeds as [|sub_breed rest IH]; intros [|u urls] Len Names;
    try discriminate; intros s more_images more_disk I D.
  - exists [], s. cbn in *. rewrite app_nil_r. repeat split; auto.
  - apply Forall_cons in Names as [(filename & F) Names].
    cbn [DogImageUploader.for_each]. rewrite process_sub_breed_image_slot.
    cbn [map repeat length app] in I, D.
    destruct (process_slot_accepted breed (Some sub_breed) folder uploader s u filename
                _ _ I F D) as (s1 & E1 & R1 & I1 & D1 & FA1 & P1 & FI1).
    destruct (IH urls ltac:(cbn in Len; lia) Names s1 more_images more_disk I1 D1)
      as (rs & s2 & E2 & R2 & A2 & I2 & D2 & FA2 & P2 & FI2).
    eexists (_ :: rs), s2. unfold mbind, M_bind. rewrite E1, E2.
    repeat split; try congruence.
    + rewrite R2, R1, <- app_assoc. reflexivity.
    + cbn [map zip zip_with]. constructor; [|exact A2]. exists filename. now split.
Qed.

End Accepted.

(** X13. When every answer is good (the breed list holds the breed, the
    folder is created, each fetch is answered 200 with a "success" body
    whose URL has a file name, each upload is answered 202), the run ends
    normally with one record per slot, in order, each with the URL fetched
    for it and the status [uploaded], at the path built from the file name
    of its URL; exactly these answers are taken (no upload is retried), and
    without a fault of the file system the run prints its last line only
    and the result file holds the records. *)
Theorem run_uploads_every_image_when_every_answer_is_good
    `{UrlChecks} (breed_line token_line : string) (s : state)
    (m : gmap string (list string)) (sub_breeds urls : list string)
    (more_images : list (http_reply (api_body (option string))))
    (more_disk : list (http_reply unit)) :
  let breed := Str.lower (Str.strip breed_line) in
  let folder := "/" ++ breed ++ "/" in
  let out := DogImageUploader.run breed_line token_line s in
  Str.strip token_line <> EmptyString ->
  (DogAPI.get_all_breeds s).1 = Return (Mapping m) ->
  m !! breed = Some sub_breeds ->
  answer (disk_replies s) 0 = Some 201 \/ answer (disk_replies s) 0 = Some 409 ->
  length urls = S (length sub_breeds) ->
  Forall (fun u => exists filename,
            ImageFilenameHelper.get_filename_from_url (Some u) = Return filename) urls ->
  image_replies s = (map image_found urls ++ more_images)%list ->
  drop 1 (disk_replies s)
  = (repeat (Reply 202 tt) (S (length sub_breeds)) ++ more_disk)%list ->
  out.1 = Return tt
  /\ Forall2 (accepted breed folder) (zip (None :: map Some sub_breeds) urls) (results out.2)
  /\ Forall (fun r => rec_status r = uploaded) (results out.2)
  /\ map rec_image_url (results out.2) = map Some urls
  /\ image_replies out.2 = more_images /\ disk_replies out.2 = more_disk
  /\ (fault s = NoFault ->
      printed out.2 = (printed s ++ [Done])%list
      /\ files out.2 !! "results.json" = Some (result_file (results out.2))).
Proof.
  intros breed folder out N Hget L Created Len Names I D.
  destruct (run_reaches_the_uploads breed_line token_line s m sub_breeds N Hget L Created)
    as (s2 & E & _ & I2 & D2 & P2 & _ & FA2 & FI2).
  fold breed folder in E. subst out. rewrite E.
  set (uploader := YandexDiskUploader.__init__ (Str.strip token_line)).
  destruct urls as [|url0 urls]; [discriminate|].
  apply Forall_cons in Names as [(filename0 & F0) Names].
  unfold upload_all. cbv zeta. rewrite total_files_eq, loop_when_nonempty.
  unfold mbind, M_bind, DogImageUploader.tqdm, DogImageUploader.results_clear.
  cbv beta iota. rewrite process_breed_image_slot.
  set (s3 := set_results [] (set_pbar (Some (1 + Z.of_nat (length sub_breeds))) 0 s2)).
  assert (I3 : image_replies s3 = (image_found url0 :: map image_found urls ++ more_images)%list).
  { cbn. now rewrite I2, I. }
  assert (D3 : disk_replies s3
               = (Reply 202 tt :: repeat (Reply 202 tt) (length sub_breeds) ++ more_disk)%list).
  { cbn. now rewrite D2, D. }
  destruct (process_slot_accepted breed None folder uploader s3 url0 filename0 _ _ I3 F0 D3)
    as (s4 & E4 & R4 & I4 & D4 & FA4 & P4 & FI4).
  rewrite E4. cbv beta iota.
  destruct (sub_breeds_loop_accepted breed folder uploader sub_breeds urls
              ltac:(cbn in Len; lia) Names s4 more_images more_disk I4 D4)
    as (rs & s5 & E5 & R5 & A5 & I5 & D5 & FA5 & P5 & FI5).
  rewrite E5. cbv beta iota. unfold DogImageUploader.get_results. cbv beta iota.
  rewrite save_eq. cbv zeta.
  assert (R : results s5 = fetched_record breed None folder (Some url0) filename0 true :: rs).
  { rewrite R5, R4. reflexivity. }
  assert (A : Forall2 (accepted breed folder) (zip (None :: map Some sub_breeds) (url0 :: urls))
                (results s5)).
  { rewrite R. cbn [zip zip_with]. constructor; [|exact A5]. exists filename0. now split. }
  assert (U : Forall (fun r => rec_status r = uploaded) (results s5)
              /\ map rec_image_url (results s5) = map Some (url0 :: urls)).
  { clear - A Len. revert A. generalize (results s5).
    assert (Len' : length (None :: map Some sub_breeds) = length (url0 :: urls)).
    { cbn in *. rewrite length_map. lia. }
    revert Len'. generalize (url0 :: urls). generalize (None :: map Some sub_breeds).
    clear. intros subs. induction subs as [|sub subs IH]; intros [|u us] Len' rs A;
      try discriminate.
    - inversion A. split; constructor.
    - cbn [zip zip_with] in A. inversion A as [|? r ? rs' (name & _ & ->) A']; subst.
      destruct (IH us ltac:(cbn in Len'; lia) rs' A') as [IH1 IH2].
      split; [constructor; [reflexivity | exact IH1]|]. cbn. now rewrite IH2. }
  destruct U as [U1 U2].
  assert (FA : fault s5 = fault s) by (cbn in FA4; congruence).
  rewrite FA.
  destruct (fault s) eqn:Fs; cbn [fst snd];
    (conjs; [reflexivity | exact A | exact U1 | exact U2 | exact I5 | exact D5 |]);
    try (intros X; discriminate X).
  intros _. cbn. rewrite P5, P4. cbn. rewrite P2. split; [reflexivity|].
  rewrite lookup_insert_eq. reflexivity.
Qed.

(** ** The uploader and the rest of the state *)

(** X15. The two methods of the uploader act on the disk only: nothing is
    printed, no file, no record and no clock is touched, and no answer of the
    image service is taken. [create_folder] takes one answer of the disk.
    [upload_from_url] sends one to three requests (the upload; the creation
    of the parent folder; the upload again) and takes as many answers; it
    returns [true] only when the last request it sent is the upload and was
    answered 202. *)
Theorem the_uploader_acts_on_the_disk_only
    (self : YandexDiskUploader.t) (s : state) :
  (forall path,
      let out := YandexDiskUploader.create_folder self path s in
      network_only s out.2 /\ image_replies out.2 = image_replies s
      /\ disk_replies out.2 = drop 1 (disk_replies s))
  /\ (forall image_url yandex_path,
        let out := YandexDiskUploader.upload_from_url self image_url yandex_path s in
        network_only s out.2 /\ image_replies out.2 = image_replies s
        /\ exists disk,
             sent out.2 = (sent s ++ disk)%list
             /\ upload_attempt self image_url yandex_path disk
             /\ disk_replies out.2 = drop (length disk) (disk_replies s)
             /\ (out.1 = Return true ->
                 exists n, length disk = S n
                           /\ answer (disk_replies s) n = Some 202
                           /\ disk !! n = Some (post_upload self image_url yandex_path))).
Proof.
  split.
  - intros path out. subst out.
    pose proof (create_folder_network_only self path s) as N.
    rewrite create_folder_eq in *.
    destruct (disk_replies s) as [|[|code body] rest] eqn:R; cbn [fst snd] in *;
      (split; [exact N|]); cbn; auto.
  - intros image_url yandex_path out. subst out.
    pose proof (upload_from_url_network_only self image_url yandex_path s) as N.
    destruct (upload_from_url_requests self image_url yandex_path s)
      as (b & disk & s' & E & S & A & D & I & Ok).
    rewrite E in *. cbn [fst snd] in *. conjs; try assumption.
    exists disk. conjs; try assumption.
    intros [= ->]. destruct (Ok eq_refl) as (n & Ans & Len & Last). now exists n.
Qed.

(** ** The characters of the result file *)

Section Characters.

Lemma utf8_char_laid_out (c : ascii) :
  laid_out c = true -> forallb byte_laid_out (utf8_char c) = true.
Proof.
  destruct c as [[] [] [] [] [] [] [] []]; vm_compute; intros X; exact X || reflexivity.
Qed.

Lemma utf8_encode_laid_out (s : string) :
  Str.all laid_out s = true -> forallb byte_laid_out (utf8_encode s) = true.
Proof.
  induction s as [|c s IH]; [reflexivity|].
  cbn [Str.all utf8_encode]. intros [Pc Ps]%andb_true_iff.
  now rewrite forallb_app, (utf8_char_laid_out c Pc), IH.
Qed.

Lemma escape_char_printable (c : ascii) : Str.all printable (JSON.escape_char c) = true.
Proof. destruct c as [[] [] [] [] [] [] [] []]; reflexivity. Qed.

Lemma escape_printable (s : string) : Str.all printable (JSON.escape s) = true.
Proof.
  induction s as [|c s IH]; [reflexivity|].
  cbn [JSON.escape]. now rewrite all_append, escape_char_printable, IH.
Qed.

Lemma encode_basestring_printable (s : string) :
  Str.all printable (JSON.encode_basestring s) = true.
Proof.
  unfold JSON.encode_basestring. cbn [Str.all].
  rewrite all_append, escape_printable. reflexivity.
Qed.

Lemma printable_laid_out (s : string) :
  Str.all printable s = true -> Str.all laid_out s = true.
Proof. apply all_impl. intros c Pc. unfold laid_out. now rewrite Pc, orb_true_r. Qed.

Lemma spaces_laid_out (n : nat) : Str.all laid_out (JSON.spaces n) = true.
Proof. induction n as [|n IH]; [reflexivity | exact IH]. Qed.

Lemma newline_indent_laid_out (level : nat) :
  Str.all laid_out (JSON.newline_indent level) = true.
Proof. unfold JSON.newline_indent. cbn [Str.all]. now rewrite spaces_laid_out. Qed.

Lemma concat_all p (sep : string) (l : list string) :
  Str.all p sep = true -> Forall (fun x => Str.all p x = true) l ->
  Str.all p (String.concat sep l) = true.
Proof.
  intros Ps. induction 1 as [|x l Px Pl IH]; [reflexivity|].
  destruct l as [|y l]; [exact Px|].
  rewrite concat_cons2, !all_append, Px, Ps. exact IH.
Qed.

Lemma flat_laid_out (level : nat) (v : JSON.value) :
  flat v -> Str.all laid_out (JSON.encode level v) = true.
Proof.
  destruct v as [|s| |]; cbn [flat]; try contradiction; intros _; [reflexivity|].
  apply printable_laid_out, encode_basestring_printable.
Qed.

Lemma separator_laid_out (level : nat) : Str.all laid_out (separator level) = true.
Proof. unfold separator. now rewrite all_append, newline_indent_laid_out. Qed.

Lemma flat_object_laid_out (width level : nat) (v : JSON.value) :
  flat_object width v -> Str.all laid_out (JSON.encode level v) = true.
Proof.
  destruct v as [| | |[|kv members]]; cbn [flat_object]; try contradiction.
  { now intros [? _]. }
  intros (_ & Flat & _). rewrite encode_object, !all_append, !newline_indent_laid_out.
  rewrite concat_all; [reflexivity | apply separator_laid_out |].
  apply Forall_map. eapply Forall_impl; [exact Flat|]. intros [k x] F. cbn [snd] in F.
  unfold member_text. rewrite !all_append, (flat_laid_out _ _ F).
  now rewrite (printable_laid_out _ (encode_basestring_printable k)).
Qed.

Lemma records_laid_out (records : list upload_record) :
  Str.all laid_out (JSON.dumps (JSON.Arr (map ResultSaver.record_dict records))) = true.
Proof.
  unfold JSON.dumps. destruct records as [|r records]; [reflexivity|].
  cbn [map]. rewrite encode_array, !all_append, !newline_indent_laid_out.
  rewrite concat_all; [reflexivity | apply separator_laid_out |].
  apply Forall_map.
  change (ResultSaver.record_dict r :: map ResultSaver.record_dict records)
    with (map ResultSaver.record_dict (r :: records)).
  apply Forall_map, Forall_forall. intros x _.
  apply (flat_object_laid_out 5), record_dict_flat.
Qed.

End Characters.

(** X14. The text of the result file has no control character but the line
    feeds of its layout: a string is written without any control character
    (a tab or a line break in a name or a URL is written as its escape), so
    no value can break a line; and every byte of the file is a line feed or
    is at least 32. *)
Theorem the_result_file_has_no_control_character_but_the_line_feeds_of_its_layout
    (records : list upload_record) :
  Str.all laid_out (JSON.dumps (JSON.Arr (map ResultSaver.record_dict records))) = true
  /\ (forall s, Str.all printable (JSON.encode_basestring s) = true)
  /\ (forall s, Str.has JSON.newline (JSON.encode_basestring s) = false)
  /\ Forall (fun b => Byte.to_N b = 10%N \/ (32 <= Byte.to_N b)%N) (result_file records).
Proof.
  pose proof (records_laid_out records) as Text.
  conjs.
  - exact Text.
  - apply encode_basestring_printable.
  - intros s. apply has_false_all.
    eapply all_impl; [|apply encode_basestring_printable].
    intros c. destruct c as [[] [] [] [] [] [] [] []]; try reflexivity; discriminate.
  - unfold result_file. apply utf8_encode_laid_out in Text.
    apply List.Forall_forall. intros b I.
    apply (proj1 (forallb_forall _ _) Text) in I. unfold byte_laid_out in I.
    apply orb_true_iff in I as [E%N.eqb_eq|L%N.leb_le]; auto.
Qed.

(** ** Examples *)

Lemma get_image_url_returns_the_message_of_a_success_witness :
  (_get_image_url "https://dog.ceo/api/breed/hound/images/random" (one_image 200)).1
  = Return (Some "https://images.dog.ceo/breeds/hound-afghan/n02088094_1003.jpg")
  /\ error_status 404 = true
  /\ (_get_image_url "https://dog.ceo/api/breed/hound/images/random" (one_image 404)).1
     = Raise (ImageRequestError (HTTPError 404))
  /\ error_status 200 = false
  /\ (_get_image_url "https://dog.ceo/api/breed/hound/images/random"
        (fresh [] [Reply 200 (Object (Some "success") None)] [])).1
     = Raise KeyError.
Proof.
  split; [|split; [reflexivity|split; [|split; [reflexivity|]]]].
  - apply (proj1 (proj2 (proj2 (proj2 (proj2
             (get_image_url_returns_the_message_of_a_success
                "https://dog.ceo/api/breed/hound/images/random" (one_image 200))))))).
    exists 200, []. split; reflexivity.
  - eapply (proj1 (proj2 (proj2 (proj2 (proj2 (proj2 (proj2
              (get_image_url_returns_the_message_of_a_success
                 "https://dog.ceo/api/breed/hound/images/random" (one_image 404))))))))).
    + reflexivity.
    + reflexivity.
  - exact (proj1 (proj2 (proj2 (proj2 (proj2 (proj2 (proj2 (proj2
             (get_image_url_returns_the_message_of_a_success
                "https://dog.ceo/api/breed/hound/images/random"
                (fresh [] [Reply 200 (Object (Some "success") None)] []))))))))
             200 (Object (Some "success") None) [] eq_refl eq_refl) eq_refl).
Defined.

Lemma get_all_breeds_checks_the_http_status_only_witness :
  Str.strip "token" <> EmptyString
  /\ error_status 503 = true
  /\ (DogAPI.get_all_breeds catalog_unavailable).1 = Return (Mapping ∅)
  /\ printed (@DogImageUploader.run accept_all "hound" "token" catalog_unavailable).2
     = [ApiRequestFailed (HTTPError 503); BreedsUnavailable]
  /\ (DogAPI.get_all_breeds (fresh [Reply 200 (Object (Some "success") None)] [] [])).1
     = Raise KeyError
  /\ (@DogImageUploader.run accept_all "hound" "token"
        (fresh [Reply 200 (Object (Some "success") None)] [] [])).1 = Raise KeyError.
Proof.
  assert (N : Str.strip "token" <> EmptyString) by discriminate.
  assert (E : error_status 503 = true) by reflexivity.
  destruct (get_all_breeds_checks_the_http_status_only catalog_unavailable)
    as (_ & _ & _ & _ & _ & _ & _ & Failed & _ & _ & Run & _).
  destruct (Failed 503 _ _ eq_refl E) as [Empty _].
  destruct (Run accept_all "hound" "token" 503 _ _ N eq_refl E) as (_ & Printed & _).
  destruct (get_all_breeds_checks_the_http_status_only
              (fresh [Reply 200 (Object (Some "success") None)] [] []))
    as (_ & _ & _ & _ & _ & _ & _ & _ & Answered & _ & _ & Escapes).
  destruct (Answered 200 _ _ eq_refl eq_refl) as [_ Raised].
  destruct (Escapes accept_all "hound" "token" KeyError N Raised) as [Run_raises _].
  exact (conj N (conj E (conj Empty (conj Printed (conj Raised Run_raises))))).
Defined.

Lemma a_slot_sends_its_fetch_and_the_requests_of_one_upload_witness :
  (fetch_image "hound" None (one_image 200)).1
  = Return (Some "https://images.dog.ceo/breeds/hound-afghan/n02088094_1003.jpg")
  /\ @ImageFilenameHelper.get_filename_from_url accept_all
       (Some "https://images.dog.ceo/breeds/hound-afghan/n02088094_1003.jpg")
     = Return "n02088094_1003.jpg"
  /\ exists disk,
       sent (@process_image accept_all "hound" None "/hound/"
               (YandexDiskUploader.__init__ "token") (one_image 200)).2
       = get "https://dog.ceo/api/breed/hound/images/random" :: disk
       /\ upload_attempt (YandexDiskUploader.__init__ "token")
            (Some "https://images.dog.ceo/breeds/hound-afghan/n02088094_1003.jpg")
            "/hound/hound_n02088094_1003.jpg" disk.
Proof.
  assert (F : (fetch_image "hound" None (one_image 200)).1
              = Return (Some "https://images.dog.ceo/breeds/hound-afghan/n02088094_1003.jpg"))
    by reflexivity.
  assert (Name : @ImageFilenameHelper.get_filename_from_url accept_all
                   (Some "https://images.dog.ceo/breeds/hound-afghan/n02088094_1003.jpg")
                 = Return "n02088094_1003.jpg") by reflexivity.
  destruct (@a_slot_sends_its_fetch_and_the_requests_of_one_upload accept_all
              "hound" None "/hound/" (YandexDiskUploader.__init__ "token") (one_image 200))
    as (disk & Sent & _ & _ & _ & _ & _ & _ & Attempt).
  split; [exact F|]. split; [exact Name|].
  exists disk. split; [exact Sent | exact (Attempt _ _ F Name)].
Defined.

Lemma run_requests_follow_the_slots_witness :
  Str.strip "token" <> EmptyString
  /\ (DogAPI.get_all_breeds refused_upload).1 = Return (Mapping hound_catalog)
  /\ hound_catalog !! Str.lower (Str.strip "Hound") = Some ["afghan"; "blood"]
  /\ answer (disk_replies refused_upload) 0 = Some 201
  /\ exists slots,
       map req_url (List.filter is_fetch (concat slots))
       = ["https://dog.ceo/api/breed/hound/images/random";
          "https://dog.ceo/api/breed/hound/afghan/images/random";
          "https://dog.ceo/api/breed/hound/blood/images/random"]
       /\ (3 <= length (concat slots) <= 12)%nat
       /\ sent (@DogImageUploader.run accept_all "Hound" "token" refused_upload).2
          = get_breeds :: put_folder (YandexDiskUploader.__init__ "token") "/hound/"
            :: concat slots.
Proof.
  assert (N : Str.strip "token" <> EmptyString) by discriminate.
  assert (G : (DogAPI.get_all_breeds refused_upload).1 = Return (Mapping hound_catalog))
    by reflexivity.
  assert (L : hound_catalog !! Str.lower (Str.strip "Hound") = Some ["afghan"; "blood"])
    by reflexivity.
  assert (C : answer (disk_replies refused_upload) 0 = Some 201) by reflexivity.
  destruct (@run_requests_follow_the_slots accept_all "Hound" "token" refused_upload
              hound_catalog ["afghan"; "blood"] N G L (or_introl C))
    as (slots & Sent & _ & Urls & Len & _).
  refine (conj N (conj G (conj L (conj C _)))).
  exists slots. exact (conj Urls (conj Len Sent)).
Defined.

Lemma run_sleeps_half_a_second_per_slot_witness :
  Str.strip "token" <> EmptyString
  /\ (DogAPI.get_all_breeds refused_upload).1 = Return (Mapping hound_catalog)
  /\ hound_catalog !! Str.lower (Str.strip "hound") = Some ["afghan"; "blood"]
  /\ answer (disk_replies refused_upload) 0 = Some 201
  /\ slept_ms (@DogImageUploader.run accept_all "hound" "token" refused_upload).2 = 1500
  /\ pbar_n (@DogImageUploader.run accept_all "hound" "token" refused_upload).2 = 3.
Proof.
  assert (N : Str.strip "token" <> EmptyString) by discriminate.
  assert (G : (DogAPI.get_all_breeds refused_upload).1 = Return (Mapping hound_catalog))
    by reflexivity.
  assert (L : hound_catalog !! Str.lower (Str.strip "hound") = Some ["afghan"; "blood"])
    by reflexivity.
  assert (C : answer (disk_replies refused_upload) 0 = Some 201) by reflexivity.
  destruct (proj2 (@run_sleeps_half_a_second_per_slot accept_all "hound" "token"
                     refused_upload) hound_catalog ["afghan"; "blood"] N G L (or_introl C))
    as (_ & Bar & Slept).
  exact (conj N (conj G (conj L (conj C (conj Slept Bar))))).
Defined.

Lemma main_prints_done_exactly_when_it_leaves_records_witness :
  results (@main accept_all "hound" "token" refused_upload).2 <> []
  /\ exists lines,
       printed (@main accept_all "hound" "token" refused_upload).2 = lines
       /\ In Done lines.
Proof.
  assert (R : results (@main accept_all "hound" "token" refused_upload).2 <> [])
    by (vm_compute; discriminate).
  destruct (@main_prints_done_exactly_when_it_leaves_records accept_all "hound" "token"
              refused_upload) as (lines & Printed & Iff & _).
  split; [exact R|]. exists lines. split; [exact Printed | exact (proj2 Iff R)].
Defined.

Lemma run_reads_its_inputs_stripped_and_the_breed_in_lower_case_witness :
  Str.all Str.isspace " " = true
  /\ @DogImageUploader.run accept_all (" " ++ "Hound" ++ "  ") (" " ++ "token" ++ " ")
     = @DogImageUploader.run accept_all "Hound" "token".
Proof.
  split; [reflexivity|].
  apply (proj1 (proj2 (proj2 (@run_reads_its_inputs_stripped_and_the_breed_in_lower_case
                                accept_all "Hound" "token")))); reflexivity.
Defined.

Lemma get_filename_from_url_returns_one_path_segment_witness :
  @ImageFilenameHelper.get_filename_from_url accept_all
    (Some "https://images.dog.ceo/breeds/hound-afghan/n02088094_1003.jpg?size=large")
  = Return "n02088094_1003.jpg"
  /\ Str.has "/"%char "n02088094_1003.jpg" = false
  /\ posixpath.basename ("/hound" ++ "/" ++ "n02088094_1003.jpg") = "n02088094_1003.jpg".
Proof.
  assert (E : @ImageFilenameHelper.get_filename_from_url accept_all
                (Some "https://images.dog.ceo/breeds/hound-afghan/n02088094_1003.jpg?size=large")
              = Return "n02088094_1003.jpg") by reflexivity.
  destruct (@get_filename_from_url_returns_one_path_segment accept_all _ _ E)
    as (Slash & _ & _ & _ & _ & Last).
  split; [exact E|]. split; [exact Slash | exact (Last "/hound")].
Defined.

Lemma uploads_go_directly_into_the_folder_of_the_breed_witness :
  Str.strip "token" <> EmptyString
  /\ (DogAPI.get_all_breeds refused_upload).1 = Return (Mapping hound_catalog)
  /\ hound_catalog !! Str.lower (Str.strip "hound") = Some ["afghan"; "blood"]
  /\ answer (disk_replies refused_upload) 0 = Some 201
  /\ Str.has "/"%char (Str.lower (Str.strip "hound")) = false
  /\ Forall (fun sub_breed => Str.has "/"%char sub_breed = false) ["afghan"; "blood"]
  /\ Forall (fun r => posixpath.dirname (rec_yandex_disk_path r) = "/hound")
       (results (@DogImageUploader.run accept_all "hound" "token" refused_upload).2).
Proof.
  assert (N : Str.strip "token" <> EmptyString) by discriminate.
  assert (G : (DogAPI.get_all_breeds refused_upload).1 = Return (Mapping hound_catalog))
    by reflexivity.
  assert (L : hound_catalog !! Str.lower (Str.strip "hound") = Some ["afghan"; "blood"])
    by reflexivity.
  assert (C : answer (disk_replies refused_upload) 0 = Some 201) by reflexivity.
  assert (Nb : Str.lower (Str.strip "hound") <> EmptyString) by discriminate.
  assert (Hb : Str.has "/"%char (Str.lower (Str.strip "hound")) = false) by reflexivity.
  assert (Hs : Forall (fun sub_breed => Str.has "/"%char sub_breed = false)
                 ["afghan"; "blood"]) by (repeat constructor).
  destruct (@uploads_go_directly_into_the_folder_of_the_breed accept_all "hound" "token"
              refused_upload hound_catalog ["afghan"; "blood"] N G L (or_introl C) Nb Hb Hs)
    as (Records & _).
  exact (conj N (conj G (conj L (conj C (conj Hb (conj Hs Records)))))).
Defined.

Lemma get_filename_from_url_ignores_the_query_and_the_fragment_witness :
  Str.has "#"%char "https://images.dog.ceo/breeds/hound-afghan/n02088094_1003.jpg" = false
  /\ Str.has "?"%char "https://images.dog.ceo/breeds/hound-afghan/n02088094_1003.jpg" = false
  /\ @ImageFilenameHelper.get_filename_from_url accept_all
       (Some ("https://images.dog.ceo/breeds/hound-afghan/n02088094_1003.jpg"
              ++ "?" ++ "size=large&v=2" ++ "#" ++ "top"))
     = Return "n02088094_1003.jpg".
Proof.
  split; [reflexivity|]. split; [reflexivity|].
  rewrite (proj2 (proj2 (@get_filename_from_url_ignores_the_query_and_the_fragment
                           accept_all
                           "https://images.dog.ceo/breeds/hound-afghan/n02088094_1003.jpg"))
             "size=large&v=2" "top" eq_refl eq_refl).
  reflexivity.
Defined.

Lemma save_rewrites_its_file_and_touches_no_other_witness :
  fault (fresh [] [] []) = NoFault
  /\ "notes.txt" <> "results.json"
  /\ files (ResultSaver.save [fallback_record "hound" None "/hound/"] "results.json"
              (ResultSaver.save [] "results.json" (fresh [] [] [])).2).2
     = files (ResultSaver.save [fallback_record "hound" None "/hound/"] "results.json"
                (fresh [] [] [])).2
  /\ files (ResultSaver.save [fallback_record "hound" None "/hound/"] "results.json"
              (fresh [] [] [])).2 !! "notes.txt" = None.
Proof.
  assert (F : fault (fresh [] [] []) = NoFault) by reflexivity.
  assert (Ne : "notes.txt" <> "results.json") by discriminate.
  destruct (save_rewrites_its_file_and_touches_no_other
              [fallback_record "hound" None "/hound/"] "results.json" (fresh [] [] []))
    as (_ & Others & _ & _ & _ & Written & _).
  destruct (Written F) as (_ & _ & Again).
  refine (conj F (conj Ne (conj (Again []) _))).
  rewrite (Others "notes.txt" Ne). reflexivity.
Defined.

Lemma run_uploads_every_image_when_every_answer_is_good_witness :
  Str.strip "token" <> EmptyString
  /\ (DogAPI.get_all_breeds every_answer_good).1 = Return (Mapping hound_catalog)
  /\ hound_catalog !! Str.lower (Str.strip "hound") = Some ["afghan"; "blood"]
  /\ answer (disk_replies every_answer_good) 0 = Some 201
  /\ Forall (fun r => rec_status r = uploaded)
       (results (@DogImageUploader.run accept_all "hound" "token" every_answer_good).2)
  /\ map rec_yandex_disk_path
       (results (@DogImageUploader.run accept_all "hound" "token" every_answer_good).2)
     = ["/hound/hound_n02088238_9815.jpg"; "/hound/hound_afghan_n02088094_1003.jpg";
        "/hound/hound_blood_n02088466_6901.jpg"].
Proof.
  assert (N : Str.strip "token" <> EmptyString) by discriminate.
  assert (G : (DogAPI.get_all_breeds every_answer_good).1 = Return (Mapping hound_catalog))
    by reflexivity.
  assert (L : hound_catalog !! Str.lower (Str.strip "hound") = Some ["afghan"; "blood"])
    by reflexivity.
  assert (C : answer (disk_replies every_answer_good) 0 = Some 201) by reflexivity.
  assert (Names : Forall (fun u => exists filename,
                            @ImageFilenameHelper.get_filename_from_url accept_all (Some u)
                            = Return filename)
                    ["https://images.dog.ceo/breeds/hound-basset/n02088238_9815.jpg";
                     "https://images.dog.ceo/breeds/hound-afghan/n02088094_1003.jpg";
                     "https://images.dog.ceo/breeds/hound-blood/n02088466_6901.jpg"]).
  { constructor; [now exists "n02088238_9815.jpg"|].
    constructor; [now exists "n02088094_1003.jpg"|].
    constructor; [now exists "n02088466_6901.jpg" | constructor]. }
  destruct (@run_uploads_every_image_when_every_answer_is_good accept_all "hound" "token"
              every_answer_good hound_catalog ["afghan"; "blood"]
              ["https://images.dog.ceo/breeds/hound-basset/n02088238_9815.jpg";
               "https://images.dog.ceo/breeds/hound-afghan/n02088094_1003.jpg";
               "https://images.dog.ceo/breeds/hound-blood/n02088466_6901.jpg"] [] []
              N G L (or_introl C) eq_refl Names eq_refl eq_refl)
    as (_ & _ & Uploaded & _).
  refine (conj N (conj G (conj L (conj C (conj Uploaded _))))). reflexivity.
Defined.

Lemma the_uploader_acts_on_the_disk_only_witness :
  (YandexDiskUploader.upload_from_url (YandexDiskUploader.__init__ "token")
     (Some "https://images.dog.ceo/breeds/hound/a.jpg") "/hound/hound_a.jpg"
     folder_missing_once).1 = Return true
  /\ exists disk n,
       sent (YandexDiskUploader.upload_from_url (YandexDiskUploader.__init__ "token")
               (Some "https://images.dog.ceo/breeds/hound/a.jpg") "/hound/hound_a.jpg"
               folder_missing_once).2 = disk
       /\ length disk = S n
       /\ answer (disk_replies folder_missing_once) n = Some 202.
Proof.
  assert (T : (YandexDiskUploader.upload_from_url (YandexDiskUploader.__init__ "token")
                 (Some "https://images.dog.ceo/breeds/hound/a.jpg") "/hound/hound_a.jpg"
                 folder_missing_once).1 = Return true) by reflexivity.
  destruct (proj2 (the_uploader_acts_on_the_disk_only (YandexDiskUploader.__init__ "token")
                     folder_missing_once)
              (Some "https://images.dog.ceo/breeds/hound/a.jpg") "/hound/hound_a.jpg")
    as (_ & _ & disk & Sent & _ & _ & Ok).
  destruct (Ok T) as (n & Len & Ans & _).
  split; [exact T|]. exists disk, n. exact (conj Sent (conj Len Ans)).
Defined.

Lemma dirname_and_basename_split_a_path_witness :
  Str.has "/"%char "/hound/hound_a.jpg" = true
  /\ posixpath.dirname "/hound/hound_a.jpg" = "/hound"
  /\ exists seps,
       "/hound/hound_a.jpg"
       = posixpath.dirname "/hound/hound_a.jpg" ++ seps
         ++ posixpath.basename "/hound/hound_a.jpg".
Proof.
  assert (Has : Str.has "/"%char "/hound/hound_a.jpg" = true) by reflexivity.
  destruct (proj1 (proj2 (proj2 (dirname_and_basename_split_a_path "/hound/hound_a.jpg")))
              Has) as (_ & seps & _ & E & _).
  split; [exact Has|]. split; [reflexivity|]. exists seps. exact E.
Defined.
